(** * The store deployment pipeline of buildcart.ai

  A shallow embedding of [src/services/deploymentService.js], of the
  deployment handlers of [src/controllers/deploymentController.js], of
  the ownership and validation middleware and of the deployment routes.

  Conventions of the embedding.
  - Every [async] method is a computation of the monad [M]: it threads
    the [World] (database tables, file-system operations, clock reads,
    notifications) and ends in a value or in a thrown exception.  The
    effects made before a throw stay in the world, as in JavaScript.
  - What the outside decides (the clock, whether a file-system call or a
    mail delivery fails, the environment variable) is read from an [Env].
  - The [logger] calls are not modelled, nor are the [updatedAt] columns
    that Prisma refreshes on every update.  A database call throws only
    where the client refuses it (no row with the given id).
  - [path.join a b] is [a ++ "/" ++ b]: slugs, handles and ids are taken to
    be plain path segments. *)

From Stdlib Require Import List String Ascii Bool Arith NArith ZArith Lia.
From Stdlib Require Import DecimalString DecimalN Sorted Permutation.
Import ListNotations.

Open Scope string_scope.
Open Scope list_scope.

(* ================================================================== *)
(** ** JavaScript values used by the service *)
(* ================================================================== *)

Module Js.

(** A nullable string column: [None] is [null] (or [undefined]). *)
Definition jsstring := option string.

(** Truthiness of a nullable string: [null] and [''] are falsy. *)
Definition truthy (v : jsstring) : bool :=
  match v with
  | Some s => negb (s =? EmptyString)
  | None => false
  end.

(** [a || b] on nullable strings. *)
Definition or (a b : jsstring) : jsstring :=
  if truthy a then a else b.

(** Interpolation [${v}] inside a template literal. *)
Definition show (v : jsstring) : string :=
  match v with
  | Some s => s
  | None => "null"
  end.

(** [xs.slice(0, n)] *)
Definition slice0 {A} (n : nat) (xs : list A) : list A := firstn n xs.

(** [xs.join('')] *)
Definition join (xs : list string) : string := String.concat EmptyString xs.

(** The double-quote character; template text below is written with [~]
    where the source has a double quote (the source templates contain no
    [~]). *)
Definition dq : ascii := ascii_of_nat 34.

Fixpoint lit (s : string) : string :=
  match s with
  | EmptyString => EmptyString
  | String c r => String (if Ascii.eqb c "~" then dq else c) (lit r)
  end.

(** [String(n)] for a non-negative integer: its decimal digits. *)
Definition string_of_N (n : N) : string :=
  NilEmpty.string_of_uint (N.to_uint n).

Definition N_of_string (s : string) : option N :=
  option_map N.of_uint (NilEmpty.uint_of_string s).

End Js.

(* ================================================================== *)
(** ** Regular expressions, as far as [isValidDomain] needs them *)
(* ================================================================== *)

Module Regex.

(** Character classes of the domain pattern. *)
Definition between (lo hi c : ascii) : bool :=
  Nat.leb (nat_of_ascii lo) (nat_of_ascii c)
  && Nat.leb (nat_of_ascii c) (nat_of_ascii hi).

Definition alpha (c : ascii) : bool := between "a" "z" c || between "A" "Z" c.
Definition alnum (c : ascii) : bool := alpha c || between "0" "9" c.
Definition alnum_hyphen (c : ascii) : bool := alnum c || Ascii.eqb c "-".
Definition dot (c : ascii) : bool := Ascii.eqb c ".".

(** A pattern is a sequence of items [cls{lo,hi}]; [hi = None] is an open
    upper bound.  The whole pattern is anchored ([^ ... $]). *)
Record item := Item { cls : ascii -> bool; lo : nat; hi : option nat }.

Definition one (p : ascii -> bool) : item := Item p 1 (Some 1).

(** Consume between [lo] and [hi] characters of class [p] from [s] and
    return every possible rest, longest match first (greedy, with
    backtracking). *)
Fixpoint rests (p : ascii -> bool) (lo : nat) (hi : option nat)
         (s : string) : list string :=
  let stop := match lo with O => [s] | S _ => [] end in
  match s with
  | EmptyString => stop
  | String c r =>
      let more :=
        match hi with
        | Some O => []
        | Some (S h) => if p c then rests p (pred lo) (Some h) r else []
        | None => if p c then rests p (pred lo) None r else []
        end in
      more ++ stop
  end.

Fixpoint matches (pat : list item) (s : string) : bool :=
  match pat with
  | [] => s =? EmptyString
  | Item p l h :: pat' => existsb (matches pat') (rests p l h s)
  end.

(** [re.test(s)] for an anchored pattern. *)
Definition test (pat : list item) (s : string) : bool := matches pat s.

End Regex.

(* ================================================================== *)
(** ** Exceptions and the effect monad *)
(* ================================================================== *)

(** The exception classes that occur: [Error] is the built-in class, the
  [...Error] classes are those of [middleware/errorHandler],
  [ReferenceError] is raised by the language and
  [PrismaClientKnownRequestError] by the database client. *)
Inductive ErrorClass :=
| Error
| NotFoundError
| ValidationError
| ConflictError
| AuthorizationError
| AuthenticationError
| ReferenceError
| PrismaClientKnownRequestError.

Record Exn := mkExn { exn_class : ErrorClass; exn_message : string }.

Definition ErrorClass_eqb (a b : ErrorClass) : bool :=
match a, b with
| Error, Error | NotFoundError, NotFoundError
| ValidationError, ValidationError | ConflictError, ConflictError
| AuthorizationError, AuthorizationError
| AuthenticationError, AuthenticationError
| ReferenceError, ReferenceError
| PrismaClientKnownRequestError, PrismaClientKnownRequestError => true
| _, _ => false
end.

Inductive Result (A : Type) :=
| Ok (a : A)
| Throw (e : Exn).
Arguments Ok {A} a.
Arguments Throw {A} e.

Definition is_ok {A} (r : Result A) : bool :=
match r with Ok _ => true | Throw _ => false end.

(* ================================================================== *)
(** ** The data model ([prisma/schema.prisma]) *)
(* ================================================================== *)

Inductive Role := USER | ADMIN | SUPER_ADMIN.
Inductive StoreStatus := DRAFT | PUBLISHED | ARCHIVED.
Inductive DeploymentStatus := PENDING | BUILDING | SUCCESS | FAILED.

Definition Role_eqb (a b : Role) : bool :=
  match a, b with
  | USER, USER | ADMIN, ADMIN | SUPER_ADMIN, SUPER_ADMIN => true
  | _, _ => false
  end.

Definition DeploymentStatus_eqb (a b : DeploymentStatus) : bool :=
  match a, b with
  | PENDING, PENDING | BUILDING, BUILDING
  | SUCCESS, SUCCESS | FAILED, FAILED => true
  | _, _ => false
  end.

(** The terminal states of a deployment. *)
Definition terminal (s : DeploymentStatus) : bool :=
  match s with
  | SUCCESS | FAILED => true
  | PENDING | BUILDING => false
  end.

(** The authenticated caller, [req.user]. *)
Record User := mkUser { user_id : string; user_role : Role }.

(** A row of [stores] (the columns the pipeline reads or writes). *)
Record Store := mkStore {
  store_id : string;
  store_name : string;
  store_slug : string;
  store_customDomain : Js.jsstring;
  store_userId : string;
  store_description : Js.jsstring;
  store_metaTitle : Js.jsstring;
  store_metaDescription : Js.jsstring;
  store_status : StoreStatus;
  store_isDeployed : bool;
  store_deploymentUrl : Js.jsstring
}.

(** A row of [products]. [price] is carried by its decimal text,
    [images] is the JSON array of image references. *)
Record Product := mkProduct {
  product_id : string;
  product_storeId : string;
  product_name : string;
  product_description : Js.jsstring;
  product_shortDescription : Js.jsstring;
  product_price : string;
  product_images : list string;
  product_metaDescription : Js.jsstring;
  product_urlHandle : Js.jsstring;
  product_isActive : bool;
  product_updatedAt : N
}.

(** The object [findUnique] returns with [include: { products: ... }]:
    the store row and the selected product rows.  The other relations the
    query includes (the owner, the variants, the customers) are read by
    nothing below and are left out. *)
Record Snapshot := mkSnapshot {
  snap_store : Store;
  snap_products : list Product
}.

(** The [config] JSON stored with a deployment. *)
Record Config := mkConfig {
  config_store : Snapshot;
  config_environment : string;
  config_timestamp : N
}.

(** A row of [deployments]. The [cuid()] identifiers are drawn from a
    counter of the world. *)
Record Deployment := mkDeployment {
  dep_id : nat;
  dep_version : string;
  dep_status : DeploymentStatus;
  dep_url : Js.jsstring;
  dep_buildLogs : Js.jsstring;
  dep_config : Config;
  dep_environment : string;
  dep_storeId : string;
  dep_createdAt : N;
  dep_deployedAt : option N
}.

(** One call of [fs.promises] that went through. *)
Inductive FsOp :=
| Mkdir (path : string)
| WriteFile (path content : string)
| CopyFile (src dest : string).

Record World := mkWorld {
  stores : list Store;
  products : list Product;
  deployments : list Deployment;
  next_id : nat;
  fs_ops : list FsOp;      (* operations carried out, oldest first *)
  fs_calls : nat;          (* file-system calls attempted so far *)
  ticks : nat;             (* clock reads so far *)
  outbox : list (string * nat);  (* notifications sent: store id, deployment id *)
  mail_calls : nat
}.

(** What the outside world decides. Page bodies that no property below
    looks into are supplied here, as functions of what the source
    interpolates into them. *)
Record Env := mkEnv {
  clock : nat -> N;                      (* the n-th reading of the clock *)
  fs_fault : nat -> option string;       (* message of the error the n-th fs call throws *)
  mail_fault : nat -> option string;     (* same for the n-th notification *)
  SUBDOMAIN_SUFFIX : Js.jsstring;        (* process.env.SUBDOMAIN_SUFFIX *)
  buildDir : string;                     (* path.join(__dirname, '../../builds') *)
  placeholderImage : string;             (* path.join(__dirname, '../assets/placeholder.jpg') *)
  productPage : Store -> Product -> string;
  cartPage : Store -> string;
  checkoutPage : Store -> string;
  contactPage : Store -> string;
  aboutPage : Store -> string;
  stylesCss : Store -> string;
  scriptsJs : Store -> string;
  sitemapXml : string -> list N -> list Product -> string;
  robotsTxt : string -> string
}.

(** Computations: state passing with exceptions. *)
Definition M (A : Type) : Type := World -> Result A * World.

Definition ret {A} (a : A) : M A := fun w => (Ok a, w).

Definition bind {A B} (m : M A) (k : A -> M B) : M B :=
  fun w =>
    match m w with
    | (Ok a, w') => k a w'
    | (Throw e, w') => (Throw e, w')
    end.

Definition throw {A} (e : Exn) : M A := fun w => (Throw e, w).

(** [try { body } catch (error) { handler }] *)
Definition try_catch {A} (body : M A) (handler : Exn -> M A) : M A :=
  fun w =>
    match body w with
    | (Ok a, w') => (Ok a, w')
    | (Throw e, w') => handler e w'
    end.

Definition gets {A} (f : World -> A) : M A := fun w => (Ok (f w), w).
Definition modify (f : World -> World) : M unit := fun w => (Ok tt, f w).

Declare Scope m_scope.
Delimit Scope m_scope with M.
Notation "x <- m ;; k" := (bind m (fun x => k))
  (at level 61, m at next level, right associativity) : m_scope.
Notation "m ;; k" := (bind m (fun _ => k))
  (at level 61, right associativity) : m_scope.
Open Scope m_scope.

(** Field updates of the world. *)
Definition set_stores (v : list Store) (w : World) : World :=
  mkWorld v (products w) (deployments w) (next_id w) (fs_ops w)
          (fs_calls w) (ticks w) (outbox w) (mail_calls w).
Definition set_deployments (v : list Deployment) (n : nat) (w : World) : World :=
  mkWorld (stores w) (products w) v n (fs_ops w)
          (fs_calls w) (ticks w) (outbox w) (mail_calls w).
Definition set_fs (ops : list FsOp) (n : nat) (w : World) : World :=
  mkWorld (stores w) (products w) (deployments w) (next_id w) ops
          n (ticks w) (outbox w) (mail_calls w).
Definition set_ticks (n : nat) (w : World) : World :=
  mkWorld (stores w) (products w) (deployments w) (next_id w) (fs_ops w)
          (fs_calls w) n (outbox w) (mail_calls w).
Definition set_mail (box : list (string * nat)) (n : nat) (w : World) : World :=
  mkWorld (stores w) (products w) (deployments w) (next_id w) (fs_ops w)
          (fs_calls w) (ticks w) box n.

(** Replace the first element that satisfies [p]. *)
Fixpoint update_first {A} (p : A -> bool) (f : A -> A) (l : list A) : list A :=
  match l with
  | [] => []
  | x :: r => if p x then f x :: r else x :: update_first p f r
  end.

(** Remove the first element that satisfies [p]. *)
Fixpoint remove_first {A} (p : A -> bool) (l : list A) : list A :=
  match l with
  | [] => []
  | x :: r => if p x then r else x :: remove_first p r
  end.

(* ================================================================== *)
(** ** The database client, the clock and the file system *)
(* ================================================================== *)

Module Prisma.

(** The [data] object of [prisma.store.update]: the columns it names. *)
Record StoreData := mkStoreData {
  sd_status : option StoreStatus;
  sd_isDeployed : option bool;
  sd_deploymentUrl : option Js.jsstring;
  sd_customDomain : option Js.jsstring
}.

Definition no_store_data : StoreData := mkStoreData None None None None.

Definition dflt {A} (o : option A) (d : A) : A :=
  match o with Some a => a | None => d end.

Definition apply_store_data (d : StoreData) (s : Store) : Store :=
  mkStore (store_id s) (store_name s) (store_slug s)
          (dflt (sd_customDomain d) (store_customDomain s))
          (store_userId s) (store_description s) (store_metaTitle s)
          (store_metaDescription s)
          (dflt (sd_status d) (store_status s))
          (dflt (sd_isDeployed d) (store_isDeployed s))
          (dflt (sd_deploymentUrl d) (store_deploymentUrl s)).

(** The [data] object of [prisma.deployment.update]. *)
Record DeploymentData := mkDeploymentData {
  dd_status : option DeploymentStatus;
  dd_url : option Js.jsstring;
  dd_deployedAt : option N;
  dd_buildLogs : option Js.jsstring
}.

Definition apply_deployment_data (d : DeploymentData) (r : Deployment) : Deployment :=
  mkDeployment (dep_id r) (dep_version r)
               (dflt (dd_status d) (dep_status r))
               (dflt (dd_url d) (dep_url r))
               (dflt (dd_buildLogs d) (dep_buildLogs r))
               (dep_config r) (dep_environment r) (dep_storeId r)
               (dep_createdAt r)
               (match dd_deployedAt d with Some t => Some t | None => dep_deployedAt r end).

Definition has_store_id (id : string) (s : Store) : bool := store_id s =? id.
Definition has_dep_id (id : nat) (d : Deployment) : bool := Nat.eqb (dep_id d) id.

Definition record_not_found (what : string) : Exn :=
  mkExn PrismaClientKnownRequestError what.

Section WithEnv.
Variable env : Env.

(** A reading of the clock: [Date.now()], [new Date()], SQL [now()]. *)
Definition now : M N :=
  fun w => (Ok (clock env (ticks w)), set_ticks (S (ticks w)) w).

(** [prisma.store.findUnique({ where: { id } })] *)
Definition store_findUnique (id : string) : M (option Store) :=
  gets (fun w => find (has_store_id id) (stores w)).

(** [prisma.store.findUnique({ where: { id }, include: { products:
    { where: { isActive: true } } } })] *)
Definition store_findUnique_with_products (id : string) : M (option Snapshot) :=
  gets (fun w =>
    match find (has_store_id id) (stores w) with
    | Some s =>
        Some (mkSnapshot s
                (filter (fun p => (product_storeId p =? id) && product_isActive p)
                        (products w)))
    | None => None
    end).

(** [prisma.store.findFirst({ where: { customDomain: domain } })] *)
Definition store_findFirst_customDomain (domain : string) : M (option Store) :=
  gets (fun w =>
    find (fun s => match store_customDomain s with
                   | Some d => d =? domain
                   | None => false
                   end) (stores w)).

(** [prisma.store.update({ where: { id }, data })]: throws when no row has
    the id. *)
Definition store_update (id : string) (data : StoreData) : M Store :=
  fun w =>
    match find (has_store_id id) (stores w) with
    | Some s =>
        (Ok (apply_store_data data s),
         set_stores (update_first (has_store_id id) (apply_store_data data) (stores w)) w)
    | None => (Throw (record_not_found "Record to update not found."), w)
    end.

(** [prisma.deployment.create({ data })]: a fresh id, [createdAt] by
    default [now()], the nullable columns empty. *)
Definition deployment_create (storeId version : string) (status : DeploymentStatus)
           (environment : string) (config : Config) : M Deployment :=
  createdAt <- now ;;
  fun w =>
    let d := mkDeployment (next_id w) version status None None config
                          environment storeId createdAt None in
    (Ok d, set_deployments (deployments w ++ [d]) (S (next_id w)) w).

(** [prisma.deployment.update({ where: { id }, data })] *)
Definition deployment_update (id : nat) (data : DeploymentData) : M Deployment :=
  fun w =>
    match find (has_dep_id id) (deployments w) with
    | Some d =>
        (Ok (apply_deployment_data data d),
         set_deployments
           (update_first (has_dep_id id) (apply_deployment_data data) (deployments w))
           (next_id w) w)
    | None => (Throw (record_not_found "Record to update not found."), w)
    end.

(** [prisma.deployment.findUnique({ where: { id } })] *)
Definition deployment_findUnique (id : nat) : M (option Deployment) :=
  gets (fun w => find (has_dep_id id) (deployments w)).

(** [prisma.deployment.findFirst({ where: { storeId, version, status } })] *)
Definition deployment_findFirst (storeId version : string)
           (status : DeploymentStatus) : M (option Deployment) :=
  gets (fun w =>
    find (fun d => (dep_storeId d =? storeId) && (dep_version d =? version)
                   && DeploymentStatus_eqb (dep_status d) status)
         (deployments w)).

(** [prisma.deployment.delete({ where: { id } })] *)
Definition deployment_delete (id : nat) : M Deployment :=
  fun w =>
    match find (has_dep_id id) (deployments w) with
    | Some d =>
        (Ok d, set_deployments (remove_first (has_dep_id id) (deployments w))
                               (next_id w) w)
    | None => (Throw (record_not_found "Record to delete does not exist."), w)
    end.

(** [orderBy: { createdAt: 'desc' }]: newest first.  The query names no
    second key, so the database is free in the order of rows created at
    the same instant; here they keep their table order.  No statement
    below rests on that choice: what is said about the order of a listing
    is said for every newest-first arrangement, for rows created at
    different instants, or holds whatever the order of equal rows. *)
Fixpoint insert_desc (d : Deployment) (l : list Deployment) : list Deployment :=
  match l with
  | [] => [d]
  | x :: r =>
      if (dep_createdAt x <=? dep_createdAt d)%N then d :: x :: r
      else x :: insert_desc d r
  end.

Definition orderBy_createdAt_desc (l : list Deployment) : list Deployment :=
  fold_right insert_desc [] l.

Definition of_store (storeId : string) (l : list Deployment) : list Deployment :=
  filter (fun d => dep_storeId d =? storeId) l.

(** [prisma.deployment.findMany({ where: { storeId }, orderBy:
    { createdAt: 'desc' }, skip, take })], for [skip] and [take] that are
    not negative. *)
Definition deployment_findMany (storeId : string) (skip take : nat)
  : M (list Deployment) :=
  gets (fun w =>
    firstn take (skipn skip (orderBy_createdAt_desc (of_store storeId (deployments w))))).

(** [prisma.deployment.count({ where: { storeId } })] *)
Definition deployment_count (storeId : string) : M nat :=
  gets (fun w => List.length (of_store storeId (deployments w))).

End WithEnv.
End Prisma.

Module Fs.
Section WithEnv.
Variable env : Env.

(** One call of [fs.promises]: it throws when the outside says so, and is
    recorded otherwise. *)
Definition call (op : FsOp) : M unit :=
  fun w =>
    match fs_fault env (fs_calls w) with
    | Some msg => (Throw (mkExn Error msg), set_fs (fs_ops w) (S (fs_calls w)) w)
    | None => (Ok tt, set_fs (fs_ops w ++ [op]) (S (fs_calls w)) w)
    end.

Definition mkdir (path : string) : M unit := call (Mkdir path).
Definition writeFile (path content : string) : M unit := call (WriteFile path content).
Definition copyFile (src dest : string) : M unit := call (CopyFile src dest).

End WithEnv.

(** [path.join(a, b)] *)
Definition join (a b : string) : string := a ++ "/" ++ b.


End Fs.

Module Email.
Section WithEnv.
Variable env : Env.

(** [emailService.sendStoreDeploymentNotification(store, deployment)]:
    the delivery succeeds or throws. *)
Definition sendStoreDeploymentNotification (store : Snapshot) (deployment : Deployment)
  : M unit :=
  fun w =>
    match mail_fault env (mail_calls w) with
    | Some msg => (Throw (mkExn Error msg), set_mail (outbox w) (S (mail_calls w)) w)
    | None =>
        (Ok tt, set_mail (outbox w ++ [(store_id (snap_store store), dep_id deployment)])
                         (S (mail_calls w)) w)
    end.

End WithEnv.
End Email.

(* ================================================================== *)
(** ** [DeploymentService] ([src/services/deploymentService.js]) *)
(* ================================================================== *)

Module DeploymentService.
Section WithEnv.
Variable env : Env.

(** [generateStoreUrl(store)] (lines 1121-1126) *)
Definition generateStoreUrl (store : Snapshot) : string :=
  if Js.truthy (store_customDomain (snap_store store))
  then "https://" ++ Js.show (store_customDomain (snap_store store))
  else "https://" ++ store_slug (snap_store store)
       ++ Js.show (Js.or (SUBDOMAIN_SUFFIX env) (Some ".stores.buildcart.ai")).

(** The label [generateVersion] builds from a reading [t] of the clock. *)
Definition version_of (t : N) : string := "v" ++ Js.string_of_N t.

(** [generateVersion()] (lines 1129-1131): [`v${Date.now()}`] *)
Definition generateVersion : M string :=
  t <- Prisma.now env ;;
  ret (version_of t).

(** The text of the home page before the featured grid (lines 166-204). *)
Definition homeHead (store : Snapshot) : list string :=
  [ Js.lit "
<!DOCTYPE html>
<html lang=~en~>
<head>
    <meta charset=~UTF-8~>
    <meta name=~viewport~ content=~width=device-width, initial-scale=1.0~>
    <title>";
    Js.show (Js.or (store_metaTitle (snap_store store)) (Some (store_name (snap_store store))));
    Js.lit "</title>
    <meta name=~description~ content=~";
    Js.show (Js.or (store_metaDescription (snap_store store))
                   (store_description (snap_store store)));
    Js.lit "~>
    <link rel=~stylesheet~ href=~/styles.css~>
    <link rel=~canonical~ href=~";
    generateStoreUrl store;
    Js.lit "~>
</head>
<body>
    <header class=~header~>
        <nav class=~nav~>
            <div class=~nav-brand~>
                <h1>";
    store_name (snap_store store);
    Js.lit "</h1>
            </div>
            <ul class=~nav-menu~>
                <li><a href=~/~>Home</a></li>
                <li><a href=~/products~>Products</a></li>
                <li><a href=~/about~>About</a></li>
                <li><a href=~/contact~>Contact</a></li>
                <li><a href=~/cart~ class=~cart-link~>Cart (<span id=~cart-count~>0</span>)</a></li>
            </ul>
        </nav>
    </header>

    <main class=~main~>
        <section class=~hero~>
            <div class=~hero-content~>
                <h2>Welcome to ";
    store_name (snap_store store);
    Js.lit "</h2>
                <p>";
    Js.show (Js.or (store_description (snap_store store))
                   (Some "Discover amazing products at great prices."));
    Js.lit "</p>
                <a href=~/products~ class=~btn btn-primary~>Shop Now</a>
            </div>
        </section>

        <section class=~featured-products~>
            <h3>Featured Products</h3>
            <div class=~products-grid~>
                " ].

(** One card of the featured grid (lines 205-212). *)
Definition homeCard (product : Product) : list string :=
  [ Js.lit "
                    <div class=~product-card~>
                        <img src=~";
    Js.show (Js.or (hd_error (product_images product)) (Some "/placeholder.jpg"));
    Js.lit "~ alt=~";
    product_name product;
    Js.lit "~>
                        <h4>";
    product_name product;
    Js.lit "</h4>
                        <p class=~price~>$";
    product_price product;
    Js.lit "</p>
                        <button class=~btn btn-secondary~ onclick=~addToCart('";
    product_id product;
    Js.lit "')~>Add to Cart</button>
                    </div>
                " ].

(** The text of the home page after the featured grid (lines 212-223). *)
Definition homeTail (store : Snapshot) : list string :=
  [ Js.lit "
            </div>
        </section>
    </main>

    <footer class=~footer~>
        <p>&copy; 2024 ";
    store_name (snap_store store);
    Js.lit ". All rights reserved.</p>
    </footer>

    <script src=~/scripts.js~></script>
</body>
</html>" ].

(** The text of the listing page before the grid (lines 230-259). *)
Definition productsHead (store : Snapshot) : list string :=
  [ Js.lit "
<!DOCTYPE html>
<html lang=~en~>
<head>
    <meta charset=~UTF-8~>
    <meta name=~viewport~ content=~width=device-width, initial-scale=1.0~>
    <title>Products - ";
    store_name (snap_store store);
    Js.lit "</title>
    <meta name=~description~ content=~Browse our collection of products~>
    <link rel=~stylesheet~ href=~/styles.css~>
</head>
<body>
    <header class=~header~>
        <nav class=~nav~>
            <div class=~nav-brand~>
                <h1><a href=~/~>";
    store_name (snap_store store);
    Js.lit "</a></h1>
            </div>
            <ul class=~nav-menu~>
                <li><a href=~/~>Home</a></li>
                <li><a href=~/products~>Products</a></li>
                <li><a href=~/about~>About</a></li>
                <li><a href=~/contact~>Contact</a></li>
                <li><a href=~/cart~ class=~cart-link~>Cart (<span id=~cart-count~>0</span>)</a></li>
            </ul>
        </nav>
    </header>

    <main class=~main~>
        <section class=~products-section~>
            <h2>All Products</h2>
            <div class=~products-grid~>
                " ].

(** One card of the listing (lines 260-268). *)
Definition productsCard (product : Product) : list string :=
  [ Js.lit "
                    <div class=~product-card~>
                        <img src=~";
    Js.show (Js.or (hd_error (product_images product)) (Some "/placeholder.jpg"));
    Js.lit "~ alt=~";
    product_name product;
    Js.lit "~>
                        <h4>";
    product_name product;
    Js.lit "</h4>
                        <p class=~description~>";
    Js.show (Js.or (product_shortDescription product) (product_description product));
    Js.lit "</p>
                        <p class=~price~>$";
    product_price product;
    Js.lit "</p>
                        <button class=~btn btn-secondary~ onclick=~addToCart('";
    product_id product;
    Js.lit "')~>Add to Cart</button>
                    </div>
                " ].

(** The text of the listing page after the grid (lines 268-279). *)
Definition productsTail (store : Snapshot) : list string :=
  [ Js.lit "
            </div>
        </section>
    </main>

    <footer class=~footer~>
        <p>&copy; 2024 ";
    store_name (snap_store store);
    Js.lit ". All rights reserved.</p>
    </footer>

    <script src=~/scripts.js~></script>
</body>
</html>" ].


(** The home page: the featured grid holds the cards of
    [store.products.slice(0, 6)] (line 205). *)
Definition featuredGrid (store : Snapshot) : string :=
  Js.join (map (fun product => Js.join (homeCard product))
               (Js.slice0 6 (snap_products store))).

Definition homePage (store : Snapshot) : string :=
  Js.join (homeHead store) ++ featuredGrid store ++ Js.join (homeTail store).

(** The listing page: the grid holds the cards of [store.products]
    (line 260). *)
Definition productsGrid (store : Snapshot) : string :=
  Js.join (map (fun product => Js.join (productsCard product))
               (snap_products store)).

Definition productsPage (store : Snapshot) : string :=
  Js.join (productsHead store) ++ productsGrid store ++ Js.join (productsTail store).

(** [generateHomePage] (lines 165-226) *)
Definition generateHomePage (store : Snapshot) (buildPath : string) : M unit :=
  Fs.writeFile env (Fs.join buildPath "index.html") (homePage store).

(** [generateProductsPage] (lines 229-282) *)
Definition generateProductsPage (store : Snapshot) (buildPath : string) : M unit :=
  Fs.writeFile env (Fs.join buildPath "products.html") (productsPage store).

(** [product.urlHandle || product.id] (line 340) *)
Definition productFilename (product : Product) : string :=
  Js.show (Js.or (product_urlHandle product) (Some (product_id product))).

(** The body of the loop of [generateProductPages] (lines 289-342). *)
Fixpoint writeProductPages (store : Snapshot) (productsDir : string)
         (ps : list Product) : M unit :=
  match ps with
  | [] => ret tt
  | product :: rest =>
      Fs.writeFile env (Fs.join productsDir (productFilename product ++ ".html"))
                   (productPage env (snap_store store) product) ;;
      writeProductPages store productsDir rest
  end.

(** [generateProductPages] (lines 285-343) *)
Definition generateProductPages (store : Snapshot) (buildPath : string) : M unit :=
  let productsDir := Fs.join buildPath "product" in
  Fs.mkdir env productsDir ;;
  writeProductPages store productsDir (snap_products store).

Definition generateCartPage (store : Snapshot) (buildPath : string) : M unit :=
  Fs.writeFile env (Fs.join buildPath "cart.html") (cartPage env (snap_store store)).

Definition generateCheckoutPage (store : Snapshot) (buildPath : string) : M unit :=
  Fs.writeFile env (Fs.join buildPath "checkout.html") (checkoutPage env (snap_store store)).

Definition generateContactPage (store : Snapshot) (buildPath : string) : M unit :=
  Fs.writeFile env (Fs.join buildPath "contact.html") (contactPage env (snap_store store)).

Definition generateAboutPage (store : Snapshot) (buildPath : string) : M unit :=
  Fs.writeFile env (Fs.join buildPath "about.html") (aboutPage env (snap_store store)).

Definition generateStyles (store : Snapshot) (buildPath : string) : M unit :=
  Fs.writeFile env (Fs.join buildPath "styles.css") (stylesCss env (snap_store store)).

Definition generateScripts (store : Snapshot) (buildPath : string) : M unit :=
  Fs.writeFile env (Fs.join buildPath "scripts.js") (scriptsJs env (snap_store store)).

(** [copyAssets] (lines 1054-1066): a failed copy of the placeholder
    image is caught. *)
Definition copyAssets (buildPath : string) : M unit :=
  let assetsDir := Fs.join buildPath "assets" in
  Fs.mkdir env assetsDir ;;
  try_catch
    (Fs.copyFile env (placeholderImage env) (Fs.join assetsDir "placeholder.jpg"))
    (fun _ => ret tt).

(** [generateSitemap] (lines 1069-1108): each of the four fixed entries
    takes its time stamp from a reading of the clock. *)
Definition generateSitemap (store : Snapshot) (buildPath : string) : M unit :=
  let baseUrl := generateStoreUrl store in
  t1 <- Prisma.now env ;;
  t2 <- Prisma.now env ;;
  t3 <- Prisma.now env ;;
  t4 <- Prisma.now env ;;
  Fs.writeFile env (Fs.join buildPath "sitemap.xml")
               (sitemapXml env baseUrl [t1; t2; t3; t4] (snap_products store)).

(** [generateRobotsTxt] (lines 1111-1118) *)
Definition generateRobotsTxt (store : Snapshot) (buildPath : string) : M unit :=
  Fs.writeFile env (Fs.join buildPath "robots.txt") (robotsTxt env (generateStoreUrl store)).

(** [generateStaticSite] (lines 125-162); its [catch] logs and rethrows. *)
Definition generateStaticSite (store : Snapshot) (deployment : Deployment) : M string :=
  let buildPath := Fs.join (buildDir env) (store_slug (snap_store store)) in
  try_catch
    (Fs.mkdir env buildPath ;;
     generateHomePage store buildPath ;;
     generateProductsPage store buildPath ;;
     generateProductPages store buildPath ;;
     generateCartPage store buildPath ;;
     generateCheckoutPage store buildPath ;;
     generateContactPage store buildPath ;;
     generateAboutPage store buildPath ;;
     generateStyles store buildPath ;;
     generateScripts store buildPath ;;
     copyAssets buildPath ;;
     generateSitemap store buildPath ;;
     generateRobotsTxt store buildPath ;;
     ret buildPath)
    (fun error => throw error).

(** What [deployStore] returns (lines 100-104). *)
Record Deployed := mkDeployed {
  deployed_deployment : Deployment;
  deployed_url : string;
  deployed_buildPath : string
}.

(** The [catch] block of [deployStore] (lines 106-121).  Its argument
    [deployment] is what the identifier [deployment] denotes there:
    [Some d] if a binding is in scope, [None] if the identifier is not
    bound, in which case reading it throws a [ReferenceError] before
    anything else happens. *)
Definition deployStore_catch (deployment : option Deployment) (error : Exn)
  : M Deployed :=
  match deployment with
  | None => throw (mkExn ReferenceError "deployment is not defined")
  | Some d =>
      Prisma.deployment_update (dep_id d)
        (Prisma.mkDeploymentData (Some FAILED) None None
           (Some (Some (exn_message error)))) ;;
      throw error
  end.

(** The [try] block of [deployStore] up to the build (lines 28-67): the
    snapshot is read, the record is created as [BUILDING], the store is
    marked as published and deployed. *)
Definition deployStore_begin (storeId environment : string)
  : M (Snapshot * Deployment) :=
  found <- Prisma.store_findUnique_with_products storeId ;;
  match found with
  | None => throw (mkExn Error "Store not found")
  | Some store =>
      version <- generateVersion ;;
      timestamp <- Prisma.now env ;;
      deployment <- Prisma.deployment_create env storeId version BUILDING environment
                      (mkConfig store environment timestamp) ;;
      Prisma.store_update storeId
        (Prisma.mkStoreData (Some PUBLISHED) (Some true) None None) ;;
      ret (store, deployment)
  end.

(** The [try] block after the build (lines 72-104). *)
Definition deployStore_finish (storeId : string) (store : Snapshot)
           (deployment : Deployment) (buildPath : string) : M Deployed :=
  deployedAt <- Prisma.now env ;;
  Prisma.deployment_update (dep_id deployment)
    (Prisma.mkDeploymentData (Some SUCCESS) (Some (Some (generateStoreUrl store)))
       (Some deployedAt) (Some (Some "Build completed successfully"))) ;;
  Prisma.store_update storeId
    (Prisma.mkStoreData None None (Some (Some (generateStoreUrl store))) None) ;;
  try_catch (Email.sendStoreDeploymentNotification env store deployment)
            (fun _ => ret tt) ;;
  ret (mkDeployed deployment (generateStoreUrl store) buildPath).

(** The [try] block of [deployStore] (lines 27-104). *)
Definition deployStore_try (storeId environment : string) : M Deployed :=
  started <- deployStore_begin storeId environment ;;
  buildPath <- generateStaticSite (fst started) (snd started) ;;
  deployStore_finish storeId (fst started) (snd started) buildPath.

(** [deployStore(storeId, environment = 'production')] (lines 26-122).
    [const deployment] (line 46) is declared inside the [try] block, so
    the [catch] block has no binding of that name. *)
Definition deployStore (storeId : string) (environment : option string) : M Deployed :=
  try_catch
    (deployStore_try storeId (Prisma.dflt environment "production"))
    (deployStore_catch None).

(** [getDeploymentStatus(deploymentId)] (lines 1134-1138) *)
Definition getDeploymentStatus (deploymentId : nat) : M (option Deployment) :=
  Prisma.deployment_findUnique deploymentId.

(** [rollbackDeployment(storeId, version)] (lines 1141-1164) *)
Definition rollbackDeployment (storeId version : string) : M Deployment :=
  found <- Prisma.deployment_findFirst storeId version SUCCESS ;;
  match found with
  | None => throw (mkExn Error "Deployment not found")
  | Some deployment =>
      Prisma.store_update storeId
        (Prisma.mkStoreData None None (Some (dep_url deployment)) None) ;;
      ret deployment
  end.

(** The pattern of [isValidDomain] (line 1202):
    [/^[a-zA-Z0-9][a-zA-Z0-9-]{1,61}[a-zA-Z0-9]\.[a-zA-Z]{2,}$/] *)
Definition domainRegex : list Regex.item :=
  [ Regex.one Regex.alnum;
    Regex.Item Regex.alnum_hyphen 1 (Some 61);
    Regex.one Regex.alnum;
    Regex.one Regex.dot;
    Regex.Item Regex.alpha 2 None ].

(** [isValidDomain(domain)] (lines 1201-1204) *)
Definition isValidDomain (domain : string) : bool :=
  Regex.test domainRegex domain.

(** What [setupCustomDomain] returns (line 1189). *)
Record DomainSetup := mkDomainSetup { setup_domain : string; setup_url : string }.

(** [existingStore && existingStore.id !== storeId] (line 1178) *)
Definition bound_elsewhere (existingStore : option Store) (storeId : string) : bool :=
  match existingStore with
  | Some s => negb (store_id s =? storeId)
  | None => false
  end.

(** [setupCustomDomain(storeId, domain)] (lines 1167-1190) *)
Definition setupCustomDomain (storeId domain : string) : M DomainSetup :=
  if negb (isValidDomain domain) then throw (mkExn Error "Invalid domain format")
  else
    existingStore <- Prisma.store_findFirst_customDomain domain ;;
    if bound_elsewhere existingStore storeId
    then throw (mkExn Error "Domain is already in use")
    else
      Prisma.store_update storeId
        (Prisma.mkStoreData None None None (Some (Some domain))) ;;
      ret (mkDomainSetup domain ("https://" ++ domain)).

(** [enableSSL(domain)] (lines 1193-1198) *)
Definition enableSSL (domain : string) : M (string * bool) :=
  ret (domain, true).

End WithEnv.
End DeploymentService.

(* ================================================================== *)
(** ** The middleware ([middleware/auth], [middleware/validation]) *)
(* ================================================================== *)

Module Middleware.

(** [verifyStoreOwnership]: [next(err)] is a throw, [next()] a return. *)
Definition verifyStoreOwnership (user : User) (storeId : string) : M unit :=
  if storeId =? EmptyString then throw (mkExn Error "Store ID is required")
  else
    store <- Prisma.store_findUnique storeId ;;
    match store with
    | None => throw (mkExn Error "Store not found")
    | Some store =>
        if Role_eqb (user_role user) ADMIN || Role_eqb (user_role user) SUPER_ADMIN
        then ret tt
        else if negb (store_userId store =? user_id user)
        then throw (mkExn AuthorizationError "Access denied to this store")
        else ret tt
    end.

(** A value of the query string as [Joi.number().integer()] reads it. *)
Inductive QueryValue :=
| QAbsent              (* the key is missing *)
| QInteger (z : Z)     (* text that converts to the integer [z] *)
| QOther.              (* anything else: refused *)

(** [Number.MAX_SAFE_INTEGER]: [Joi.number()] refuses a number beyond it,
    in either direction, as unsafe. *)
Definition max_safe_integer : Z := 9007199254740991.

Definition safe (z : Z) : bool := (Z.abs z <=? max_safe_integer)%Z.

(** [Joi.number().integer().min(lo).max(hi).default(d)], [hi] optional. *)
Definition joi_integer (lo : Z) (hi : option Z) (d : Z) (v : QueryValue) : option Z :=
  match v with
  | QAbsent => Some d
  | QInteger z =>
      if negb (safe z) then None
      else if (z <? lo)%Z then None
      else match hi with
           | Some h => if (h <? z)%Z then None else Some z
           | None => Some z
           end
  | QOther => None
  end.

(** The validated query: both keys are present after validation; a
    handler called without it sees [None] for a missing key. *)
Record Query := mkQuery { q_page : option Z; q_limit : option Z }.

(** [validate(Joi.object({ page: ...min(1).default(1), limit:
    ...min(1).max(100).default(10) }), 'query')] of the listing route. *)
Definition validate_pagination (page limit : QueryValue) : M Query :=
  match joi_integer 1 None 1 page, joi_integer 1 (Some 100%Z) 10 limit with
  | Some p, Some l => ret (mkQuery (Some p) (Some l))
  | _, _ => throw (mkExn ValidationError "Validation failed")
  end.

End Middleware.

(* ================================================================== *)
(** ** The handlers ([src/controllers/deploymentController.js]) *)
(* ================================================================== *)

Module Controller.
Section WithEnv.
Variable env : Env.

(** [store.userId !== req.user.id && req.user.role !== 'ADMIN'] *)
Definition denied (ownerId : string) (user : User) : bool :=
  negb (ownerId =? user_id user) && negb (Role_eqb (user_role user) ADMIN).

(** [prisma.deployment.findUnique({ where: { id }, include: { store: true } })];
    the relation is required, a row without its store is refused by the
    client. *)
Definition deployment_with_store (deploymentId : nat) : M (option (Deployment * Store)) :=
  found <- Prisma.deployment_findUnique deploymentId ;;
  match found with
  | None => ret None
  | Some d =>
      store <- Prisma.store_findUnique (dep_storeId d) ;;
      match store with
      | Some s => ret (Some (d, s))
      | None => throw (Prisma.record_not_found "Inconsistent query result")
      end
  end.

(** [deployStore] (lines 10-55) *)
Definition deployStore (user : User) (storeId : string) (environment : option string)
           (customDomain : Js.jsstring) (sslEnabled : bool)
  : M DeploymentService.Deployed :=
  store <- Prisma.store_findUnique storeId ;;
  match store with
  | None => throw (mkExn NotFoundError "Store not found")
  | Some store =>
      if denied (store_userId store) user
      then throw (mkExn ValidationError "Access denied to this store")
      else
        result <- DeploymentService.deployStore env storeId environment ;;
        (if Js.truthy customDomain
         then try_catch
                (DeploymentService.setupCustomDomain storeId (Js.show customDomain) ;;
                 if sslEnabled
                 then DeploymentService.enableSSL (Js.show customDomain) ;; ret tt
                 else ret tt)
                (fun _ => ret tt)
         else ret tt) ;;
        ret result
  end.

(** [getDeploymentStatus] (lines 58-79) *)
Definition getDeploymentStatus (user : User) (deploymentId : nat)
  : M (Deployment * Store) :=
  found <- deployment_with_store deploymentId ;;
  match found with
  | None => throw (mkExn NotFoundError "Deployment not found")
  | Some (deployment, store) =>
      if denied (store_userId store) user
      then throw (mkExn ValidationError "Access denied to this deployment")
      else ret (deployment, store)
  end.

(** [getDeploymentLogs] (lines 82-107): logs, status, deployedAt *)
Definition getDeploymentLogs (user : User) (deploymentId : nat)
  : M (Js.jsstring * DeploymentStatus * option N) :=
  found <- deployment_with_store deploymentId ;;
  match found with
  | None => throw (mkExn NotFoundError "Deployment not found")
  | Some (deployment, store) =>
      if denied (store_userId store) user
      then throw (mkExn ValidationError "Access denied to this deployment")
      else ret (dep_buildLogs deployment, dep_status deployment, dep_deployedAt deployment)
  end.

(** The [pagination] object of the listing (lines 146-151). *)
Record Pagination := mkPagination {
  pg_page : Z;
  pg_limit : Z;
  pg_total : Z;
  pg_pages : option Z      (* [None]: not a finite number *)
}.

(** [Math.ceil(total / limit)]; the quotient is a double, and for a row
    count and a non-zero integer limit its ceiling is the integer one. *)
Definition ceil_div (total limit : Z) : option Z :=
  if (limit =? 0)%Z then None else Some (- ((- total) / limit))%Z.

(** [getStoreDeployments] (lines 110-154).  Behind the validation of its
    route [page] and [limit] are at least 1, so that [parseInt(skip)] and
    [parseInt(limit)] are natural numbers; what Prisma does with negative
    values is not modelled ([Z.to_nat] gives 0 there).  The offset
    [(page - 1) * limit] is written in [Z]; the handler computes it in
    doubles, which is the same number as long as it stays below 2^53.  The
    statements about the records of a page keep [page * limit] within 31
    bits, where every layer takes the offset as it is. *)
Definition getStoreDeployments (user : User) (storeId : string) (query : Middleware.Query)
  : M (list Deployment * Pagination) :=
  let page := Prisma.dflt (Middleware.q_page query) 1%Z in
  let limit := Prisma.dflt (Middleware.q_limit query) 10%Z in
  store <- Prisma.store_findUnique storeId ;;
  match store with
  | None => throw (mkExn NotFoundError "Store not found")
  | Some store =>
      if denied (store_userId store) user
      then throw (mkExn ValidationError "Access denied to this store")
      else
        let skip := ((page - 1) * limit)%Z in
        deployments <- Prisma.deployment_findMany storeId (Z.to_nat skip) (Z.to_nat limit) ;;
        total <- Prisma.deployment_count storeId ;;
        ret (deployments,
             mkPagination page limit (Z.of_nat total) (ceil_div (Z.of_nat total) limit))
  end.

(** [rollbackDeployment] (lines 157-182) *)
Definition rollbackDeployment (user : User) (storeId version : string) : M Deployment :=
  store <- Prisma.store_findUnique storeId ;;
  match store with
  | None => throw (mkExn NotFoundError "Store not found")
  | Some store =>
      if denied (store_userId store) user
      then throw (mkExn ValidationError "Access denied to this store")
      else DeploymentService.rollbackDeployment storeId version
  end.

(** [setupCustomDomain] (lines 185-210) *)
Definition setupCustomDomain (user : User) (storeId domain : string)
  : M DeploymentService.DomainSetup :=
  store <- Prisma.store_findUnique storeId ;;
  match store with
  | None => throw (mkExn NotFoundError "Store not found")
  | Some store =>
      if denied (store_userId store) user
      then throw (mkExn ValidationError "Access denied to this store")
      else DeploymentService.setupCustomDomain storeId domain
  end.

(** [enableSSL] (lines 213-238) *)
Definition enableSSL (user : User) (storeId domain : string) : M (string * bool) :=
  store <- Prisma.store_findUnique storeId ;;
  match store with
  | None => throw (mkExn NotFoundError "Store not found")
  | Some store =>
      if denied (store_userId store) user
      then throw (mkExn ValidationError "Access denied to this store")
      else DeploymentService.enableSSL domain
  end.

(** [deleteDeployment] (lines 333-361) *)
Definition deleteDeployment (user : User) (deploymentId : nat) : M unit :=
  found <- deployment_with_store deploymentId ;;
  match found with
  | None => throw (mkExn NotFoundError "Deployment not found")
  | Some (deployment, store) =>
      if denied (store_userId store) user
      then throw (mkExn ValidationError "Access denied to this deployment")
      else Prisma.deployment_delete deploymentId ;; ret tt
  end.

End WithEnv.
End Controller.

(* ================================================================== *)
(** ** The deployment routes *)
(* ================================================================== *)

Module Routes.
Section WithEnv.
Variable env : Env.

(** [GET /stores/:storeId/deployments]: ownership, validation, handler. *)
Definition getStoreDeployments (user : User) (storeId : string)
           (page limit : Middleware.QueryValue)
  : M (list Deployment * Controller.Pagination) :=
  Middleware.verifyStoreOwnership user storeId ;;
  query <- Middleware.validate_pagination page limit ;;
  Controller.getStoreDeployments user storeId query.

(** [GET /deployments/:deploymentId]: the handler alone. *)
Definition getDeploymentStatus (user : User) (deploymentId : nat)
  : M (Deployment * Store) :=
  Controller.getDeploymentStatus user deploymentId.

End WithEnv.
End Routes.

(* ================================================================== *)
(** ** Notions used to state the properties *)
(* ================================================================== *)

Module Text.

(** [starts m s]: the text [s] begins with [m]. *)
Fixpoint starts (m s : string) : bool :=
  match m with
  | EmptyString => true
  | String x m' =>
      match s with
      | EmptyString => false
      | String c s' => Ascii.eqb x c && starts m' s'
      end
  end.

(** Number of positions of [s] at which [m] starts. *)
Fixpoint occurrences (m s : string) : nat :=
  match s with
  | EmptyString => 0
  | String _ r => (if starts m s then 1 else 0) + occurrences m r
  end.

(** [border m s]: some non-empty end of [s] is a beginning of [m] that is
    shorter than [m], so that text put after [s] could complete it. *)
Fixpoint border (m s : string) : bool :=
  match s with
  | EmptyString => false
  | String _ r => (starts s m && Nat.ltb (String.length s) (String.length m)) || border m r
  end.

(** Text without the character that opens a tag. *)
Fixpoint plain (s : string) : bool :=
  match s with
  | EmptyString => true
  | String c r => negb (Ascii.eqb c "<") && plain r
  end.

(** The rest of [s] behind the beginning [m], when [s] begins with [m]. *)
Fixpoint after (m s : string) : option string :=
  match m with
  | EmptyString => Some s
  | String x m' =>
      match s with
      | EmptyString => None
      | String c s' => if Ascii.eqb x c then after m' s' else None
      end
  end.




End Text.

(** The opening tag of a product card, as the templates write it. *)
Definition cardMarker : string := Js.lit "<div class=~product-card~>".




(** The world keeps the database columns: only the file system and the
    clock moved. *)
Definition same_db (w w' : World) : Prop :=
  stores w' = stores w /\ products w' = products w
  /\ deployments w' = deployments w /\ next_id w' = next_id w
  /\ outbox w' = outbox w /\ mail_calls w' = mail_calls w.

(** The identifiers in use are below the counter. *)
Definition fresh_ids (w : World) : bool :=
  forallb (fun d => Nat.ltb (dep_id d) (next_id w)) (deployments w).

(** The record [deployStore] creates in world [w] for the snapshot [store]. *)
Definition created (env : Env) (storeId environment : string) (store : Snapshot)
           (w : World) : Deployment :=
  mkDeployment (next_id w) (DeploymentService.version_of (clock env (ticks w)))
               BUILDING None None
               (mkConfig store environment (clock env (S (ticks w))))
               environment storeId (clock env (S (S (ticks w)))) None.

(** The snapshot [deployStore] reads for the store row [s]. *)
Definition snapshot_of (storeId : string) (s : Store) (w : World) : Snapshot :=
  mkSnapshot s (filter (fun p => (product_storeId p =? storeId) && product_isActive p)
                       (products w)).

(** The number a version label carries. *)
Definition version_number (label : string) : option N :=
  match label with
  | String "v" digits => Js.N_of_string digits
  | _ => None
  end.

(** Deployments newest first. *)
Definition newer_or_same (a b : Deployment) : Prop :=
  (dep_createdAt b <= dep_createdAt a)%N.

(** A computation that leaves the database columns alone. *)
Definition keeps_db {A} (m : M A) : Prop :=
  forall w r w', m w = (r, w') -> same_db w w'.



(** Sample data. *)
Module Sample.

Definition pages (fault : nat -> option string) (time : nat -> N) : Env :=
  mkEnv time fault (fun _ => None) None
        "builds" "src/assets/placeholder.jpg"
        (fun _ _ => "product") (fun _ => "cart") (fun _ => "checkout")
        (fun _ => "contact") (fun _ => "about") (fun _ => "css") (fun _ => "js")
        (fun _ _ _ => "sitemap") (fun _ => "robots").

(** Every file-system call succeeds; the clock advances at each reading. *)
Definition env_ok : Env :=
  pages (fun _ => None) (fun n => (1700000000000 + N.of_nat n)%N).

(** The second file-system call (the write of [index.html]) fails. *)
Definition env_disk_full : Env :=
  pages (fun n => if Nat.eqb n 1 then Some "ENOSPC: no space left on device" else None)
        (fun n => (1700000000000 + N.of_nat n)%N).

(** Every file-system call succeeds; two readings fall in one millisecond. *)
Definition env_same_ms : Env :=
  pages (fun _ => None) (fun _ => 1700000000000%N).

Definition acme : Store :=
  mkStore "s1" "Acme" "acme" None "u1" None None None DRAFT false None.
Definition other : Store :=
  mkStore "s2" "Other" "other" (Some "mystore.com") "u2" None None None DRAFT false None.
Definition anvil : Product :=
  mkProduct "p1" "s1" "Anvil" (Some "Heavy") None "10.00" [] None (Some "anvil") true 5%N.
Definition rocket : Product :=
  mkProduct "p2" "s1" "Rocket" None None "99.50" ["/r.jpg"] None None true 6%N.
Definition retired : Product :=
  mkProduct "p3" "s1" "Retired" None None "1.00" [] None None false 7%N.

Definition world : World :=
  mkWorld [acme; other] [anvil; rocket; retired] [] 0 [] 0 0 [] 0.

Definition owner : User := mkUser "u1" USER.
Definition stranger : User := mkUser "u2" USER.


(** The sample world after a successful deployment of store [s1]. *)
Definition world_deployed : World :=
  snd (DeploymentService.deployStore Sample.env_ok "s1" None Sample.world).

Definition record (id : nat) (storeId : string) (createdAt : N) : Deployment :=
  mkDeployment id (DeploymentService.version_of createdAt) SUCCESS None None
               (mkConfig (mkSnapshot Sample.acme []) "production" createdAt)
               "production" storeId createdAt (Some createdAt).

(** Eight products of store [s1], each with its own id, name and price. *)
Definition item (n : string) : Product :=
  mkProduct ("p" ++ n) "s1" ("Item " ++ n) None None (n ++ ".00") [] None None true 1%N.


(** A world with four deployments, three of them of store [s1]. *)
Definition world_listed : World :=
  mkWorld [Sample.acme; Sample.other] []
          [record 0 "s1" 10; record 1 "s2" 20; record 2 "s1" 30; record 3 "s1" 20]
          4 [] 0 0 [] 0.


End Sample.

(* ================================================================== *)
(** ** Further notions: characters of a text *)
(* ================================================================== *)

Module Chars.

(** Every character of [s] satisfies [p]. *)
Fixpoint all (p : ascii -> bool) (s : string) : bool :=
  match s with
  | EmptyString => true
  | String c r => p c && all p r
  end.

(** Number of characters of [s] that satisfy [p]. *)
Fixpoint count (p : ascii -> bool) (s : string) : nat :=
  match s with
  | EmptyString => 0
  | String c r => (if p c then 1 else 0) + count p r
  end.

(** The bound [hi] of a pattern item admits [n] characters. *)
Definition within (hi : option nat) (n : nat) : Prop :=
  match hi with
  | Some h => n <= h
  | None => True
  end.

(** [s] splits into one run of characters for each item of [pat]. *)
Fixpoint splits (pat : list Regex.item) (s : string) : Prop :=
  match pat with
  | [] => s = EmptyString
  | it :: pat' =>
      exists run rest,
        s = (run ++ rest)%string
        /\ all (Regex.cls it) run = true
        /\ Regex.lo it <= String.length run
        /\ within (Regex.hi it) (String.length run)
        /\ splits pat' rest
  end.

End Chars.

(* ================================================================== *)
(** ** The words of the specification *)
(* ================================================================== *)

(** Notions the specification names and the code does not define; they
    are written here from its words and compared with the code in the
    properties. *)
Module Spec.


(** The first character of [s] satisfies [p]. *)
Definition begins_with (p : ascii -> bool) (s : string) : bool :=
  match s with
  | String c _ => p c
  | EmptyString => false
  end.

(** The last character of [s] satisfies [p]. *)
Fixpoint ends_with (p : ascii -> bool) (s : string) : bool :=
  match s with
  | EmptyString => false
  | String c r =>
      match r with
      | EmptyString => p c
      | String _ _ => ends_with p r
      end
  end.

(** A label: letters, digits and hyphens, not empty, no hyphen at either
    end. *)
Definition label (l : string) : bool :=
  Chars.all Regex.alnum_hyphen l
  && begins_with Regex.alnum l && ends_with Regex.alnum l.










End Spec.

(* ================================================================== *)
(** ** [EmailService] ([src/services/emailService.js]): the text part *)
(* ================================================================== *)

Module EmailService.

(** Some character of [s] is [>]. *)
Fixpoint has_gt (s : string) : bool :=
  match s with
  | EmptyString => false
  | String c r => Ascii.eqb c ">" || has_gt r
  end.

(** [html.replace(/<[^>]*>/g, '')], read from left to right.  Outside a
    match, a [<] opens one when a [>] follows somewhere (the class [[^>]]
    admits every other character, line ends included); the match then
    runs to the first [>].  [inside] tells whether a match is open. *)
Fixpoint strip (inside : bool) (s : string) : string :=
  match s with
  | EmptyString => EmptyString
  | String c r =>
      if inside
      then (if Ascii.eqb c ">" then strip false r else strip true r)
      else if Ascii.eqb c "<" && has_gt r
           then strip true r
           else String c (strip false r)
  end.

(** [stripHtml(html)] (lines 37-39) *)
Definition stripHtml (html : string) : string := strip false html.

(** The [text] of the message [sendEmail] builds (line 24):
    [text || this.stripHtml(html)]. *)
Definition message_text (html : string) (text : Js.jsstring) : string :=
  Js.show (Js.or text (Some (stripHtml html))).

(** [s] holds a tag: a [<] with a [>] somewhere after it. *)
Fixpoint has_tag (s : string) : bool :=
  match s with
  | EmptyString => false
  | String c r => (Ascii.eqb c "<" && has_gt r) || has_tag r
  end.

End EmailService.

(* ================================================================== *)
(** ** The cart script the build ships ([generateScripts], lines 867-1050) *)
(* ================================================================== *)

(** The functions of the generated [scripts.js] that keep the cart
    (lines 870-907), as they run in the browser on a page that has the
    [cart-count] element.  The markup [displayCart] renders is not
    modelled.  Quantities are the numbers of the language, doubles: an
    integer stands for the double of that value, and what is computed is
    rounded as the language rounds it. *)
Module ClientCart.

(** The values a quantity takes: an integer (as a double), the two
    infinities, [NaN] (what [parseInt] gives for a text without a number)
    or [null] (what a number that is not finite becomes in JSON). *)
Inductive num := Int (z : Z) | Infinity | NegInfinity | NaN | Null.

(** Up to 2^53 in absolute value every integer is a double. *)
Definition exact : Z := 9007199254740992.

(** From 2^1024 on a number is too large for a double. *)
Definition huge : Z := 2 ^ 1024.

(** The double nearest to the integer [z], as an integer: beyond the
    exact range, [z] rounded to 53 significant bits, to the nearest and
    to the even one of two that are equally near. *)
Definition round53 (z : Z) : Z :=
  let a := Z.abs z in
  if (a <=? exact)%Z then z
  else
    let e := (Z.log2 a - 52)%Z in
    let q := (a / 2 ^ e)%Z in
    let r := (a mod 2 ^ e)%Z in
    let half := (2 ^ (e - 1))%Z in
    let q' := if (r <? half)%Z then q
              else if (half <? r)%Z then (q + 1)%Z
              else if Z.even q then q else (q + 1)%Z in
    (Z.sgn z * (q' * 2 ^ e))%Z.

(** The number the integer [z] is in the language. *)
Definition number (z : Z) : num :=
  let r := round53 z in
  if (huge <=? r)%Z then Infinity
  else if (r <=? - huge)%Z then NegInfinity
  else Int r.

(** [a + b] on these values: [null] counts as 0, [NaN] absorbs, a sum of
    integers is rounded. *)
Definition plus (a b : num) : num :=
  match a, b with
  | NaN, _ | _, NaN => NaN
  | Infinity, NegInfinity | NegInfinity, Infinity => NaN
  | Infinity, _ | _, Infinity => Infinity
  | NegInfinity, _ | _, NegInfinity => NegInfinity
  | Int x, Int y => number (x + y)
  | Int x, Null | Null, Int x => Int x
  | Null, Null => Int 0
  end.

(** [q <= 0] *)
Definition le0 (q : num) : bool :=
  match q with
  | Int z => (z <=? 0)%Z
  | Infinity => false
  | NegInfinity => true
  | NaN => false
  | Null => true
  end.

(** [parseInt(text)]: [text] is [Some z] for a text that begins with the
    decimal digits of the integer [z], [None] for a text that begins with
    no number.  The result is the number [z] is.  (For more than 20
    significant digits the language lets an implementation read the
    digits after the 20th as zeros; the statements below use [parseInt]
    on integers up to 2^53, or say what holds for every such reading.) *)
Definition parseInt (text : option Z) : num :=
  match text with
  | Some z => number z
  | None => NaN
  end.

Record Item := mkItem { item_id : string; item_quantity : num }.

(** What the script keeps: the variable [cart], the value stored under
    the key 'cart' of [localStorage], the text of the [cart-count]
    element and the notifications shown. *)
Record Page := mkPage {
  cart : list Item;
  storage : list Item;
  badge : num;
  notifications : list string
}.

Definition has_id (productId : string) (item : Item) : bool :=
  item_id item =? productId.

(** [JSON.stringify(cart)], as the list it reads back to: a quantity that
    is not a finite number is written as [null]. *)
Definition json (c : list Item) : list Item :=
  map (fun item =>
         mkItem (item_id item)
                (match item_quantity item with
                 | NaN | Infinity | NegInfinity => Null
                 | q => q
                 end)) c.

(** [cart.reduce((total, item) => total + item.quantity, 0)] *)
Definition count (c : list Item) : num :=
  fold_left (fun total item => plus total (item_quantity item)) c (Int 0).

(** [localStorage.setItem('cart', JSON.stringify(cart))] followed by
    [updateCartCount()] (lines 873-876). *)
Definition save_and_count (p : Page) : Page :=
  mkPage (cart p) (json (cart p)) (count (cart p)) (notifications p).

(** [showNotification(message)] (lines 1018-1049) *)
Definition showNotification (message : string) (p : Page) : Page :=
  mkPage (cart p) (storage p) (badge p) (notifications p ++ [message]).

(** [addToCart(productId)] (lines 878-892) *)
Definition addToCart (productId : string) (p : Page) : Page :=
  let cart' :=
    match find (has_id productId) (cart p) with
    | Some _ =>
        update_first (has_id productId)
          (fun item => mkItem (item_id item) (plus (item_quantity item) (Int 1)))
          (cart p)
    | None => cart p ++ [mkItem productId (Int 1)]
    end in
  showNotification "Product added to cart!"
    (save_and_count (mkPage cart' (storage p) (badge p) (notifications p))).

(** [removeFromCart(productId)] (lines 894-899) *)
Definition removeFromCart (productId : string) (p : Page) : Page :=
  save_and_count
    (mkPage (filter (fun item => negb (has_id productId item)) (cart p))
            (storage p) (badge p) (notifications p)).

(** [updateQuantity(productId, quantity)] (lines 901-913) *)
Definition updateQuantity (productId : string) (quantity : option Z) (p : Page) : Page :=
  match find (has_id productId) (cart p) with
  | Some _ =>
      let cart' :=
        update_first (has_id productId)
          (fun item => mkItem (item_id item) (parseInt quantity)) (cart p) in
      let p' := mkPage cart' (storage p) (badge p) (notifications p) in
      if le0 (parseInt quantity) then removeFromCart productId p'
      else save_and_count p'
  | None => p
  end.

(** A cart in order: no product twice, every quantity an integer of at
    least 1 and at most 2^53. *)
Definition positive (item : Item) : Prop :=
  exists z, item_quantity item = Int z /\ (1 <= z <= exact)%Z.

Definition tidy (c : list Item) : Prop :=
  NoDup (map item_id c) /\ Forall positive c.

(** The number of pieces in a cart of integer quantities. *)
Fixpoint pieces (c : list Item) : Z :=
  match c with
  | [] => 0
  | item :: r =>
      (match item_quantity item with Int z => z | _ => 0 end + pieces r)%Z
  end.

End ClientCart.

(* ================================================================== *)
(** ** Further handlers and middleware *)
(* ================================================================== *)

Module Handlers.

(** [prisma.deployment.findFirst({ where: { storeId }, orderBy:
    { createdAt: 'desc' } })] *)
Definition deployment_findLatest (storeId : string) : M (option Deployment) :=
  gets (fun w =>
    hd_error (Prisma.orderBy_createdAt_desc (Prisma.of_store storeId (deployments w)))).

(** [latestDeployment?.url] *)
Definition latest_url (latest : option Deployment) : Js.jsstring :=
  match latest with
  | Some d => dep_url d
  | None => None
  end.

(** [getDeploymentConfig] (controller, lines 364-412): the store row, the
    latest deployment and [store.deploymentUrl || latestDeployment?.url]. *)
Definition getDeploymentConfig (user : User) (storeId : string)
  : M (Store * option Deployment * Js.jsstring) :=
  store <- Prisma.store_findUnique storeId ;;
  match store with
  | None => throw (mkExn NotFoundError "Store not found")
  | Some store =>
      if Controller.denied (store_userId store) user
      then throw (mkExn ValidationError "Access denied to this store")
      else
        latestDeployment <- deployment_findLatest storeId ;;
        ret (store, latestDeployment,
             Js.or (store_deploymentUrl store) (latest_url latestDeployment))
  end.

(** The plans [requireSubscription] ranks ([middleware/auth]):
    [subscriptionLevels[name] || 0], for a name that is one of the four
    keys or no property of an object at all (the names every object
    inherits, such as [constructor], are left aside). *)
Definition subscriptionLevel (name : string) : nat :=
  if name =? "FREE" then 0
  else if name =? "BASIC" then 1
  else if name =? "PROFESSIONAL" then 2
  else if name =? "ENTERPRISE" then 3
  else 0.

(** [requireSubscription(requiredPlan)] applied to a request: [user] is
    the [subscriptionStatus] of [req.user], if there is a user. *)
Definition requireSubscription (requiredPlan : string) (user : option string) : M unit :=
  match user with
  | None => throw (mkExn AuthenticationError "Authentication required")
  | Some subscriptionStatus =>
      if Nat.ltb (subscriptionLevel subscriptionStatus) (subscriptionLevel requiredPlan)
      then throw (mkExn AuthorizationError
                    ("This feature requires a " ++ requiredPlan
                     ++ " subscription or higher"))
      else ret tt
  end.

(** The values of the column [subscriptionStatus] ([enum
    SubscriptionStatus] of the schema). *)
Definition subscription_statuses : list string :=
  ["FREE"; "ACTIVE"; "PAST_DUE"; "CANCELED"; "TRIALING"].

(** The items of page [page] of a listing, [[]] when the route throws. *)
Definition page_items (user : User) (storeId : string) (page limit : Z) (w : World)
  : list Deployment :=
  match fst (Routes.getStoreDeployments user storeId
               (Middleware.QInteger page) (Middleware.QInteger limit) w) with
  | Ok (items, _) => items
  | Throw _ => []
  end.

(** The deployment rows have distinct identifiers. *)
Definition unique_ids (w : World) : Prop := NoDup (map dep_id (deployments w)).

End Handlers.

(* ================================================================== *)
(** ** The paths a build creates *)
(* ================================================================== *)

Module Build.

(** The path an operation of [fs.promises] creates. *)
Definition creates (op : FsOp) : string :=
  match op with
  | Mkdir path => path
  | WriteFile path _ => path
  | CopyFile _ dest => dest
  end.

(** The paths [generateStaticSite] (lines 125-162) creates under
    [buildPath], in the order of its calls; [copied] tells whether the
    copy of the placeholder image in [copyAssets] (lines 1054-1066) went
    through. *)
Definition paths (buildPath : string) (store : Snapshot) (copied : bool) : list string :=
  [buildPath; Fs.join buildPath "index.html"; Fs.join buildPath "products.html";
   Fs.join buildPath "product"]
  ++ map (fun p => Fs.join (Fs.join buildPath "product")
                           (DeploymentService.productFilename p ++ ".html"))
         (snap_products store)
  ++ [Fs.join buildPath "cart.html"; Fs.join buildPath "checkout.html";
      Fs.join buildPath "contact.html"; Fs.join buildPath "about.html";
      Fs.join buildPath "styles.css"; Fs.join buildPath "scripts.js";
      Fs.join buildPath "assets"]
  ++ (if copied then [Fs.join (Fs.join buildPath "assets") "placeholder.jpg"] else [])
  ++ [Fs.join buildPath "sitemap.xml"; Fs.join buildPath "robots.txt"].

End Build.

(* ================================================================== *)
(** * Properties *)
(* ================================================================== *)

(** ** Running computations *)

Lemma bind_ok {A B} (m : M A) (k : A -> M B) w a w1 :
  m w = (Ok a, w1) -> bind m k w = k a w1.
Proof. intros H. unfold bind. rewrite H. reflexivity. Qed.

Lemma bind_throw {A B} (m : M A) (k : A -> M B) w e w1 :
  m w = (Throw e, w1) -> bind m k w = (Throw e, w1).
Proof. intros H. unfold bind. rewrite H. reflexivity. Qed.

Lemma bind_inv_ok {A B} (m : M A) (k : A -> M B) w b w' :
  bind m k w = (Ok b, w') -> exists a w1, m w = (Ok a, w1) /\ k a w1 = (Ok b, w').
Proof.
  unfold bind. destruct (m w) as [[a|e] w1]; intros H.
  - exists a, w1. split; [reflexivity | exact H].
  - discriminate.
Qed.

Lemma deployStore_begin_found env storeId environment w s :
  find (Prisma.has_store_id storeId) (stores w) = Some s ->
  DeploymentService.deployStore_begin env storeId environment w =
  (Ok (snapshot_of storeId s w,
       created env storeId environment (snapshot_of storeId s w) w),
   mkWorld (update_first (Prisma.has_store_id storeId)
              (Prisma.apply_store_data
                 (Prisma.mkStoreData (Some PUBLISHED) (Some true) None None))
              (stores w))
           (products w)
           (deployments w ++ [created env storeId environment (snapshot_of storeId s w) w])
           (S (next_id w)) (fs_ops w) (fs_calls w) (S (S (S (ticks w))))
           (outbox w) (mail_calls w)).
Proof.
  intros H.
  unfold DeploymentService.deployStore_begin, Prisma.store_findUnique_with_products,
    DeploymentService.generateVersion, Prisma.deployment_create, Prisma.store_update,
    Prisma.now, bind, gets, ret.
  cbn. rewrite H. cbn. rewrite H. reflexivity.
Qed.

Lemma deployStore_begin_missing env storeId environment w :
  find (Prisma.has_store_id storeId) (stores w) = None ->
  DeploymentService.deployStore_begin env storeId environment w =
  (Throw (mkExn Error "Store not found"), w).
Proof.
  intros H.
  unfold DeploymentService.deployStore_begin, Prisma.store_findUnique_with_products,
    bind, gets. rewrite H. reflexivity.
Qed.

Lemma deployStore_missing env storeId environment w :
  find (Prisma.has_store_id storeId) (stores w) = None ->
  DeploymentService.deployStore env storeId environment w =
  (Throw (mkExn ReferenceError "deployment is not defined"), w).
Proof.
  intros H. unfold DeploymentService.deployStore, try_catch,
    DeploymentService.deployStore_try.
  rewrite (bind_throw _ _ _ _ _ (deployStore_begin_missing env storeId _ w H)).
  reflexivity.
Qed.

Lemma deployStore_build_throws env storeId environment w store d w1 e w2 :
  DeploymentService.deployStore_begin env storeId (Prisma.dflt environment "production") w
    = (Ok (store, d), w1) ->
  DeploymentService.generateStaticSite env store d w1 = (Throw e, w2) ->
  DeploymentService.deployStore env storeId environment w =
  (Throw (mkExn ReferenceError "deployment is not defined"), w2).
Proof.
  intros Hb Hg. unfold DeploymentService.deployStore, try_catch,
    DeploymentService.deployStore_try.
  rewrite (bind_ok _ _ _ _ _ Hb). cbn [fst snd].
  rewrite (bind_throw _ _ _ _ _ Hg). reflexivity.
Qed.

(** ** Computations that leave the database alone *)

Lemma same_db_refl w : same_db w w.
Proof. unfold same_db. tauto. Qed.

Lemma same_db_trans w1 w2 w3 : same_db w1 w2 -> same_db w2 w3 -> same_db w1 w3.
Proof.
  unfold same_db. intros (a & b & c & d & e & f) (a' & b' & c' & d' & e' & f').
  repeat split; congruence.
Qed.

Lemma keeps_ret {A} (a : A) : keeps_db (ret a).
Proof. intros w r w' H. inversion H. apply same_db_refl. Qed.

Lemma keeps_throw {A} e : keeps_db (@throw A e).
Proof. intros w r w' H. inversion H. apply same_db_refl. Qed.

Lemma keeps_bind {A B} (m : M A) (k : A -> M B) :
  keeps_db m -> (forall a, keeps_db (k a)) -> keeps_db (bind m k).
Proof.
  intros Hm Hk w r w'. unfold bind.
  destruct (m w) as [[a|e] w1] eqn:E; intros H.
  - eapply same_db_trans; [eapply Hm; eauto | eapply Hk; eauto].
  - inversion H; subst. eapply Hm; eauto.
Qed.

Lemma keeps_try_catch {A} (m : M A) (h : Exn -> M A) :
  keeps_db m -> (forall e, keeps_db (h e)) -> keeps_db (try_catch m h).
Proof.
  intros Hm Hh w r w'. unfold try_catch.
  destruct (m w) as [[a|e] w1] eqn:E; intros H.
  - inversion H; subst. eapply Hm; eauto.
  - eapply same_db_trans; [eapply Hm; eauto | eapply Hh; eauto].
Qed.

Lemma keeps_call env op : keeps_db (Fs.call env op).
Proof.
  intros w r w'. unfold Fs.call.
  destruct (fs_fault env (fs_calls w)); intros H; inversion H; subst;
    unfold same_db; cbn; tauto.
Qed.

Lemma keeps_now env : keeps_db (Prisma.now env).
Proof.
  intros w r w'. unfold Prisma.now. intros H; inversion H; subst.
  unfold same_db; cbn; tauto.
Qed.

Lemma keeps_writeProductPages env store dir ps :
  keeps_db (DeploymentService.writeProductPages env store dir ps).
Proof.
  induction ps as [|p ps IH]; cbn.
  - apply keeps_ret.
  - apply keeps_bind; [apply keeps_call | intros _; exact IH].
Qed.

Ltac keeps :=
  repeat first
    [ apply keeps_ret | apply keeps_throw | apply keeps_call | apply keeps_now
    | apply keeps_writeProductPages
    | apply keeps_bind; [ | intro ]
    | apply keeps_try_catch; [ | intro ] ].

Lemma keeps_generateStaticSite env store d :
  keeps_db (DeploymentService.generateStaticSite env store d).
Proof.
  unfold DeploymentService.generateStaticSite,
    DeploymentService.generateHomePage, DeploymentService.generateProductsPage,
    DeploymentService.generateProductPages, DeploymentService.generateCartPage,
    DeploymentService.generateCheckoutPage, DeploymentService.generateContactPage,
    DeploymentService.generateAboutPage, DeploymentService.generateStyles,
    DeploymentService.generateScripts, DeploymentService.copyAssets,
    DeploymentService.generateSitemap, DeploymentService.generateRobotsTxt,
    Fs.mkdir, Fs.writeFile, Fs.copyFile.
  keeps.
Qed.

(** ** Lists of rows *)

Lemma find_update_first {A} (p : A -> bool) (f : A -> A) l x :
  (forall a, p (f a) = p a) ->
  find p l = Some x -> find p (update_first p f l) = Some (f x).
Proof.
  intros Hp. induction l as [|a l IH]; cbn; [discriminate|].
  destruct (p a) eqn:E; cbn.
  - intros H; inversion H; subst. rewrite Hp, E. reflexivity.
  - rewrite E. exact IH.
Qed.

Lemma update_first_twice {A} (p : A -> bool) (f g : A -> A) l :
  (forall a, p (f a) = p a) ->
  update_first p g (update_first p f l) = update_first p (fun a => g (f a)) l.
Proof.
  intros Hp. induction l as [|a l IH]; cbn; [reflexivity|].
  destruct (p a) eqn:E; cbn.
  - rewrite Hp, E. reflexivity.
  - rewrite E, IH. reflexivity.
Qed.

Lemma update_first_none {A} (p : A -> bool) (f : A -> A) l :
  find p l = None -> update_first p f l = l.
Proof.
  induction l as [|a l IH]; cbn; [reflexivity|].
  destruct (p a); [discriminate|]. intros H. rewrite IH; auto.
Qed.

Lemma update_first_id {A} (p : A -> bool) (f : A -> A) l x :
  find p l = Some x -> f x = x -> update_first p f l = l.
Proof.
  induction l as [|a l IH]; cbn; [discriminate|].
  destruct (p a).
  - intros H E; inversion H; subst. rewrite E. reflexivity.
  - intros H E. rewrite IH; auto.
Qed.

Lemma find_app_fresh {A} (p : A -> bool) l x :
  find p l = None -> p x = true -> find p (l ++ [x]) = Some x.
Proof.
  induction l as [|a l IH]; cbn.
  - intros _ ->. reflexivity.
  - destruct (p a); [discriminate|]. exact IH.
Qed.

Lemma update_first_app_fresh {A} (p : A -> bool) f l (x : A) :
  find p l = None -> p x = true -> update_first p f (l ++ [x]) = l ++ [f x].
Proof.
  induction l as [|a l IH]; cbn.
  - intros _ ->. reflexivity.
  - destruct (p a); [discriminate|]. intros H1 H2. rewrite IH; auto.
Qed.

Lemma fresh_ids_find w :
  fresh_ids w = true -> find (Prisma.has_dep_id (next_id w)) (deployments w) = None.
Proof.
  unfold fresh_ids. generalize (next_id w) as n.
  induction (deployments w) as [|d l IH]; cbn; intros n H; [reflexivity|].
  apply andb_true_iff in H. destruct H as [H1 H2].
  unfold Prisma.has_dep_id at 1.
  apply Nat.ltb_lt in H1.
  destruct (Nat.eqb_spec (dep_id d) n); [lia|]. apply IH; exact H2.
Qed.

Lemma has_store_id_apply id data s :
  Prisma.has_store_id id (Prisma.apply_store_data data s) = Prisma.has_store_id id s.
Proof. reflexivity. Qed.

Lemma has_dep_id_apply id data d :
  Prisma.has_dep_id id (Prisma.apply_deployment_data data d) = Prisma.has_dep_id id d.
Proof. reflexivity. Qed.

(** The world after the part of [deployStore] that follows the build. *)
Lemma deployStore_finish_found env storeId store d bp w d0 s0 :
  find (Prisma.has_dep_id (dep_id d)) (deployments w) = Some d0 ->
  find (Prisma.has_store_id storeId) (stores w) = Some s0 ->
  exists w',
    DeploymentService.deployStore_finish env storeId store d bp w =
      (Ok (DeploymentService.mkDeployed d (DeploymentService.generateStoreUrl env store) bp), w')
    /\ deployments w' =
         update_first (Prisma.has_dep_id (dep_id d))
           (Prisma.apply_deployment_data
              (Prisma.mkDeploymentData (Some SUCCESS)
                 (Some (Some (DeploymentService.generateStoreUrl env store)))
                 (Some (clock env (ticks w)))
                 (Some (Some "Build completed successfully"))))
           (deployments w)
    /\ stores w' =
         update_first (Prisma.has_store_id storeId)
           (Prisma.apply_store_data
              (Prisma.mkStoreData None None
                 (Some (Some (DeploymentService.generateStoreUrl env store))) None))
           (stores w)
    /\ fs_ops w' = fs_ops w /\ products w' = products w.
Proof.
  intros Hd Hs.
  unfold DeploymentService.deployStore_finish, Prisma.deployment_update,
    Prisma.store_update, Prisma.now, Email.sendStoreDeploymentNotification,
    try_catch, bind, ret.
  cbn. rewrite Hd. cbn. rewrite Hs. cbn.
  destruct (mail_fault env (mail_calls w)); cbn;
    eexists; repeat split; reflexivity.
Qed.

(** ** The two ways a deployment ends *)

Lemma deployStore_begin_inv env storeId environment w store d w1 :
  DeploymentService.deployStore_begin env storeId environment w = (Ok (store, d), w1) ->
  exists s,
    find (Prisma.has_store_id storeId) (stores w) = Some s
    /\ store = snapshot_of storeId s w
    /\ d = created env storeId environment store w
    /\ stores w1 = update_first (Prisma.has_store_id storeId)
                     (Prisma.apply_store_data
                        (Prisma.mkStoreData (Some PUBLISHED) (Some true) None None))
                     (stores w)
    /\ deployments w1 = deployments w ++ [d]
    /\ next_id w1 = S (next_id w)
    /\ fs_ops w1 = fs_ops w.
Proof.
  destruct (find (Prisma.has_store_id storeId) (stores w)) as [s|] eqn:E.
  - rewrite (deployStore_begin_found env storeId environment w s E).
    intros H. inversion H; subst. exists s. cbn. repeat split; reflexivity.
  - rewrite (deployStore_begin_missing env storeId environment w E). discriminate.
Qed.

Lemma map_update_first {A B} (g : A -> B) (p : A -> bool) (f : A -> A) l :
  (forall a, g (f a) = g a) -> map g (update_first p f l) = map g l.
Proof.
  intros H. induction l as [|a l IH]; cbn; [reflexivity|].
  destruct (p a); cbn; [rewrite H | rewrite IH]; reflexivity.
Qed.

(** What a failed build leaves behind. *)
Lemma deployStore_failed_build env storeId environment w store d w1 e w2 :
  DeploymentService.deployStore_begin env storeId (Prisma.dflt environment "production") w
    = (Ok (store, d), w1) ->
  DeploymentService.generateStaticSite env store d w1 = (Throw e, w2) ->
  DeploymentService.deployStore env storeId environment w
    = (Throw (mkExn ReferenceError "deployment is not defined"), w2)
  /\ deployments w2 = deployments w ++ [d]
  /\ dep_status d = BUILDING
  /\ dep_buildLogs d = None
  /\ stores w2 = update_first (Prisma.has_store_id storeId)
                   (Prisma.apply_store_data
                      (Prisma.mkStoreData (Some PUBLISHED) (Some true) None None))
                   (stores w).
Proof.
  intros Hb Hg.
  split; [eapply deployStore_build_throws; eauto|].
  destruct (deployStore_begin_inv _ _ _ _ _ _ _ Hb)
    as (s & Hs & Hstore & Hd & Hst & Hdep & Hid & Hfs).
  destruct (keeps_generateStaticSite env store d w1 _ w2 Hg)
    as (K1 & K2 & K3 & K4 & K5 & K6).
  rewrite K3, K1, Hdep, Hst. subst d. cbn. repeat split; reflexivity.
Qed.

(** What a successful build leads to. *)
Lemma deployStore_succeeded_build env storeId environment w store d w1 bp w2 :
  fresh_ids w = true ->
  DeploymentService.deployStore_begin env storeId (Prisma.dflt environment "production") w
    = (Ok (store, d), w1) ->
  DeploymentService.generateStaticSite env store d w1 = (Ok bp, w2) ->
  exists w',
    DeploymentService.deployStore env storeId environment w =
      (Ok (DeploymentService.mkDeployed d (DeploymentService.generateStoreUrl env store) bp), w')
    /\ deployments w' =
         deployments w ++
           [Prisma.apply_deployment_data
              (Prisma.mkDeploymentData (Some SUCCESS)
                 (Some (Some (DeploymentService.generateStoreUrl env store)))
                 (Some (clock env (ticks w2)))
                 (Some (Some "Build completed successfully"))) d]
    /\ stores w' =
         update_first (Prisma.has_store_id storeId)
           (Prisma.apply_store_data
              (Prisma.mkStoreData (Some PUBLISHED) (Some true)
                 (Some (Some (DeploymentService.generateStoreUrl env store))) None))
           (stores w)
    /\ fs_ops w' = fs_ops w2.
Proof.
  intros Hfresh Hb Hg.
  destruct (deployStore_begin_inv _ _ _ _ _ _ _ Hb)
    as (s & Hs & Hstore & Hd & Hst & Hdep & Hid & Hfs).
  destruct (keeps_generateStaticSite env store d w1 _ w2 Hg)
    as (K1 & K2 & K3 & K4 & K5 & K6).
  assert (Hnone : find (Prisma.has_dep_id (dep_id d)) (deployments w) = None).
  { subst d. cbn. apply fresh_ids_find. exact Hfresh. }
  assert (Hself : Prisma.has_dep_id (dep_id d) d = true).
  { unfold Prisma.has_dep_id. apply Nat.eqb_refl. }
  assert (Hfd : find (Prisma.has_dep_id (dep_id d)) (deployments w2) = Some d).
  { rewrite K3, Hdep. apply find_app_fresh; assumption. }
  assert (Hfs2 : find (Prisma.has_store_id storeId) (stores w2)
                 = Some (Prisma.apply_store_data
                           (Prisma.mkStoreData (Some PUBLISHED) (Some true) None None) s)).
  { rewrite K1, Hst. apply find_update_first; [reflexivity | exact Hs]. }
  destruct (deployStore_finish_found env storeId store d bp w2 _ _ Hfd Hfs2)
    as (w' & Hfin & Hdeps & Hstores & Hops & _).
  exists w'. split.
  - unfold DeploymentService.deployStore, try_catch, DeploymentService.deployStore_try.
    rewrite (bind_ok _ _ _ _ _ Hb). cbn [fst snd].
    rewrite (bind_ok _ _ _ _ _ Hg). rewrite Hfin. reflexivity.
  - split; [|split; [|exact Hops]].
    + rewrite Hdeps, K3, Hdep. apply update_first_app_fresh; assumption.
    + rewrite Hstores, K1, Hst. rewrite update_first_twice by reflexivity. reflexivity.
Qed.

(** ** Deployments: records, errors, store row (C1, C2, C3) *)

(** C1 (defect in the code). When the build of an existing store throws,
    [deployStore] has created exactly one new deployment record, and that
    record is still [BUILDING] when the call ends: the [catch] block reads
    an identifier that is not bound there, so the update to [FAILED] is
    never reached, no build log is stored, and the caller receives a
    [ReferenceError]. *)
Theorem C1_failed_build_leaves_record_BUILDING :
  forall env storeId environment w store d w1 e w2,
    DeploymentService.deployStore_begin env storeId
      (Prisma.dflt environment "production") w = (Ok (store, d), w1) ->
    DeploymentService.generateStaticSite env store d w1 = (Throw e, w2) ->
    exists e',
      DeploymentService.deployStore env storeId environment w = (Throw e', w2)
      /\ exn_class e' = ReferenceError
      /\ deployments w2 = deployments w ++ [d]
      /\ dep_status d = BUILDING
      /\ terminal (dep_status d) = false
      /\ dep_buildLogs d = None.
Proof.
  intros env storeId environment w store d w1 e w2 Hb Hg.
  destruct (deployStore_failed_build _ _ _ _ _ _ _ _ _ Hb Hg)
    as (Hrun & Hdeps & Hst & Hlog & _).
  eexists. split; [exact Hrun|].
  rewrite Hst. repeat split; assumption.
Qed.

Lemma C1_witness :
  exists e' w2 d,
    DeploymentService.deployStore Sample.env_disk_full "s1" None Sample.world
      = (Throw e', w2)
    /\ exn_class e' = ReferenceError
    /\ deployments w2 = deployments Sample.world ++ [d]
    /\ dep_status d = BUILDING
    /\ terminal (dep_status d) = false
    /\ dep_buildLogs d = None.
Proof.
  edestruct (C1_failed_build_leaves_record_BUILDING
               Sample.env_disk_full "s1" None Sample.world) as (e' & H).
  - vm_compute. reflexivity.
  - vm_compute. reflexivity.
  - eexists. eexists. eexists. exact H.
Defined.

(** C2 (as amended). An error raised by the build after the deployment
    record has been created is caught by [deployStore] and the call then
    ends in an exception, never in a normal return; the one record the call
    created stays in the table.  When the store is not found the call ends
    in an exception as well, and the world is as it was: no record is
    created. *)
Theorem C2_deploy_errors_reach_the_caller :
  forall env storeId environment w,
    (find (Prisma.has_store_id storeId) (stores w) = None ->
     exists e', DeploymentService.deployStore env storeId environment w = (Throw e', w))
    /\
    (forall store d w1 e w2,
       DeploymentService.deployStore_begin env storeId
         (Prisma.dflt environment "production") w = (Ok (store, d), w1) ->
       DeploymentService.generateStaticSite env store d w1 = (Throw e, w2) ->
       exists e',
         DeploymentService.deployStore env storeId environment w = (Throw e', w2)
         /\ deployments w2 = deployments w ++ [d]).
Proof.
  intros env storeId environment w. split.
  - intros H. eexists. apply deployStore_missing. exact H.
  - intros store d w1 e w2 Hb Hg.
    destruct (deployStore_failed_build _ _ _ _ _ _ _ _ _ Hb Hg) as (Hrun & Hdeps & _).
    eexists. split; [exact Hrun | exact Hdeps].
Qed.

Lemma C2_witness :
  (exists e', DeploymentService.deployStore Sample.env_ok "s9" None Sample.world
              = (Throw e', Sample.world))
  /\ (exists e' w2 d,
        DeploymentService.deployStore Sample.env_disk_full "s1" None Sample.world
          = (Throw e', w2)
        /\ deployments w2 = deployments Sample.world ++ [d]).
Proof.
  split.
  - apply (proj1 (C2_deploy_errors_reach_the_caller Sample.env_ok "s9" None Sample.world)).
    reflexivity.
  - edestruct (proj2 (C2_deploy_errors_reach_the_caller
                        Sample.env_disk_full "s1" None Sample.world)) as (e' & H).
    + vm_compute. reflexivity.
    + vm_compute. reflexivity.
    + eexists. eexists. eexists. exact H.
Defined.

(** C2, where the specification as written fails: the write of [index.html]
    fails after the record was created; the call ends in an exception
    instead of returning, and the record is neither [FAILED] nor does it
    hold a log. *)
Lemma C2_counterexample :
  exists e' w',
    DeploymentService.deployStore Sample.env_disk_full "s1" None Sample.world
      = (Throw e', w')
    /\ map dep_status (deployments w') = [BUILDING]
    /\ map dep_buildLogs (deployments w') = [None].
Proof. eexists. eexists. split; [vm_compute; reflexivity|]. split; reflexivity. Qed.

(** C3 (as amended). When the build of an existing store throws, the
    store row has already been marked [PUBLISHED] and deployed (that
    update precedes the build) and every other column, [deploymentUrl]
    among them, keeps its value.  [deploymentUrl] is written only after a
    build that succeeded, together with the [SUCCESS] of the record. *)
Theorem C3_store_row_after_deploy :
  forall env storeId environment w store d w1 r w2,
    fresh_ids w = true ->
    DeploymentService.deployStore_begin env storeId
      (Prisma.dflt environment "production") w = (Ok (store, d), w1) ->
    DeploymentService.generateStaticSite env store d w1 = (r, w2) ->
    let w' := snd (DeploymentService.deployStore env storeId environment w) in
    (is_ok r = false ->
       stores w' = update_first (Prisma.has_store_id storeId)
                     (Prisma.apply_store_data
                        (Prisma.mkStoreData (Some PUBLISHED) (Some true) None None))
                     (stores w)
       /\ map store_deploymentUrl (stores w') = map store_deploymentUrl (stores w)
       /\ map dep_status (deployments w') = map dep_status (deployments w) ++ [BUILDING])
    /\
    (is_ok r = true ->
       stores w' = update_first (Prisma.has_store_id storeId)
                     (Prisma.apply_store_data
                        (Prisma.mkStoreData (Some PUBLISHED) (Some true)
                           (Some (Some (DeploymentService.generateStoreUrl env store)))
                           None))
                     (stores w)
       /\ map dep_status (deployments w') = map dep_status (deployments w) ++ [SUCCESS]).
Proof.
  intros env storeId environment w store d w1 r w2 Hfresh Hb Hg w'.
  destruct r as [bp|e]; split; intros Hr; try discriminate.
  - destruct (deployStore_succeeded_build _ _ _ _ _ _ _ _ _ Hfresh Hb Hg)
      as (w3 & Hrun & Hdeps & Hstores & _).
    subst w'. rewrite Hrun. cbn [snd]. split; [exact Hstores|].
    rewrite Hdeps, map_app. reflexivity.
  - destruct (deployStore_failed_build _ _ _ _ _ _ _ _ _ Hb Hg)
      as (Hrun & Hdeps & Hst & _ & Hstores).
    subst w'. rewrite Hrun. cbn [snd]. split; [exact Hstores|]. split.
    + rewrite Hstores. apply map_update_first. reflexivity.
    + rewrite Hdeps, map_app. cbn. rewrite Hst. reflexivity.
Qed.

Lemma C3_witness :
  let w' := snd (DeploymentService.deployStore Sample.env_disk_full "s1" None Sample.world) in
  map store_deploymentUrl (stores w') = map store_deploymentUrl (stores Sample.world)
  /\ map dep_status (deployments w') = [BUILDING].
Proof.
  edestruct (C3_store_row_after_deploy Sample.env_disk_full "s1" None Sample.world)
    as (Hfail & _).
  - vm_compute. reflexivity.
  - vm_compute. reflexivity.
  - vm_compute. reflexivity.
  - destruct (Hfail eq_refl) as (_ & Hurl & Hst). split; [exact Hurl | exact Hst].
Defined.

(** C3, where the specification as written fails: the build of store [s1]
    fails, its deployment does not end in [SUCCESS], and yet the store row
    went from [DRAFT], not deployed, to [PUBLISHED], deployed. *)
Lemma C3_counterexample :
  exists e' w',
    DeploymentService.deployStore Sample.env_disk_full "s1" None Sample.world
      = (Throw e', w')
    /\ map dep_status (deployments w') = [BUILDING]
    /\ find (Prisma.has_store_id "s1") (stores Sample.world) = Some Sample.acme
    /\ store_status Sample.acme = DRAFT /\ store_isDeployed Sample.acme = false
    /\ option_map store_status (find (Prisma.has_store_id "s1") (stores w')) = Some PUBLISHED
    /\ option_map store_isDeployed (find (Prisma.has_store_id "s1") (stores w')) = Some true.
Proof.
  eexists. eexists. split; [vm_compute; reflexivity|]. repeat split; reflexivity.
Qed.

(** ** Custom domains and rollback (C5; C4 follows the domain pattern below) *)


(** How [setupCustomDomain] runs on a well-formed domain. *)
Lemma setupCustomDomain_valid storeId domain w :
  DeploymentService.isValidDomain domain = true ->
  DeploymentService.setupCustomDomain storeId domain w =
  if DeploymentService.bound_elsewhere
       (find (fun s => match store_customDomain s with
                       | Some d => d =? domain
                       | None => false
                       end) (stores w)) storeId
  then (Throw (mkExn Error "Domain is already in use"), w)
  else match find (Prisma.has_store_id storeId) (stores w) with
       | Some _ =>
           (Ok (DeploymentService.mkDomainSetup domain ("https://" ++ domain)),
            set_stores (update_first (Prisma.has_store_id storeId)
                          (Prisma.apply_store_data
                             (Prisma.mkStoreData None None None (Some (Some domain))))
                          (stores w)) w)
       | None => (Throw (Prisma.record_not_found "Record to update not found."), w)
       end.
Proof.
  intros Hv. unfold DeploymentService.setupCustomDomain. rewrite Hv. cbn [negb].
  unfold bind, Prisma.store_findFirst_customDomain, gets.
  destruct (DeploymentService.bound_elsewhere _ storeId); [reflexivity|].
  unfold Prisma.store_update.
  destruct (find (Prisma.has_store_id storeId) (stores w)); reflexivity.
Qed.

(** C5 (as amended). [rollbackDeployment] throws a plain [Error] with the
    message 'Deployment not found' when the store has no [SUCCESS]
    deployment with that version, and leaves the world, the store's
    [deploymentUrl] included, as it was.  When there is one, it returns it
    and writes its URL into the store's [deploymentUrl]; no other column,
    no deployment record and no file is touched. *)
Theorem C5_rollbackDeployment :
  forall storeId version w,
    let found := find (fun d => (dep_storeId d =? storeId) && (dep_version d =? version)
                                && DeploymentStatus_eqb (dep_status d) SUCCESS)
                      (deployments w) in
    (found = None ->
     DeploymentService.rollbackDeployment storeId version w
       = (Throw (mkExn Error "Deployment not found"), w))
    /\
    (forall d s, found = Some d ->
       find (Prisma.has_store_id storeId) (stores w) = Some s ->
       exists w',
         DeploymentService.rollbackDeployment storeId version w = (Ok d, w')
         /\ stores w' = update_first (Prisma.has_store_id storeId)
                          (Prisma.apply_store_data
                             (Prisma.mkStoreData None None (Some (dep_url d)) None))
                          (stores w)
         /\ find (Prisma.has_store_id storeId) (stores w')
            = Some (mkStore (store_id s) (store_name s) (store_slug s)
                            (store_customDomain s) (store_userId s)
                            (store_description s) (store_metaTitle s)
                            (store_metaDescription s) (store_status s)
                            (store_isDeployed s) (dep_url d))
         /\ deployments w' = deployments w
         /\ fs_ops w' = fs_ops w /\ fs_calls w' = fs_calls w
         /\ products w' = products w).
Proof.
  intros storeId version w found. split.
  - intros H. unfold DeploymentService.rollbackDeployment, bind,
      Prisma.deployment_findFirst, gets. fold found. rewrite H. reflexivity.
  - intros d s Hd Hs.
    unfold DeploymentService.rollbackDeployment, bind,
      Prisma.deployment_findFirst, gets. fold found. rewrite Hd.
    unfold Prisma.store_update. rewrite Hs. cbn.
    eexists. split; [reflexivity|]. cbn. split; [reflexivity|]. split.
    + rewrite (find_update_first _ _ _ s) by (reflexivity || exact Hs). reflexivity.
    + repeat split; reflexivity.
Qed.

Lemma C5_witness :
  DeploymentService.rollbackDeployment "s1" "v1" Sample.world_deployed
    = (Throw (mkExn Error "Deployment not found"), Sample.world_deployed)
  /\ exists d w',
       DeploymentService.rollbackDeployment "s1" "v1700000000000" Sample.world_deployed
         = (Ok d, w')
       /\ option_map store_deploymentUrl (find (Prisma.has_store_id "s1") (stores w'))
          = Some (dep_url d)
       /\ deployments w' = deployments Sample.world_deployed
       /\ fs_ops w' = fs_ops Sample.world_deployed.
Proof.
  split.
  - apply (proj1 (C5_rollbackDeployment "s1" "v1" Sample.world_deployed)).
    vm_compute. reflexivity.
  - edestruct (proj2 (C5_rollbackDeployment "s1" "v1700000000000" Sample.world_deployed))
      as (w' & Hrun & _ & Hstore & Hdeps & Hfs & _).
    + vm_compute. reflexivity.
    + vm_compute. reflexivity.
    + eexists. exists w'. split; [exact Hrun|]. rewrite Hstore.
      split; [reflexivity|]. split; [exact Hdeps | exact Hfs].
Defined.

(** C5, where the specification as written fails: a rollback to a version
    the store never had is refused with the built-in [Error] class, not
    with [NotFoundError]. *)
Lemma C5_counterexample :
  exists e,
    DeploymentService.rollbackDeployment "s1" "v1" Sample.world_deployed
      = (Throw e, Sample.world_deployed)
    /\ exn_class e = Error /\ exn_class e <> NotFoundError.
Proof. eexists. split; [vm_compute; reflexivity|]. split; [reflexivity | discriminate]. Qed.

(** ** The listing of deployments (C6) *)

Lemma insert_desc_perm d l : Permutation (Prisma.insert_desc d l) (d :: l).
Proof.
  induction l as [|x r IH]; cbn; [apply Permutation_refl|].
  destruct (dep_createdAt x <=? dep_createdAt d)%N.
  - apply Permutation_refl.
  - eapply Permutation_trans; [apply perm_skip; exact IH | apply perm_swap].
Qed.

Lemma orderBy_perm l : Permutation (Prisma.orderBy_createdAt_desc l) l.
Proof.
  induction l as [|d l IH]; cbn; [constructor|].
  eapply Permutation_trans; [apply insert_desc_perm | apply perm_skip; exact IH].
Qed.

Lemma insert_desc_hd a d l :
  newer_or_same a d -> HdRel newer_or_same a l ->
  HdRel newer_or_same a (Prisma.insert_desc d l).
Proof.
  intros Had Hl. destruct l as [|x r]; cbn.
  - constructor. exact Had.
  - destruct (dep_createdAt x <=? dep_createdAt d)%N; constructor.
    + exact Had.
    + inversion Hl; assumption.
Qed.

Lemma insert_desc_sorted d l :
  Sorted newer_or_same l -> Sorted newer_or_same (Prisma.insert_desc d l).
Proof.
  induction l as [|x r IH]; cbn; intros Hs.
  - constructor; constructor.
  - destruct (N.leb_spec (dep_createdAt x) (dep_createdAt d)) as [Hle|Hgt].
    + constructor; [exact Hs|]. constructor. exact Hle.
    + inversion Hs; subst. constructor.
      * apply IH. assumption.
      * apply insert_desc_hd; [|assumption]. unfold newer_or_same. lia.
Qed.

Lemma orderBy_sorted l : Sorted newer_or_same (Prisma.orderBy_createdAt_desc l).
Proof.
  induction l as [|d l IH]; cbn; [constructor|].
  apply insert_desc_sorted. exact IH.
Qed.

Lemma sorted_skipn {A} (R : A -> A -> Prop) n l : Sorted R l -> Sorted R (skipn n l).
Proof.
  revert l. induction n as [|n IH]; intros l Hs; cbn; [exact Hs|].
  destruct l as [|x r]; [constructor|]. apply IH. inversion Hs; assumption.
Qed.

Lemma sorted_firstn {A} (R : A -> A -> Prop) n l : Sorted R l -> Sorted R (firstn n l).
Proof.
  revert l. induction n as [|n IH]; intros l Hs; cbn; [constructor|].
  destruct l as [|x r]; [constructor|]. inversion Hs; subst. constructor.
  - apply IH. assumption.
  - destruct n; cbn; [constructor|].
    destruct r; [constructor|]. constructor. inversion H2; assumption.
Qed.

Lemma ceil_div_spec total limit :
  (0 <= total)%Z -> (1 <= limit)%Z ->
  exists pages, Controller.ceil_div total limit = Some pages
                /\ ((pages - 1) * limit < total <= pages * limit)%Z.
Proof.
  intros Ht Hl. unfold Controller.ceil_div.
  destruct (Z.eqb_spec limit 0); [lia|].
  eexists. split; [reflexivity|].
  pose proof (Z.div_mod (- total) limit ltac:(lia)) as Hdm.
  pose proof (Z.mod_pos_bound (- total) limit ltac:(lia)) as Hb.
  nia.
Qed.

Lemma verifyStoreOwnership_pass user storeId s w :
  storeId <> EmptyString ->
  find (Prisma.has_store_id storeId) (stores w) = Some s ->
  store_userId s = user_id user \/ user_role user = ADMIN ->
  Middleware.verifyStoreOwnership user storeId w = (Ok tt, w).
Proof.
  intros Hne Hs Hallowed. unfold Middleware.verifyStoreOwnership.
  destruct (String.eqb_spec storeId EmptyString); [contradiction|].
  unfold bind, Prisma.store_findUnique, gets. rewrite Hs.
  destruct Hallowed as [Hown | Hadm].
  - destruct (Role_eqb (user_role user) ADMIN || Role_eqb (user_role user) SUPER_ADMIN);
      [reflexivity|].
    rewrite Hown, String.eqb_refl. reflexivity.
  - rewrite Hadm. reflexivity.
Qed.

Lemma denied_allowed user s :
  store_userId s = user_id user \/ user_role user = ADMIN ->
  Controller.denied (store_userId s) user = false.
Proof.
  unfold Controller.denied. intros [H | H].
  - rewrite H, String.eqb_refl. reflexivity.
  - rewrite H. cbn. apply andb_false_r.
Qed.

Lemma newer_or_same_trans : Relations_1.Transitive newer_or_same.
Proof. intros a b c Hab Hbc. unfold newer_or_same in *. lia. Qed.

(** Rows created at different instants have one newest-first order. *)
Lemma sorted_unique (l1 : list Deployment) : forall l2,
  NoDup (map dep_createdAt l1) ->
  Permutation l1 l2 ->
  Sorted newer_or_same l1 -> Sorted newer_or_same l2 ->
  l1 = l2.
Proof.
  induction l1 as [|a r IH]; intros l2 Hnd Hp H1 H2.
  - apply Permutation_nil in Hp. symmetry. exact Hp.
  - destruct l2 as [|b r2].
    { apply Permutation_sym, Permutation_nil in Hp. discriminate. }
    apply Sorted_StronglySorted in H1; [|exact newer_or_same_trans].
    apply Sorted_StronglySorted in H2; [|exact newer_or_same_trans].
    inversion H1 as [|? ? Hr Ha]; subst. inversion H2 as [|? ? Hr2 Hb]; subst.
    rewrite Forall_forall in Ha, Hb.
    cbn [map] in Hnd. inversion Hnd as [|? ? Hnotin Hnd']; subst.
    assert (Hab : a = b).
    { assert (Hin_b : In b (a :: r)).
      { apply (Permutation_in _ (Permutation_sym Hp)). left. reflexivity. }
      destruct Hin_b as [E|Hin_b]; [exact E|].
      assert (Hin_a : In a (b :: r2)).
      { apply (Permutation_in _ Hp). left. reflexivity. }
      exfalso. apply Hnotin.
      assert (E : dep_createdAt b = dep_createdAt a).
      { pose proof (Ha b Hin_b) as Hle. unfold newer_or_same in Hle.
        destruct Hin_a as [E|Hin_a]; [rewrite E; reflexivity|].
        pose proof (Hb a Hin_a) as Hge. unfold newer_or_same in Hge. lia. }
      rewrite <- E. apply in_map. exact Hin_b. }
    subst b. f_equal. apply IH.
    + exact Hnd'.
    + apply (Permutation_cons_inv Hp).
    + apply StronglySorted_Sorted. exact Hr.
    + apply StronglySorted_Sorted. exact Hr2.
Qed.

Lemma joi_integer_in_range lo hi d z :
  Middleware.safe z = true -> (lo <= z)%Z ->
  match hi with Some h => (z <= h)%Z | None => True end ->
  Middleware.joi_integer lo hi d (Middleware.QInteger z) = Some z.
Proof.
  intros Hs Hlo Hhi. unfold Middleware.joi_integer. rewrite Hs. cbn [negb].
  destruct (Z.ltb_spec z lo); [lia|].
  destruct hi as [h|]; [|reflexivity].
  destruct (Z.ltb_spec h z); [lia | reflexivity].
Qed.

Lemma small_is_safe z : (0 <= z <= 9007199254740991)%Z -> Middleware.safe z = true.
Proof.
  intros H. unfold Middleware.safe, Middleware.max_safe_integer.
  apply Z.leb_le. lia.
Qed.

Lemma validate_pagination_ok page limit w :
  (1 <= page <= 9007199254740991)%Z -> (1 <= limit <= 100)%Z ->
  Middleware.validate_pagination (Middleware.QInteger page) (Middleware.QInteger limit) w
  = (Ok (Middleware.mkQuery (Some page) (Some limit)), w).
Proof.
  intros Hp Hl. unfold Middleware.validate_pagination.
  rewrite (joi_integer_in_range 1 None 1 page), (joi_integer_in_range 1 (Some 100%Z) 10 limit);
    try reflexivity; try lia; try exact I; apply small_is_safe; lia.
Qed.

(** A limit above 100 is refused, whatever else the query holds. *)
Lemma validate_pagination_big page big w :
  (100 < big)%Z ->
  Middleware.validate_pagination page (Middleware.QInteger big) w
  = (Throw (mkExn ValidationError "Validation failed"), w).
Proof.
  intros Hbig. unfold Middleware.validate_pagination.
  assert (E : Middleware.joi_integer 1 (Some 100%Z) 10 (Middleware.QInteger big) = None).
  { unfold Middleware.joi_integer. destruct (negb (Middleware.safe big)); [reflexivity|].
    destruct (Z.ltb_spec big 1); [reflexivity|].
    destruct (Z.ltb_spec 100 big); [reflexivity | lia]. }
  rewrite E. destruct (Middleware.joi_integer 1 None 1 page); reflexivity.
Qed.

(** What the handler serves to the owner or an [ADMIN]. *)
Lemma getStoreDeployments_served user storeId s page limit w :
  find (Prisma.has_store_id storeId) (stores w) = Some s ->
  store_userId s = user_id user \/ user_role user = ADMIN ->
  Controller.getStoreDeployments user storeId
    (Middleware.mkQuery (Some page) (Some limit)) w
  = (Ok (firstn (Z.to_nat limit)
           (skipn (Z.to_nat ((page - 1) * limit))
              (Prisma.orderBy_createdAt_desc (Prisma.of_store storeId (deployments w)))),
         Controller.mkPagination page limit
           (Z.of_nat (List.length (Prisma.of_store storeId (deployments w))))
           (Controller.ceil_div
              (Z.of_nat (List.length (Prisma.of_store storeId (deployments w)))) limit)),
     w).
Proof.
  intros Hs Hallowed.
  unfold Controller.getStoreDeployments, Prisma.store_findUnique,
    Prisma.deployment_findMany, Prisma.deployment_count, bind, ret, gets.
  cbn [Middleware.q_page Middleware.q_limit Prisma.dflt].
  rewrite Hs, (denied_allowed user s Hallowed). reflexivity.
Qed.

(** C6. Through its route, the listing of a store's deployments returns,
    for a page of at least 1 and a limit between 1 and 100, a page of that
    store's deployments ordered newest first, with their total number and
    with pages = ceil(total/limit).  The page is a newest-first
    arrangement of the store's deployments without its first
    (page-1)*limit records and cut after limit records; when no two
    deployments of the store were created at the same instant there is
    one such arrangement, and the page is that part of it, whichever way
    it is computed.  A limit above 100 is refused by the validation of
    the route, so that no page holds more than 100 records.  The offset
    is kept within 31 bits. *)
Theorem C6_getStoreDeployments_page :
  forall user storeId s page limit w,
    storeId <> EmptyString ->
    find (Prisma.has_store_id storeId) (stores w) = Some s ->
    store_userId s = user_id user \/ user_role user = ADMIN ->
    (1 <= page)%Z -> (1 <= limit <= 100)%Z ->
    (page * limit <= 2147483647)%Z ->
    let mine := Prisma.of_store storeId (deployments w) in
    let total := Z.of_nat (List.length mine) in
    let skip := Z.to_nat ((page - 1) * limit) in
    exists items pages,
      Routes.getStoreDeployments user storeId
        (Middleware.QInteger page) (Middleware.QInteger limit) w
      = (Ok (items, Controller.mkPagination page limit total (Some pages)), w)
      /\ ((pages - 1) * limit < total <= pages * limit)%Z
      /\ Sorted newer_or_same items
      /\ List.length items = Nat.min (Z.to_nat limit) (List.length mine - skip)
      /\ List.length items <= 100
      /\ (exists newest_first,
            Permutation newest_first mine /\ Sorted newer_or_same newest_first
            /\ items = firstn (Z.to_nat limit) (skipn skip newest_first))
      /\ (NoDup (map dep_createdAt mine) ->
          forall newest_first,
            Permutation newest_first mine -> Sorted newer_or_same newest_first ->
            items = firstn (Z.to_nat limit) (skipn skip newest_first))
      /\ (forall other big, (100 < big)%Z ->
            Routes.getStoreDeployments user storeId other (Middleware.QInteger big) w
            = (Throw (mkExn ValidationError "Validation failed"), w)).
Proof.
  intros user storeId s page limit w Hne Hs Hallowed Hp Hl Hfit mine total skip.
  pose proof (verifyStoreOwnership_pass user storeId s w Hne Hs Hallowed) as Hpass.
  assert (Hsorted : Sorted newer_or_same (Prisma.orderBy_createdAt_desc mine))
    by apply orderBy_sorted.
  assert (Hperm : Permutation (Prisma.orderBy_createdAt_desc mine) mine)
    by apply orderBy_perm.
  destruct (ceil_div_spec total limit ltac:(unfold total; lia) ltac:(lia))
    as (pages & Hpages & Hbound).
  exists (firstn (Z.to_nat limit) (skipn skip (Prisma.orderBy_createdAt_desc mine))), pages.
  assert (Hlen : List.length
                   (firstn (Z.to_nat limit) (skipn skip (Prisma.orderBy_createdAt_desc mine)))
                 = Nat.min (Z.to_nat limit) (List.length mine - skip)).
  { rewrite length_firstn, length_skipn, (Permutation_length Hperm). reflexivity. }
  split; [|split; [exact Hbound|split; [|split; [exact Hlen|split; [|split; [|split]]]]]].
  - unfold Routes.getStoreDeployments.
    rewrite (bind_ok _ _ _ _ _ Hpass).
    rewrite (bind_ok _ _ _ _ _ (validate_pagination_ok page limit w ltac:(nia) Hl)).
    rewrite (getStoreDeployments_served user storeId s page limit w Hs Hallowed).
    fold mine. fold total. rewrite Hpages. reflexivity.
  - apply sorted_firstn, sorted_skipn. exact Hsorted.
  - rewrite Hlen. lia.
  - exists (Prisma.orderBy_createdAt_desc mine). repeat split; assumption.
  - intros Hnd newest_first Hp' Hs'.
    rewrite (sorted_unique newest_first (Prisma.orderBy_createdAt_desc mine)).
    + reflexivity.
    + apply (Permutation_NoDup (Permutation_map dep_createdAt (Permutation_sym Hp'))).
      exact Hnd.
    + eapply Permutation_trans; [exact Hp' | apply Permutation_sym; exact Hperm].
    + exact Hs'.
    + exact Hsorted.
  - intros other big Hbig. unfold Routes.getStoreDeployments.
    rewrite (bind_ok _ _ _ _ _ Hpass).
    rewrite (bind_throw _ _ _ _ _ (validate_pagination_big other big w Hbig)).
    reflexivity.
Qed.

Lemma C6_witness :
  exists pages,
    Routes.getStoreDeployments Sample.owner "s1"
      (Middleware.QInteger 2) (Middleware.QInteger 1) Sample.world_listed
    = (Ok ([Sample.record 3 "s1" 20],
           Controller.mkPagination 2 1 3 (Some pages)), Sample.world_listed)
    /\ ((pages - 1) * 1 < 3 <= pages * 1)%Z.
Proof.
  destruct (C6_getStoreDeployments_page Sample.owner "s1" Sample.acme 2 1 Sample.world_listed)
    as (items & pages & Hrun & Hbound & _ & _ & _ & _ & Hone & _).
  - discriminate.
  - reflexivity.
  - left. reflexivity.
  - lia.
  - lia.
  - lia.
  - exists pages. split; [|exact Hbound]. rewrite Hrun.
    rewrite (Hone ltac:(repeat constructor; cbn; intuition discriminate)
               [Sample.record 2 "s1" 30; Sample.record 3 "s1" 20; Sample.record 0 "s1" 10]
               (Permutation_app_comm [Sample.record 2 "s1" 30; Sample.record 3 "s1" 20]
                                     [Sample.record 0 "s1" 10])
               ltac:(repeat constructor; unfold newer_or_same; cbn; lia)).
    reflexivity.
Defined.

(** ** Counting card markers in generated text *)




Lemma length_append a b : String.length (a ++ b) = String.length a + String.length b.
Proof. induction a as [|c a IH]; cbn; [reflexivity | rewrite IH; reflexivity]. Qed.




Lemma append_assoc (a b c : string) : ((a ++ b) ++ c = a ++ b ++ c)%string.
Proof. induction a as [|x a IH]; cbn; [reflexivity | rewrite IH; reflexivity]. Qed.



Lemma plain_free m' s :
  Text.plain s = true ->
  Text.occurrences (String "<" m') s = 0 /\ Text.border (String "<" m') s = false.
Proof.
  induction s as [|c s IH]; intros H; [split; reflexivity|].
  cbn [Text.plain] in H. apply andb_true_iff in H. destruct H as [H1 H2].
  destruct (IH H2) as [IH1 IH2]. apply negb_true_iff in H1.
  cbn [Text.occurrences Text.border Text.starts].
  rewrite IH1, IH2. rewrite (Ascii.eqb_sym "<" c), H1. cbn. split; reflexivity.
Qed.

Lemma plain_marker s :
  Text.plain s = true ->
  Text.occurrences cardMarker s = 0 /\ Text.border cardMarker s = false.
Proof. apply (plain_free (Js.lit "div class=~product-card~>")). Qed.



(** A list of template pieces: literal pieces are checked by evaluation,
    interpolated pieces by their being plain. *)
Ltac piece :=
  match goal with
  | |- Text.border _ (Js.lit _) = false => vm_compute; reflexivity
  | H : Text.plain ?s = true |- Text.border _ ?s = false => exact (proj2 (plain_marker s H))
  end.

Ltac pieces := repeat (first [apply Forall_nil | apply Forall_cons; [piece|]]).










(** ** The documents of a build (C7, C10) *)

Lemma call_ok env op w u w' :
  Fs.call env op w = (Ok u, w') ->
  fs_ops w' = fs_ops w ++ [op] /\ ticks w' = ticks w.
Proof.
  unfold Fs.call. destruct (fs_fault env (fs_calls w)); intros H; inversion H.
  split; reflexivity.
Qed.

Lemma now_ok env w t w' :
  Prisma.now env w = (Ok t, w') ->
  t = clock env (ticks w) /\ fs_ops w' = fs_ops w /\ ticks w' = S (ticks w).
Proof. unfold Prisma.now. intros H; inversion H. repeat split; reflexivity. Qed.

Lemma ret_ok {A} (a b : A) w w' : ret a w = (Ok b, w') -> b = a /\ w' = w.
Proof. unfold ret. intros H; inversion H. split; reflexivity. Qed.

Lemma try_rethrow_ok {A} (m : M A) w a w' :
  try_catch m (fun e => throw e) w = (Ok a, w') -> m w = (Ok a, w').
Proof.
  unfold try_catch, throw. destruct (m w) as [[x|e] w1]; intros H; inversion H.
  reflexivity.
Qed.


Lemma writeProductPages_ok env store dir ps : forall w u w',
  DeploymentService.writeProductPages env store dir ps w = (Ok u, w') ->
  fs_ops w' = fs_ops w ++
              map (fun p => WriteFile
                              (Fs.join dir (DeploymentService.productFilename p ++ ".html"))
                              (productPage env (snap_store store) p)) ps
  /\ ticks w' = ticks w.
Proof.
  induction ps as [|p ps IH]; intros w u w' H; cbn [DeploymentService.writeProductPages] in H.
  - apply ret_ok in H. destruct H as [_ ->]. cbn. rewrite app_nil_r. split; reflexivity.
  - apply bind_inv_ok in H. destruct H as (a & w1 & H1 & H).
    unfold Fs.writeFile in H1. apply call_ok in H1. destruct H1 as [Hops Ht].
    apply IH in H. destruct H as [Hops' Ht'].
    rewrite Hops', Hops, Ht', Ht, <- app_assoc. split; reflexivity.
Qed.



Ltac unfold_site :=
  unfold DeploymentService.generateHomePage, DeploymentService.generateProductsPage,
    DeploymentService.generateProductPages, DeploymentService.generateCartPage,
    DeploymentService.generateCheckoutPage, DeploymentService.generateContactPage,
    DeploymentService.generateAboutPage, DeploymentService.generateStyles,
    DeploymentService.generateScripts, DeploymentService.copyAssets,
    DeploymentService.generateSitemap, DeploymentService.generateRobotsTxt,
    Fs.mkdir, Fs.writeFile in *.












(** *** The names of the documents are distinct *)

Lemma append_cancel (a b c : string) : (a ++ b)%string = (a ++ c)%string -> b = c.
Proof.
  induction a as [|x a IH]; cbn; intros H; [exact H|].
  inversion H. apply IH. assumption.
Qed.





(** *** Reading values back from a page *)


























(** ** Access control (C8) *)

Lemma deployment_with_store_found deploymentId d s w :
  find (Prisma.has_dep_id deploymentId) (deployments w) = Some d ->
  find (Prisma.has_store_id (dep_storeId d)) (stores w) = Some s ->
  Controller.deployment_with_store deploymentId w = (Ok (Some (d, s)), w).
Proof.
  intros Hd Hs. unfold Controller.deployment_with_store, bind,
    Prisma.deployment_findUnique, Prisma.store_findUnique, gets, ret.
  rewrite Hd, Hs. reflexivity.
Qed.

Lemma verifyStoreOwnership_denies user storeId s w :
  storeId <> EmptyString ->
  find (Prisma.has_store_id storeId) (stores w) = Some s ->
  store_userId s <> user_id user ->
  user_role user = USER ->
  Middleware.verifyStoreOwnership user storeId w
  = (Throw (mkExn AuthorizationError "Access denied to this store"), w).
Proof.
  intros Hne Hs Hown Hrole. unfold Middleware.verifyStoreOwnership.
  destruct (String.eqb_spec storeId EmptyString); [contradiction|].
  unfold bind, Prisma.store_findUnique, gets. rewrite Hs, Hrole. cbn.
  destruct (String.eqb_spec (store_userId s) (user_id user)); [contradiction|].
  reflexivity.
Qed.

(** C8 (defect in the code). A caller who is neither the owner of the
    store nor an [ADMIN] is turned away by every handler before anything
    is done (the world is as it was), but the exception is a
    [ValidationError] with the message 'Access denied ...', not an
    [AuthorizationError].  On the routes of a store the ownership
    middleware runs first and does answer a plain user with an
    [AuthorizationError]; the routes of a deployment (status, logs,
    deletion) have the handler's check only. *)
Theorem C8_denied_caller_gets_ValidationError :
  forall env user storeId s w,
    find (Prisma.has_store_id storeId) (stores w) = Some s ->
    Controller.denied (store_userId s) user = true ->
    let denied_store := mkExn ValidationError "Access denied to this store" in
    let denied_deployment := mkExn ValidationError "Access denied to this deployment" in
    ErrorClass_eqb ValidationError AuthorizationError = false
    /\ (forall environment customDomain sslEnabled,
          Controller.deployStore env user storeId environment customDomain sslEnabled w
          = (Throw denied_store, w))
    /\ (forall query, Controller.getStoreDeployments user storeId query w = (Throw denied_store, w))
    /\ (forall version, Controller.rollbackDeployment user storeId version w = (Throw denied_store, w))
    /\ (forall domain, Controller.setupCustomDomain user storeId domain w = (Throw denied_store, w))
    /\ (forall domain, Controller.enableSSL user storeId domain w = (Throw denied_store, w))
    /\ (user_role user = USER -> storeId <> EmptyString ->
        forall page limit,
          Routes.getStoreDeployments user storeId page limit w
          = (Throw (mkExn AuthorizationError "Access denied to this store"), w))
    /\ (forall deploymentId d,
          find (Prisma.has_dep_id deploymentId) (deployments w) = Some d ->
          dep_storeId d = storeId ->
          Controller.getDeploymentStatus user deploymentId w = (Throw denied_deployment, w)
          /\ Routes.getDeploymentStatus user deploymentId w = (Throw denied_deployment, w)
          /\ Controller.getDeploymentLogs user deploymentId w = (Throw denied_deployment, w)
          /\ Controller.deleteDeployment user deploymentId w = (Throw denied_deployment, w)).
Proof.
  intros env user storeId s w Hs Hden denied_store denied_deployment.
  split; [reflexivity|].
  assert (Hroute : user_role user = USER -> storeId <> EmptyString ->
            forall page limit,
              Routes.getStoreDeployments user storeId page limit w
              = (Throw (mkExn AuthorizationError "Access denied to this store"), w)).
  { intros Hrole Hne page limit. unfold Routes.getStoreDeployments.
    apply bind_throw.
    apply (verifyStoreOwnership_denies user storeId s w Hne Hs); [|exact Hrole].
    unfold Controller.denied in Hden. apply andb_true_iff in Hden.
    destruct Hden as [Hown _]. apply negb_true_iff in Hown.
    intros E. rewrite E, String.eqb_refl in Hown. discriminate. }
  repeat split; try exact Hroute;
    try (intros;
         unfold Controller.deployStore, Controller.getStoreDeployments,
           Controller.rollbackDeployment, Controller.setupCustomDomain,
           Controller.enableSSL, bind, Prisma.store_findUnique, gets;
         rewrite Hs, Hden; reflexivity).
  all: intros; subst storeId;
    unfold Routes.getDeploymentStatus, Controller.getDeploymentStatus,
      Controller.getDeploymentLogs, Controller.deleteDeployment;
    rewrite (bind_ok _ _ _ _ _ (deployment_with_store_found _ _ _ _ H Hs));
    rewrite Hden; reflexivity.
Qed.

Lemma C8_witness :
  Routes.getDeploymentStatus Sample.stranger 0 Sample.world_deployed
  = (Throw (mkExn ValidationError "Access denied to this deployment"), Sample.world_deployed)
  /\ Controller.rollbackDeployment Sample.stranger "s1" "v1700000000000" Sample.world_deployed
     = (Throw (mkExn ValidationError "Access denied to this store"), Sample.world_deployed).
Proof.
  pose proof (C8_denied_caller_gets_ValidationError
                Sample.env_ok Sample.stranger "s1"
                (Prisma.apply_store_data
                   (Prisma.mkStoreData (Some PUBLISHED) (Some true)
                      (Some (Some "https://acme.stores.buildcart.ai")) None)
                   Sample.acme)
                Sample.world_deployed) as H.
  destruct H as (_ & _ & _ & Hroll & _ & _ & _ & Hdep).
  - vm_compute. reflexivity.
  - reflexivity.
  - split.
    + edestruct (Hdep 0) as (_ & Hroute & _).
      * vm_compute. reflexivity.
      * reflexivity.
      * exact Hroute.
    + apply Hroll.
Defined.

(** ** Version labels (C9) *)

Lemma version_number_of t : version_number (DeploymentService.version_of t) = Some t.
Proof.
  unfold version_number, DeploymentService.version_of, Js.N_of_string, Js.string_of_N.
  cbn. rewrite NilEmpty.usu. cbn. rewrite DecimalN.Unsigned.of_to. reflexivity.
Qed.

Lemma version_of_inj t1 t2 :
  DeploymentService.version_of t1 = DeploymentService.version_of t2 <-> t1 = t2.
Proof.
  split; [|intros ->; reflexivity].
  intros H. pose proof (version_number_of t1) as H1. rewrite H in H1.
  rewrite version_number_of in H1. inversion H1. reflexivity.
Qed.

(** C9 (as amended). Every deploy call that finds its store appends one
    new deployment record, whose version label is 'v' followed by the
    decimal digits of the clock reading taken at that moment.  The label
    gives the reading back, so two labels are equal exactly when the two
    readings are equal, and labels made from different readings are
    ordered as the readings are; nothing keeps two deployments made
    within the same millisecond from carrying the same label. *)
Theorem C9_version_labels :
  forall env storeId environment w store d w1,
    DeploymentService.deployStore_begin env storeId environment w = (Ok (store, d), w1) ->
    deployments w1 = deployments w ++ [d]
    /\ dep_version d = DeploymentService.version_of (clock env (ticks w))
    /\ version_number (dep_version d) = Some (clock env (ticks w))
    /\ (forall t1 t2,
          DeploymentService.version_of t1 = DeploymentService.version_of t2 <-> t1 = t2)
    /\ (forall t1 t2, (t1 < t2)%N ->
          exists n1 n2,
            version_number (DeploymentService.version_of t1) = Some n1
            /\ version_number (DeploymentService.version_of t2) = Some n2
            /\ (n1 < n2)%N).
Proof.
  intros env storeId environment w store d w1 Hb.
  destruct (deployStore_begin_inv _ _ _ _ _ _ _ Hb)
    as (s & Hs & Hstore & Hd & _ & Hdeps & _).
  split; [exact Hdeps|].
  assert (Hv : dep_version d = DeploymentService.version_of (clock env (ticks w))).
  { rewrite Hd. reflexivity. }
  split; [exact Hv|]. split; [rewrite Hv; apply version_number_of|].
  split; [apply version_of_inj|].
  intros t1 t2 Hlt. exists t1, t2. rewrite !version_number_of. auto.
Qed.

Lemma C9_witness :
  exists d w1,
    deployments w1 = deployments Sample.world ++ [d]
    /\ dep_version d = "v1700000000000"
    /\ version_number (dep_version d) = Some 1700000000000%N.
Proof.
  edestruct (C9_version_labels Sample.env_ok "s1" "production" Sample.world)
    as (H1 & H2 & H3 & _).
  - vm_compute. reflexivity.
  - eexists. eexists. split; [exact H1|]. split; [exact H2 | exact H3].
Defined.

(** C9, where the specification as written fails: two deployments of store
    [s1], one after the other, whose clock readings fall in the same
    millisecond, carry the same version label. *)
Lemma C9_counterexample :
  let w1 := snd (DeploymentService.deployStore Sample.env_same_ms "s1" None Sample.world) in
  let w2 := snd (DeploymentService.deployStore Sample.env_same_ms "s1" None w1) in
  map dep_id (deployments w2) = [0; 1]
  /\ map dep_storeId (deployments w2) = ["s1"; "s1"]
  /\ map dep_version (deployments w2) = ["v1700000000000"; "v1700000000000"].
Proof. vm_compute. repeat split; reflexivity. Qed.

(** ** The domain pattern *)

Lemma rests_sound p s : forall lo hi r,
  In r (Regex.rests p lo hi s) ->
  exists run, s = (run ++ r)%string /\ Chars.all p run = true
              /\ lo <= String.length run /\ Chars.within hi (String.length run).
Proof.
  induction s as [|c s IH]; intros lo hi r H.
  - cbn in H. destruct lo; [|contradiction]. destruct H as [<-|[]].
    exists EmptyString. cbn. repeat split; try lia. destruct hi; cbn; lia.
  - cbn [Regex.rests] in H. apply in_app_or in H. destruct H as [H|H].
    + assert (Hmore : exists hi', p c = true /\ In r (Regex.rests p (pred lo) hi' s)
                       /\ (forall n, Chars.within hi' n -> Chars.within hi (S n))).
      { destruct hi as [[|h]|]; try contradiction; destruct (p c) eqn:E; try contradiction.
        - exists (Some h). repeat split; auto. cbn. intros; lia.
        - exists None. repeat split; auto. }
      destruct Hmore as (hi' & Hp & Hin & Hw).
      destruct (IH _ _ _ Hin) as (run & -> & Hall & Hlo & Hhi).
      exists (String c run). cbn. rewrite Hp, Hall. repeat split; [lia | auto].
    + destruct lo; [|contradiction]. destruct H as [<-|[]].
      exists EmptyString. cbn. repeat split; try lia. destruct hi; cbn; lia.
Qed.

Lemma rests_complete p run : forall lo hi r,
  Chars.all p run = true -> lo <= String.length run ->
  Chars.within hi (String.length run) ->
  In r (Regex.rests p lo hi (run ++ r)).
Proof.
  induction run as [|c run IH]; intros lo hi r Hall Hlo Hhi.
  - cbn in Hlo. assert (lo = 0) by lia. subst lo. cbn [append].
    destruct r; cbn; [left; reflexivity|]. apply in_or_app. right. left. reflexivity.
  - cbn in Hall. apply andb_true_iff in Hall. destruct Hall as [Hc Hall].
    change (String c run ++ r)%string with (String c (run ++ r)%string).
    cbn [Regex.rests]. apply in_or_app. left. rewrite Hc.
    cbn in Hlo, Hhi. destruct hi as [[|h]|]; cbn in Hhi; [lia| |].
    + apply IH; auto; cbn; lia.
    + apply IH; auto; cbn; lia.
Qed.

(** The matcher accepts exactly the texts that split along the pattern. *)
Lemma matches_splits pat : forall s,
  Regex.matches pat s = true <-> Chars.splits pat s.
Proof.
  induction pat as [|[p l h] pat IH]; intros s; cbn [Regex.matches Chars.splits].
  - split; [apply String.eqb_eq | intros ->; reflexivity].
  - rewrite existsb_exists. split.
    + intros (r & Hin & Hm). destruct (rests_sound _ _ _ _ _ Hin) as (run & -> & Ha & Hl & Hh).
      exists run, r. cbn. repeat split; auto. apply IH. exact Hm.
    + intros (run & r & -> & Ha & Hl & Hh & Hs). exists r. split.
      * apply rests_complete; assumption.
      * apply IH. exact Hs.
Qed.

Lemma single_char s : String.length s = 1 -> exists c, s = String c EmptyString.
Proof.
  destruct s as [|c [|d s]]; cbn; intros H; try discriminate. exists c. reflexivity.
Qed.

Lemma append_empty (s : string) : (s ++ EmptyString)%string = s.
Proof. induction s as [|c r IH]; cbn; [reflexivity | rewrite IH; reflexivity]. Qed.

(** What an accepted domain is made of. *)
Lemma valid_domain_split domain :
  DeploymentService.isValidDomain domain = true ->
  exists a mid z tld,
    domain = String a (mid ++ String z (String "." tld))
    /\ Regex.alnum a = true
    /\ Chars.all Regex.alnum_hyphen mid = true
    /\ 1 <= String.length mid <= 61
    /\ Regex.alnum z = true
    /\ Chars.all Regex.alpha tld = true
    /\ 2 <= String.length tld.
Proof.
  unfold DeploymentService.isValidDomain, Regex.test.
  rewrite matches_splits. unfold DeploymentService.domainRegex, Regex.one.
  cbn [Chars.splits Regex.cls Regex.lo Regex.hi Chars.within].
  intros (r1 & s1 & -> & A1 & L1 & H1 & r2 & s2 & -> & A2 & L2 & H2
          & r3 & s3 & -> & A3 & L3 & H3 & r4 & s4 & -> & A4 & L4 & H4
          & r5 & s5 & -> & A5 & L5 & _ & ->).
  destruct (single_char r1 ltac:(lia)) as (a & ->).
  destruct (single_char r3 ltac:(lia)) as (z & ->).
  destruct (single_char r4 ltac:(lia)) as (d & ->).
  cbn in A1, A3, A4. rewrite andb_true_r in A1, A3, A4.
  apply Ascii.eqb_eq in A4. subst d.
  exists a, r2, z, r5. cbn. rewrite append_empty.
  repeat split; auto; lia.
Qed.

(** X1. [isValidDomain] accepts exactly the texts made of one
    alphanumeric character, 1 to 61 alphanumeric characters or hyphens,
    one alphanumeric character, a dot, and at least two letters. *)
Theorem X1_isValidDomain_shape :
  forall domain,
    DeploymentService.isValidDomain domain = true <->
    exists a mid z tld,
      domain = String a (mid ++ String z (String "." tld))
      /\ Regex.alnum a = true
      /\ Chars.all Regex.alnum_hyphen mid = true
      /\ 1 <= String.length mid <= 61
      /\ Regex.alnum z = true
      /\ Chars.all Regex.alpha tld = true
      /\ 2 <= String.length tld.
Proof.
  intros domain. split; [apply valid_domain_split|].
  unfold DeploymentService.isValidDomain, Regex.test.
  rewrite matches_splits. unfold DeploymentService.domainRegex, Regex.one.
  cbn [Chars.splits Regex.cls Regex.lo Regex.hi Chars.within].
  intros (a & mid & z & tld & -> & Ha & Hm & Hl & Hz & Ht & Hn).
  exists (String a EmptyString), (mid ++ String z (String "." tld))%string.
  cbn. rewrite Ha. repeat split; try lia.
  exists mid, (String z (String "." tld)). repeat split; auto; try lia.
  exists (String z EmptyString), (String "." tld).
  cbn. rewrite Hz. repeat split; try lia.
  exists (String "." EmptyString), tld. cbn. repeat split; try lia.
  exists tld, EmptyString. rewrite append_empty. repeat split; auto.
Qed.

Lemma X1_witness :
  DeploymentService.isValidDomain "my-shop.io" = true
  /\ DeploymentService.isValidDomain "ab.com" = false.
Proof.
  split.
  - apply (proj2 (X1_isValidDomain_shape "my-shop.io")).
    exists "m"%char, "y-sho", "p"%char, "io". repeat split; cbn; lia.
  - destruct (DeploymentService.isValidDomain "ab.com") eqn:E; [|reflexivity].
    apply (proj1 (X1_isValidDomain_shape "ab.com")) in E.
    destruct E as (a & mid & z & tld & E & _ & Hm & Hl & _).
    inversion E; subst. destruct mid as [|c [|d mid]]; cbn in *; try lia;
      inversion H1; subst; cbn in Hm; discriminate.
Defined.

Lemma count_app p a b : Chars.count p (a ++ b) = Chars.count p a + Chars.count p b.
Proof. induction a as [|c a IH]; cbn; [reflexivity | rewrite IH; lia]. Qed.

Lemma count_none p q s :
  (forall c, p c = true -> q c = false) -> Chars.all p s = true -> Chars.count q s = 0.
Proof.
  intros Hpq. induction s as [|c s IH]; cbn; [reflexivity|].
  intros H. apply andb_true_iff in H. destruct H as [Hc Hs].
  rewrite (Hpq c Hc), (IH Hs). reflexivity.
Qed.

Lemma alnum_hyphen_not_dot c : Regex.alnum_hyphen c = true -> Regex.dot c = false.
Proof.
  destruct c as [[] [] [] [] [] [] [] []]; vm_compute; intros H;
    first [reflexivity | discriminate].
Qed.

Lemma alnum_is_alnum_hyphen c : Regex.alnum c = true -> Regex.alnum_hyphen c = true.
Proof. unfold Regex.alnum_hyphen. intros ->. reflexivity. Qed.

Lemma alpha_is_alnum c : Regex.alpha c = true -> Regex.alnum c = true.
Proof. unfold Regex.alnum. intros ->. reflexivity. Qed.

(** The dots and the length of an accepted domain. *)
Lemma valid_domain_dots domain :
  DeploymentService.isValidDomain domain = true ->
  Chars.count Regex.dot domain = 1 /\ 6 <= String.length domain.
Proof.
  intros H. destruct (valid_domain_split domain H)
    as (a & mid & z & tld & -> & Ha & Hm & Hl & Hz & Ht & Hn).
  split.
  - cbn [Chars.count]. rewrite count_app. cbn [Chars.count].
    rewrite (alnum_hyphen_not_dot a (alnum_is_alnum_hyphen a Ha)).
    rewrite (alnum_hyphen_not_dot z (alnum_is_alnum_hyphen z Hz)).
    rewrite (count_none _ _ mid alnum_hyphen_not_dot Hm).
    rewrite (count_none Regex.alpha Regex.dot tld); [reflexivity| |exact Ht].
    intros c Hc. apply alnum_hyphen_not_dot, alnum_is_alnum_hyphen, alpha_is_alnum, Hc.
  - cbn [String.length]. rewrite length_append. cbn [String.length]. lia.
Qed.

(** X2. [setupCustomDomain] refuses, with 'Invalid domain format' and
    without touching the world, every domain that does not hold exactly
    one dot (so no name with a subdomain can be bound) and every domain
    of fewer than six characters. *)
Theorem X2_setupCustomDomain_refuses_subdomains :
  forall storeId domain w,
    Chars.count Regex.dot domain <> 1 \/ String.length domain < 6 ->
    DeploymentService.setupCustomDomain storeId domain w
    = (Throw (mkExn Error "Invalid domain format"), w).
Proof.
  intros storeId domain w Hbad. unfold DeploymentService.setupCustomDomain.
  destruct (DeploymentService.isValidDomain domain) eqn:E; [|reflexivity].
  destruct (valid_domain_dots domain E) as [Hdots Hlen]. lia.
Qed.

Lemma X2_witness :
  DeploymentService.setupCustomDomain "s1" "www.acme-shop.com" Sample.world
  = (Throw (mkExn Error "Invalid domain format"), Sample.world)
  /\ DeploymentService.setupCustomDomain "s1" "ab.io" Sample.world
     = (Throw (mkExn Error "Invalid domain format"), Sample.world).
Proof.
  split.
  - apply X2_setupCustomDomain_refuses_subdomains. left. cbn. lia.
  - apply X2_setupCustomDomain_refuses_subdomains. right. cbn. lia.
Defined.

(** ** Custom domains: what [setupCustomDomain] refuses and binds (C4) *)











(** ** The text part of a mail *)

Lemma strip_keeps_no_gt s : forall inside,
  EmailService.has_gt s = false ->
  EmailService.has_gt (EmailService.strip inside s) = false.
Proof.
  induction s as [|c s IH]; intros inside H; [reflexivity|].
  cbn in H. apply orb_false_iff in H. destruct H as [Hc Hs].
  cbn [EmailService.strip]. rewrite Hc, Hs, andb_false_r.
  destruct inside; [apply IH; exact Hs|].
  cbn. rewrite Hc. apply IH. exact Hs.
Qed.

Lemma strip_no_tag s : forall inside,
  EmailService.has_tag (EmailService.strip inside s) = false.
Proof.
  induction s as [|c s IH]; intros inside; [reflexivity|].
  cbn [EmailService.strip]. destruct inside.
  - destruct (Ascii.eqb c ">"); apply IH.
  - destruct (Ascii.eqb c "<" && EmailService.has_gt s) eqn:E; [apply IH|].
    cbn [EmailService.has_tag]. rewrite IH, orb_false_r.
    apply andb_false_iff in E. destruct E as [E|E]; [rewrite E; reflexivity|].
    rewrite (strip_keeps_no_gt s false E). apply andb_false_r.
Qed.

Lemma strip_without_tag s :
  EmailService.has_tag s = false -> EmailService.strip false s = s.
Proof.
  induction s as [|c s IH]; intros H; [reflexivity|].
  cbn in H. apply orb_false_iff in H. destruct H as [Hc Hs].
  cbn [EmailService.strip]. rewrite Hc, (IH Hs). reflexivity.
Qed.

Lemma strip_length s : forall inside,
  String.length (EmailService.strip inside s) <= String.length s.
Proof.
  induction s as [|c s IH]; intros inside; [cbn; lia|].
  cbn [EmailService.strip String.length]. destruct inside.
  - destruct (Ascii.eqb c ">"); [specialize (IH false) | specialize (IH true)]; lia.
  - destruct (Ascii.eqb c "<" && EmailService.has_gt s).
    + specialize (IH true). lia.
    + cbn. specialize (IH false). lia.
Qed.

(** X3. The text [stripHtml] returns holds no tag any more (no [<] with
    a [>] after it), so stripping it again changes nothing; a text
    without a tag comes back as it is; the result is never longer than
    the input.  A mail sent without a text part (null or empty) carries
    the stripped markup as its text. *)
Theorem X3_stripHtml_removes_tags :
  forall html,
    EmailService.has_tag (EmailService.stripHtml html) = false
    /\ EmailService.stripHtml (EmailService.stripHtml html) = EmailService.stripHtml html
    /\ String.length (EmailService.stripHtml html) <= String.length html
    /\ (EmailService.has_tag html = false -> EmailService.stripHtml html = html)
    /\ (forall text, Js.truthy text = false ->
        EmailService.message_text html text = EmailService.stripHtml html
        /\ EmailService.has_tag (EmailService.message_text html text) = false).
Proof.
  intros html. unfold EmailService.stripHtml.
  assert (Hfree := strip_no_tag html false).
  split; [exact Hfree|]. split; [apply strip_without_tag; exact Hfree|].
  split; [apply strip_length|]. split; [apply strip_without_tag|].
  intros text Hno. unfold EmailService.message_text, EmailService.stripHtml, Js.or.
  rewrite Hno. cbn [Js.show]. split; [reflexivity | exact Hfree].
Qed.

Lemma X3_witness :
  EmailService.stripHtml "<p>Hi <b>Ann</b>, 1 < 2</p>" = "Hi Ann, 1 "
  /\ EmailService.stripHtml "a < b" = "a < b"
  /\ EmailService.message_text "<h1>Deployed</h1>" None = "Deployed".
Proof.
  destruct (X3_stripHtml_removes_tags "a < b") as (_ & _ & _ & Hsame & _).
  destruct (X3_stripHtml_removes_tags "<h1>Deployed</h1>") as (_ & _ & _ & _ & Hmsg).
  split; [reflexivity|]. split; [apply Hsame; reflexivity|].
  rewrite (proj1 (Hmsg None eq_refl)). reflexivity.
Defined.

(** ** The cart of the generated script *)

(** *** Numbers *)

Lemma exact_below_huge : (ClientCart.exact < ClientCart.huge)%Z.
Proof. vm_compute. reflexivity. Qed.

Lemma number_exact z :
  (- ClientCart.exact <= z <= ClientCart.exact)%Z -> ClientCart.number z = ClientCart.Int z.
Proof.
  intros H. pose proof exact_below_huge as Hh.
  unfold ClientCart.number, ClientCart.round53.
  destruct (Z.leb_spec (Z.abs z) ClientCart.exact) as [_|Hbig]; [|lia].
  destruct (Z.leb_spec ClientCart.huge z); [lia|].
  destruct (Z.leb_spec z (- ClientCart.huge)); [lia | reflexivity].
Qed.

Lemma plus_exact x y :
  (- ClientCart.exact <= x + y <= ClientCart.exact)%Z ->
  ClientCart.plus (ClientCart.Int x) (ClientCart.Int y) = ClientCart.Int (x + y).
Proof. intros H. cbn [ClientCart.plus]. apply number_exact. exact H. Qed.

(** One more of a quantity in order is a quantity in order: at 2^53 the
    sum is rounded back to 2^53. *)
Lemma plus_one_positive z :
  (1 <= z <= ClientCart.exact)%Z ->
  exists z', ClientCart.plus (ClientCart.Int z) (ClientCart.Int 1) = ClientCart.Int z'
             /\ (1 <= z' <= ClientCart.exact)%Z.
Proof.
  intros H. destruct (Z.eq_dec z ClientCart.exact) as [->|Hne].
  - exists ClientCart.exact. split; [vm_compute; reflexivity | lia].
  - exists (z + 1)%Z. split; [apply plus_exact; lia | lia].
Qed.

Lemma round53_nonpos z : (z <= 0)%Z -> (ClientCart.round53 z <= 0)%Z.
Proof.
  intros H. unfold ClientCart.round53.
  destruct (Z.leb_spec (Z.abs z) ClientCart.exact); [exact H|].
  set (a := Z.abs z). set (e := (Z.log2 a - 52)%Z).
  assert (Hq : (0 <= a / 2 ^ e)%Z).
  { apply Z_div_nonneg_nonneg; [unfold a; lia | apply Z.pow_nonneg; lia]. }
  assert (Hp : (0 <= 2 ^ e)%Z) by (apply Z.pow_nonneg; lia).
  assert (Hs : Z.sgn z = (-1)%Z).
  { apply Z.sgn_neg. unfold ClientCart.exact in *. lia. }
  rewrite Hs.
  destruct (a mod 2 ^ e <? 2 ^ (e - 1))%Z; [nia|].
  destruct (2 ^ (e - 1) <? a mod 2 ^ e)%Z; [nia|].
  destruct (Z.even (a / 2 ^ e)); nia.
Qed.

(** A text that reads as an integer of 0 or less gives a quantity the
    script takes as 0 or less. *)
Lemma le0_nonpos z : (z <= 0)%Z -> ClientCart.le0 (ClientCart.number z) = true.
Proof.
  intros H. pose proof (round53_nonpos z H) as Hr. pose proof exact_below_huge as Hh.
  unfold ClientCart.number.
  destruct (Z.leb_spec ClientCart.huge (ClientCart.round53 z)).
  - unfold ClientCart.exact in Hh. lia.
  - destruct (Z.leb_spec (ClientCart.round53 z) (- ClientCart.huge)); [reflexivity|].
    cbn. apply Z.leb_le. exact Hr.
Qed.

Lemma round53_huge z : (ClientCart.huge <= z)%Z -> (ClientCart.huge <= ClientCart.round53 z)%Z.
Proof.
  intros H. pose proof exact_below_huge as Hh.
  assert (Hpos : (0 < z)%Z) by (unfold ClientCart.exact in Hh; lia).
  unfold ClientCart.round53. rewrite (Z.abs_eq z) by lia.
  destruct (Z.leb_spec z ClientCart.exact); [lia|].
  set (e := (Z.log2 z - 52)%Z).
  assert (Hlog : (1024 <= Z.log2 z)%Z).
  { change 1024%Z with (Z.log2 ClientCart.huge). apply Z.log2_le_mono. exact H. }
  assert (He : (0 <= e)%Z) by (unfold e; lia).
  assert (Hpow : (2 ^ Z.log2 z = 2 ^ 52 * 2 ^ e)%Z).
  { rewrite <- Z.pow_add_r by lia. f_equal. unfold e. lia. }
  assert (Hbase : (2 ^ Z.log2 z <= z)%Z) by (apply Z.log2_spec; exact Hpos).
  assert (Hpe : (0 < 2 ^ e)%Z) by (apply Z.pow_pos_nonneg; lia).
  assert (Hq : (2 ^ 52 <= z / 2 ^ e)%Z).
  { apply Z.div_le_lower_bound; [exact Hpe|]. rewrite Z.mul_comm, <- Hpow. exact Hbase. }
  assert (Hbig : (ClientCart.huge <= 2 ^ Z.log2 z)%Z).
  { unfold ClientCart.huge. apply Z.pow_le_mono_r; lia. }
  rewrite (Z.sgn_pos z Hpos).
  assert (Hgoal : forall q', (z / 2 ^ e <= q')%Z -> (ClientCart.huge <= 1 * (q' * 2 ^ e))%Z).
  { intros q' Hq'. rewrite Z.mul_1_l.
    apply (Z.le_trans _ (2 ^ Z.log2 z)); [exact Hbig|]. rewrite Hpow.
    apply Z.mul_le_mono_nonneg_r; lia. }
  destruct (z mod 2 ^ e <? 2 ^ (e - 1))%Z; [apply Hgoal; lia|].
  destruct (2 ^ (e - 1) <? z mod 2 ^ e)%Z; [apply Hgoal; lia|].
  destruct (Z.even (z / 2 ^ e)); apply Hgoal; lia.
Qed.

(** A text of digits too large for a double reads as [Infinity]. *)
Lemma number_huge z : (ClientCart.huge <= z)%Z -> ClientCart.number z = ClientCart.Infinity.
Proof.
  intros H. unfold ClientCart.number.
  destruct (Z.leb_spec ClientCart.huge (ClientCart.round53 z)) as [_|Hlt]; [reflexivity|].
  pose proof (round53_huge z H). lia.
Qed.

Lemma pieces_nonneg c : Forall ClientCart.positive c -> (0 <= ClientCart.pieces c)%Z.
Proof.
  induction c as [|item c IH]; cbn; intros H; [lia|].
  inversion H as [|? ? (z & Hz & Hge) Hc]; subst. rewrite Hz. specialize (IH Hc). lia.
Qed.

(** *** The cart *)

Lemma cart_find_none productId c :
  ~ In productId (map ClientCart.item_id c) ->
  find (ClientCart.has_id productId) c = None.
Proof.
  induction c as [|item c IH]; cbn; intros H; [reflexivity|].
  unfold ClientCart.has_id at 1.
  destruct (String.eqb_spec (ClientCart.item_id item) productId) as [E|E].
  - exfalso. apply H. left. exact E.
  - apply IH. intros Hin. apply H. right. exact Hin.
Qed.

Lemma cart_find_some productId c :
  In productId (map ClientCart.item_id c) ->
  exists item, find (ClientCart.has_id productId) c = Some item.
Proof.
  induction c as [|item c IH]; cbn; intros H; [contradiction|].
  unfold ClientCart.has_id at 1.
  destruct (String.eqb_spec (ClientCart.item_id item) productId) as [E|E].
  - exists item. reflexivity.
  - destruct H as [H|H]; [contradiction|]. apply IH. exact H.
Qed.

Lemma cart_ids_update productId f c :
  (forall item, ClientCart.item_id (f item) = ClientCart.item_id item) ->
  map ClientCart.item_id (update_first (ClientCart.has_id productId) f c)
  = map ClientCart.item_id c.
Proof. intros H. apply map_update_first. exact H. Qed.

Lemma cart_forall_update_pos productId f c :
  (forall item, ClientCart.positive item -> ClientCart.positive (f item)) ->
  Forall ClientCart.positive c ->
  Forall ClientCart.positive (update_first (ClientCart.has_id productId) f c).
Proof.
  intros Hf. induction c as [|item c IH]; cbn; intros H; [constructor|].
  inversion H; subst.
  destruct (ClientCart.has_id productId item); constructor; auto.
Qed.

Lemma cart_filter_ids productId c :
  map ClientCart.item_id (filter (fun item => negb (ClientCart.has_id productId item)) c)
  = filter (fun i => negb (i =? productId)) (map ClientCart.item_id c).
Proof.
  induction c as [|item c IH]; cbn; [reflexivity|].
  unfold ClientCart.has_id at 1.
  destruct (ClientCart.item_id item =? productId); cbn; rewrite IH; reflexivity.
Qed.

Lemma nodup_filter {A} (p : A -> bool) l : NoDup l -> NoDup (filter p l).
Proof.
  induction l as [|a l IH]; cbn; intros H; [constructor|].
  inversion H; subst. destruct (p a); [constructor|]; auto.
  intros Hin. apply filter_In in Hin. tauto.
Qed.

Lemma forall_filter {A} (P : A -> Prop) (p : A -> bool) l :
  Forall P l -> Forall P (filter p l).
Proof.
  induction l as [|a l IH]; cbn; intros H; [constructor|].
  inversion H; subst. destruct (p a); [constructor|]; auto.
Qed.

Lemma addToCart_tidy productId p :
  ClientCart.tidy (ClientCart.cart p) ->
  ClientCart.tidy (ClientCart.cart (ClientCart.addToCart productId p)).
Proof.
  intros [Hnd Hpos]. unfold ClientCart.addToCart.
  cbn [ClientCart.cart ClientCart.showNotification ClientCart.save_and_count].
  destruct (find (ClientCart.has_id productId) (ClientCart.cart p)) eqn:E.
  - split.
    + rewrite cart_ids_update by reflexivity. exact Hnd.
    + apply cart_forall_update_pos; [|exact Hpos].
      intros item (z & Hz & Hge). cbn [ClientCart.item_quantity]. rewrite Hz.
      exact (plus_one_positive z Hge).
  - split.
    + rewrite map_app. cbn.
      apply NoDup_app; [exact Hnd | repeat constructor; intros [] |].
      intros x Hin [Hx|[]]. subst x.
      destruct (cart_find_some productId _ Hin) as (item & Hitem). congruence.
    + apply Forall_app. split; [exact Hpos|]. repeat constructor.
      exists 1%Z. split; [reflexivity | unfold ClientCart.exact; lia].
Qed.

Lemma removeFromCart_tidy productId p :
  ClientCart.tidy (ClientCart.cart p) ->
  ClientCart.tidy (ClientCart.cart (ClientCart.removeFromCart productId p)).
Proof.
  intros [Hnd Hpos]. unfold ClientCart.removeFromCart.
  cbn [ClientCart.cart ClientCart.save_and_count]. split.
  - rewrite cart_filter_ids. apply nodup_filter. exact Hnd.
  - apply forall_filter. exact Hpos.
Qed.

Lemma updateQuantity_tidy productId z p :
  (z <= ClientCart.exact)%Z ->
  ClientCart.tidy (ClientCart.cart p) ->
  ClientCart.tidy (ClientCart.cart (ClientCart.updateQuantity productId (Some z) p)).
Proof.
  intros Hz [Hnd Hpos]. unfold ClientCart.updateQuantity.
  destruct (find (ClientCart.has_id productId) (ClientCart.cart p)) eqn:E;
    [|split; assumption].
  cbn [ClientCart.parseInt].
  destruct (ClientCart.le0 (ClientCart.number z)) eqn:Hle.
  - unfold ClientCart.removeFromCart. cbn [ClientCart.cart ClientCart.save_and_count]. split.
    + rewrite cart_filter_ids. apply nodup_filter.
      rewrite cart_ids_update by reflexivity. exact Hnd.
    + clear E. induction (ClientCart.cart p) as [|item c IH]; cbn; [constructor|].
      inversion Hpos; subst. inversion Hnd; subst.
      destruct (ClientCart.has_id productId item) eqn:Eid; cbn.
      * unfold ClientCart.has_id in *. cbn. rewrite Eid. cbn.
        apply forall_filter. assumption.
      * rewrite Eid. cbn. constructor; auto.
  - assert (Hpos_z : (1 <= z)%Z).
    { destruct (Z.leb_spec z 0) as [Hn|Hp]; [|lia].
      rewrite (le0_nonpos z Hn) in Hle. discriminate. }
    rewrite (number_exact z) by (unfold ClientCart.exact in *; lia).
    cbn [ClientCart.cart ClientCart.save_and_count]. split.
    + rewrite cart_ids_update by reflexivity. exact Hnd.
    + clear E. induction (ClientCart.cart p) as [|item c IH]; cbn; [constructor|].
      inversion Hpos; subst. inversion Hnd; subst.
      destruct (ClientCart.has_id productId item); constructor; auto.
      exists z. split; [reflexivity | lia].
Qed.

Lemma find_updated productId f c item :
  (forall x, ClientCart.item_id (f x) = ClientCart.item_id x) ->
  find (ClientCart.has_id productId) c = Some item ->
  find (ClientCart.has_id productId) (update_first (ClientCart.has_id productId) f c)
  = Some (f item).
Proof.
  intros Hf Hfind. apply find_update_first; [|exact Hfind].
  intros a. unfold ClientCart.has_id. rewrite Hf. reflexivity.
Qed.

Lemma find_json productId c item :
  find (ClientCart.has_id productId) c = Some item ->
  find (ClientCart.has_id productId) (ClientCart.json c)
  = Some (ClientCart.mkItem (ClientCart.item_id item)
            (match ClientCart.item_quantity item with
             | ClientCart.NaN | ClientCart.Infinity | ClientCart.NegInfinity =>
                 ClientCart.Null
             | q => q
             end)).
Proof.
  unfold ClientCart.json. induction c as [|x c IH]; cbn; [discriminate|].
  unfold ClientCart.has_id at 1 3. cbn.
  destruct (ClientCart.item_id x =? productId).
  - intros H; inversion H; subst. reflexivity.
  - exact IH.
Qed.

(** X4. The cart functions of the generated script keep the cart in
    order: when no product occurs twice and every quantity is an integer
    between 1 and 2^53, the same holds after [addToCart] (at 2^53 the
    quantity stays), after [removeFromCart], and after [updateQuantity]
    with a text that reads as an integer of at most 2^53 (a quantity of 0
    or less removes the product).  A text of digits too large for a
    double, 2^1024 or more, leaves the product in the cart with the
    quantity [Infinity], which is stored as [null]. *)
Theorem X4_cart_stays_tidy :
  forall productId p,
    ClientCart.tidy (ClientCart.cart p) ->
    ClientCart.tidy (ClientCart.cart (ClientCart.addToCart productId p))
    /\ ClientCart.tidy (ClientCart.cart (ClientCart.removeFromCart productId p))
    /\ (forall z, (z <= ClientCart.exact)%Z ->
          ClientCart.tidy (ClientCart.cart (ClientCart.updateQuantity productId (Some z) p)))
    /\ (forall z, (ClientCart.huge <= z)%Z ->
          In productId (map ClientCart.item_id (ClientCart.cart p)) ->
          let after := ClientCart.updateQuantity productId (Some z) p in
          find (ClientCart.has_id productId) (ClientCart.cart after)
          = Some (ClientCart.mkItem productId ClientCart.Infinity)
          /\ find (ClientCart.has_id productId) (ClientCart.storage after)
             = Some (ClientCart.mkItem productId ClientCart.Null)).
Proof.
  intros productId p Htidy. split; [|split; [|split]].
  - apply addToCart_tidy. exact Htidy.
  - apply removeFromCart_tidy. exact Htidy.
  - intros z Hz. apply updateQuantity_tidy; assumption.
  - intros z Hz Hin after.
    destruct (cart_find_some productId _ Hin) as (item & Hitem).
    assert (Hid : ClientCart.item_id item = productId).
    { apply find_some in Hitem. destruct Hitem as [_ H]. apply String.eqb_eq. exact H. }
    assert (Hafter : after
                     = ClientCart.save_and_count
                         (ClientCart.mkPage
                            (update_first (ClientCart.has_id productId)
                               (fun item => ClientCart.mkItem (ClientCart.item_id item)
                                              ClientCart.Infinity)
                               (ClientCart.cart p))
                            (ClientCart.storage p) (ClientCart.badge p)
                            (ClientCart.notifications p))).
    { unfold after, ClientCart.updateQuantity. rewrite Hitem.
      cbn [ClientCart.parseInt]. rewrite (number_huge z Hz). reflexivity. }
    assert (Hfound : find (ClientCart.has_id productId) (ClientCart.cart after)
                     = Some (ClientCart.mkItem productId ClientCart.Infinity)).
    { rewrite Hafter. cbn [ClientCart.cart ClientCart.save_and_count].
      rewrite (find_updated productId _ _ item) by (reflexivity || exact Hitem).
      rewrite Hid. reflexivity. }
    split; [exact Hfound|].
    assert (Hs : ClientCart.storage after = ClientCart.json (ClientCart.cart after)).
    { rewrite Hafter. reflexivity. }
    rewrite Hs, (find_json productId _ _ Hfound). reflexivity.
Qed.


Lemma count_from acc c :
  Forall ClientCart.positive c ->
  (0 <= acc)%Z -> (acc + ClientCart.pieces c <= ClientCart.exact)%Z ->
  fold_left (fun total item => ClientCart.plus total (ClientCart.item_quantity item))
            c (ClientCart.Int acc)
  = ClientCart.Int (acc + ClientCart.pieces c).
Proof.
  revert acc. induction c as [|item c IH]; intros acc H Hacc Hsum;
    cbn [fold_left ClientCart.pieces] in *.
  - f_equal. lia.
  - inversion H as [|? ? (z & Hz & Hge) Hc]; subst. rewrite Hz in *.
    pose proof (pieces_nonneg c Hc) as Hn.
    rewrite plus_exact by lia.
    rewrite (IH _ Hc) by lia. f_equal. lia.
Qed.

Lemma tidy_count c :
  Forall ClientCart.positive c -> (ClientCart.pieces c <= ClientCart.exact)%Z ->
  ClientCart.count c = ClientCart.Int (ClientCart.pieces c).
Proof.
  intros H Hsum. unfold ClientCart.count. rewrite (count_from 0 c H); [reflexivity|lia|lia].
Qed.

Lemma tidy_json c : Forall ClientCart.positive c -> ClientCart.json c = c.
Proof.
  unfold ClientCart.json. induction c as [|item c IH]; intros H; [reflexivity|].
  inversion H as [|? ? (z & Hz & _) Hc]; subst. cbn. rewrite (IH Hc), Hz.
  destruct item; cbn in *. subst. reflexivity.
Qed.

Lemma pieces_app a b :
  ClientCart.pieces (a ++ b) = (ClientCart.pieces a + ClientCart.pieces b)%Z.
Proof. induction a as [|item a IH]; cbn; [reflexivity | rewrite IH; lia]. Qed.

Lemma pieces_increment productId c item :
  Forall ClientCart.positive c ->
  (ClientCart.pieces c < ClientCart.exact)%Z ->
  find (ClientCart.has_id productId) c = Some item ->
  ClientCart.pieces
    (update_first (ClientCart.has_id productId)
       (fun item => ClientCart.mkItem (ClientCart.item_id item)
                      (ClientCart.plus (ClientCart.item_quantity item) (ClientCart.Int 1))) c)
  = (ClientCart.pieces c + 1)%Z.
Proof.
  induction c as [|x c IH]; cbn [update_first find ClientCart.pieces];
    intros H Hsum Hf; [discriminate|].
  inversion H as [|? ? (z & Hz & Hge) Hc]; subst. rewrite Hz in Hsum.
  pose proof (pieces_nonneg c Hc) as Hn.
  destruct (ClientCart.has_id productId x);
    cbn [ClientCart.pieces ClientCart.item_quantity].
  - rewrite Hz. rewrite plus_exact by lia. lia.
  - rewrite Hz. rewrite (IH Hc ltac:(lia) Hf). lia.
Qed.

Lemma pieces_filter (f : ClientCart.Item -> bool) c :
  Forall ClientCart.positive c ->
  (ClientCart.pieces (filter f c) <= ClientCart.pieces c)%Z.
Proof.
  induction c as [|x c IH]; cbn; intros H; [lia|].
  inversion H as [|? ? (z & Hz & Hge) Hc]; subst. specialize (IH Hc).
  destruct (f x); cbn; rewrite Hz; lia.
Qed.

Lemma filter_absent productId c :
  ~ In productId (map ClientCart.item_id c) ->
  filter (fun item => negb (ClientCart.has_id productId item)) c = c.
Proof.
  induction c as [|x c IH]; cbn; intros H; [reflexivity|].
  unfold ClientCart.has_id at 1.
  destruct (String.eqb_spec (ClientCart.item_id x) productId) as [E|E]; cbn.
  - exfalso. apply H. left. exact E.
  - rewrite IH; [reflexivity|]. intros Hin. apply H. right. exact Hin.
Qed.

Lemma filter_after_update productId f c :
  (forall item, ClientCart.item_id (f item) = ClientCart.item_id item) ->
  filter (fun item => negb (ClientCart.has_id productId item))
         (update_first (ClientCart.has_id productId) f c)
  = filter (fun item => negb (ClientCart.has_id productId item)) c.
Proof.
  intros Hf. induction c as [|x c IH]; cbn; [reflexivity|].
  destruct (ClientCart.has_id productId x) eqn:E; cbn.
  - unfold ClientCart.has_id in *. rewrite Hf, E. reflexivity.
  - rewrite E. cbn. rewrite IH. reflexivity.
Qed.

(** X5. On a cart in order of fewer than 2^53 pieces, after
    [addToCart] and after [removeFromCart] the stored cart is the cart
    and the counter shows the number of pieces; [addToCart] adds exactly
    one piece, whether the product was in the cart or not.  A quantity of
    2^53 is where this ends: there [addToCart] leaves the cart as it
    is. *)
Theorem X5_cart_counter_and_storage :
  forall productId p,
    ClientCart.tidy (ClientCart.cart p) ->
    ((ClientCart.pieces (ClientCart.cart p) < ClientCart.exact)%Z ->
     let added := ClientCart.addToCart productId p in
     let removed := ClientCart.removeFromCart productId p in
     ClientCart.storage added = ClientCart.cart added
     /\ ClientCart.badge added = ClientCart.Int (ClientCart.pieces (ClientCart.cart added))
     /\ ClientCart.pieces (ClientCart.cart added)
        = (ClientCart.pieces (ClientCart.cart p) + 1)%Z
     /\ ClientCart.storage removed = ClientCart.cart removed
     /\ ClientCart.badge removed
        = ClientCart.Int (ClientCart.pieces (ClientCart.cart removed))
     /\ ~ In productId (map ClientCart.item_id (ClientCart.cart removed)))
    /\ (find (ClientCart.has_id productId) (ClientCart.cart p)
        = Some (ClientCart.mkItem productId (ClientCart.Int ClientCart.exact)) ->
        ClientCart.cart (ClientCart.addToCart productId p) = ClientCart.cart p).
Proof.
  intros productId p Htidy. split.
  - intros Hsum added removed.
    assert (Ha : ClientCart.tidy (ClientCart.cart added)).
    { apply addToCart_tidy. exact Htidy. }
    assert (Hr : ClientCart.tidy (ClientCart.cart removed)).
    { apply removeFromCart_tidy. exact Htidy. }
    destruct Htidy as [Hnd Hpos]. destruct Ha as [_ Ha]. destruct Hr as [_ Hr].
    assert (Hone : ClientCart.pieces (ClientCart.cart added)
                   = (ClientCart.pieces (ClientCart.cart p) + 1)%Z).
    { unfold added, ClientCart.addToCart. cbn [ClientCart.cart ClientCart.showNotification
        ClientCart.save_and_count].
      destruct (find (ClientCart.has_id productId) (ClientCart.cart p)) eqn:E.
      - apply (pieces_increment productId _ i Hpos Hsum E).
      - rewrite pieces_app. cbn. lia. }
    assert (Hless : (ClientCart.pieces (ClientCart.cart removed)
                     <= ClientCart.pieces (ClientCart.cart p))%Z).
    { unfold removed, ClientCart.removeFromCart.
      cbn [ClientCart.cart ClientCart.save_and_count]. apply pieces_filter. exact Hpos. }
    split; [exact (tidy_json _ Ha)|].
    split; [apply (tidy_count _ Ha); lia|].
    split; [exact Hone|]. split; [exact (tidy_json _ Hr)|].
    split; [apply (tidy_count _ Hr); lia|].
    unfold removed, ClientCart.removeFromCart. cbn [ClientCart.cart ClientCart.save_and_count].
    rewrite cart_filter_ids. intros Hin. apply filter_In in Hin.
    destruct Hin as [_ Hin]. rewrite String.eqb_refl in Hin. discriminate.
  - intros Hfull. unfold ClientCart.addToCart.
    cbn [ClientCart.cart ClientCart.showNotification ClientCart.save_and_count].
    rewrite Hfull. apply (update_first_id _ _ _ _ Hfull).
    vm_compute. reflexivity.
Qed.

Lemma count_nan_from acc c :
  (acc = ClientCart.NaN
   \/ exists item, In item c /\ ClientCart.item_quantity item = ClientCart.NaN) ->
  fold_left (fun total item => ClientCart.plus total (ClientCart.item_quantity item)) c acc
  = ClientCart.NaN.
Proof.
  revert acc. induction c as [|x c IH]; intros acc H; cbn.
  - destruct H as [H|(item & [] & _)]. exact H.
  - apply IH. destruct H as [->|(item & [<-|Hin] & Hq)].
    + left. reflexivity.
    + left. rewrite Hq. destruct acc; reflexivity.
    + right. exists item. split; assumption.
Qed.

(** X6. Round trips of the cart: putting a product that was not in a
    cart in order into it and removing it again gives the cart back;
    [updateQuantity] with a quantity of 0 or less leaves the same cart as
    [removeFromCart]; [updateQuantity] for a product that is not in the
    cart changes nothing at all. *)
Theorem X6_cart_round_trips :
  forall productId p,
    (~ In productId (map ClientCart.item_id (ClientCart.cart p)) ->
     ClientCart.cart (ClientCart.removeFromCart productId (ClientCart.addToCart productId p))
     = ClientCart.cart p
     /\ forall quantity, ClientCart.updateQuantity productId quantity p = p)
    /\ (forall z, (z <= 0)%Z ->
        In productId (map ClientCart.item_id (ClientCart.cart p)) ->
        ClientCart.cart (ClientCart.updateQuantity productId (Some z) p)
        = ClientCart.cart (ClientCart.removeFromCart productId p)).
Proof.
  intros productId p. split.
  - intros Hnot. pose proof (cart_find_none productId _ Hnot) as Hnone. split.
    + unfold ClientCart.removeFromCart, ClientCart.addToCart.
      cbn [ClientCart.cart ClientCart.showNotification ClientCart.save_and_count].
      rewrite Hnone, filter_app, (filter_absent productId _ Hnot). cbn.
      unfold ClientCart.has_id. cbn. rewrite String.eqb_refl. cbn. apply app_nil_r.
    + intros quantity. unfold ClientCart.updateQuantity. rewrite Hnone. reflexivity.
  - intros z Hz Hin. destruct (cart_find_some productId _ Hin) as (item & Hitem).
    unfold ClientCart.updateQuantity. rewrite Hitem.
    cbn [ClientCart.parseInt]. rewrite (le0_nonpos z Hz).
    unfold ClientCart.removeFromCart. cbn [ClientCart.cart ClientCart.save_and_count].
    apply filter_after_update. reflexivity.
Qed.

(** X7. A quantity text that does not read as a number: the product
    stays in the cart with the quantity [NaN], the counter shows [NaN],
    and the stored cart holds [null] as its quantity. *)
Theorem X7_cart_quantity_not_a_number :
  forall productId p,
    In productId (map ClientCart.item_id (ClientCart.cart p)) ->
    let after := ClientCart.updateQuantity productId None p in
    map ClientCart.item_id (ClientCart.cart after) = map ClientCart.item_id (ClientCart.cart p)
    /\ find (ClientCart.has_id productId) (ClientCart.cart after)
       = Some (ClientCart.mkItem productId ClientCart.NaN)
    /\ ClientCart.badge after = ClientCart.NaN
    /\ find (ClientCart.has_id productId) (ClientCart.storage after)
       = Some (ClientCart.mkItem productId ClientCart.Null).
Proof.
  intros productId p Hin after.
  destruct (cart_find_some productId _ Hin) as (item & Hitem).
  assert (Hid : ClientCart.item_id item = productId).
  { apply find_some in Hitem. destruct Hitem as [_ H]. apply String.eqb_eq. exact H. }
  assert (Hfound :
    find (ClientCart.has_id productId) (ClientCart.cart after)
    = Some (ClientCart.mkItem productId ClientCart.NaN)).
  { unfold after, ClientCart.updateQuantity. rewrite Hitem.
    cbn [ClientCart.parseInt ClientCart.le0 ClientCart.cart ClientCart.save_and_count].
    rewrite (find_updated productId _ _ item) by (reflexivity || exact Hitem).
    rewrite Hid. reflexivity. }
  split; [|split; [exact Hfound|split]].
  - unfold after, ClientCart.updateQuantity. rewrite Hitem.
    cbn [ClientCart.parseInt ClientCart.le0 ClientCart.cart ClientCart.save_and_count].
    apply cart_ids_update. reflexivity.
  - assert (Hb : ClientCart.badge after = ClientCart.count (ClientCart.cart after)).
    { unfold after, ClientCart.updateQuantity. rewrite Hitem. reflexivity. }
    rewrite Hb. unfold ClientCart.count. apply count_nan_from. right.
    exists (ClientCart.mkItem productId ClientCart.NaN). split; [|reflexivity].
    apply find_some in Hfound. tauto.
  - assert (Hs : ClientCart.storage after = ClientCart.json (ClientCart.cart after)).
    { unfold after, ClientCart.updateQuantity. rewrite Hitem. reflexivity. }
    rewrite Hs, (find_json productId _ _ Hfound). reflexivity.
Qed.

Lemma X4_witness :
  let p := ClientCart.mkPage [ClientCart.mkItem "p1" (ClientCart.Int 2)] [] (ClientCart.Int 0) [] in
  ClientCart.cart (ClientCart.addToCart "p1" p) = [ClientCart.mkItem "p1" (ClientCart.Int 3)]
  /\ ClientCart.tidy (ClientCart.cart (ClientCart.addToCart "p1" p))
  /\ ClientCart.tidy (ClientCart.cart (ClientCart.updateQuantity "p1" (Some 0%Z) p))
  /\ ClientCart.storage (ClientCart.updateQuantity "p1" (Some (10 ^ 400)%Z) p)
     = [ClientCart.mkItem "p1" ClientCart.Null].
Proof.
  intros p.
  assert (Htidy : ClientCart.tidy (ClientCart.cart p)).
  { split; cbn.
    - constructor; [intros [] | constructor].
    - constructor; [|constructor].
      exists 2%Z. split; [reflexivity | unfold ClientCart.exact; lia]. }
  destruct (X4_cart_stays_tidy "p1" p Htidy) as (Ha & _ & Hu & Hinf).
  split; [vm_compute; reflexivity|]. split; [exact Ha|].
  split; [apply (Hu 0%Z); unfold ClientCart.exact; lia|].
  vm_compute. reflexivity.
Defined.

Lemma X5_witness :
  let p := ClientCart.mkPage [ClientCart.mkItem "p1" (ClientCart.Int 2)] [] (ClientCart.Int 0) [] in
  ClientCart.badge (ClientCart.addToCart "p2" p) = ClientCart.Int 3
  /\ ClientCart.storage (ClientCart.addToCart "p2" p)
     = [ClientCart.mkItem "p1" (ClientCart.Int 2); ClientCart.mkItem "p2" (ClientCart.Int 1)].
Proof.
  intros p.
  assert (Htidy : ClientCart.tidy (ClientCart.cart p)).
  { split; cbn.
    - constructor; [intros [] | constructor].
    - constructor; [|constructor].
      exists 2%Z. split; [reflexivity | unfold ClientCart.exact; lia]. }
  destruct (X5_cart_counter_and_storage "p2" p Htidy) as (Hsmall & _).
  destruct (Hsmall ltac:(vm_compute; reflexivity)) as (Hs & Hb & Hp & _).
  split; [rewrite Hb, Hp; reflexivity | rewrite Hs; reflexivity].
Defined.

Lemma X6_witness :
  let p := ClientCart.mkPage [ClientCart.mkItem "p1" (ClientCart.Int 2)] [] (ClientCart.Int 0) [] in
  ClientCart.cart (ClientCart.removeFromCart "p2" (ClientCart.addToCart "p2" p))
  = ClientCart.cart p
  /\ ClientCart.cart (ClientCart.updateQuantity "p1" (Some (-1)%Z) p) = [].
Proof.
  intros p. destruct (X6_cart_round_trips "p2" p) as (Hround & _).
  destruct (X6_cart_round_trips "p1" p) as (_ & Hzero).
  split.
  - apply Hround. cbn. intros [H|[]]. discriminate.
  - rewrite (Hzero (-1)%Z ltac:(lia)); [reflexivity|]. cbn. left. reflexivity.
Defined.

Lemma X7_witness :
  let p := ClientCart.mkPage [ClientCart.mkItem "p1" (ClientCart.Int 2)] [] (ClientCart.Int 0) [] in
  ClientCart.badge (ClientCart.updateQuantity "p1" None p) = ClientCart.NaN
  /\ ClientCart.storage (ClientCart.updateQuantity "p1" None p)
     = [ClientCart.mkItem "p1" ClientCart.Null].
Proof.
  intros p. destruct (X7_cart_quantity_not_a_number "p1" p) as (_ & _ & Hb & _).
  - cbn. left. reflexivity.
  - split; [exact Hb | reflexivity].
Defined.

(** ** Handlers: missing targets, reads, access *)

Lemma deployment_with_store_missing deploymentId w :
  find (Prisma.has_dep_id deploymentId) (deployments w) = None ->
  Controller.deployment_with_store deploymentId w = (Ok None, w).
Proof.
  intros H. unfold Controller.deployment_with_store, bind, Prisma.deployment_findUnique, gets.
  rewrite H. reflexivity.
Qed.

Lemma deployment_with_store_reads deploymentId w :
  snd (Controller.deployment_with_store deploymentId w) = w.
Proof.
  unfold Controller.deployment_with_store, bind, Prisma.deployment_findUnique,
    Prisma.store_findUnique, gets.
  destruct (find (Prisma.has_dep_id deploymentId) (deployments w)) as [d|]; [|reflexivity].
  destruct (find (Prisma.has_store_id (dep_storeId d)) (stores w)); reflexivity.
Qed.

Lemma verifyStoreOwnership_reads user storeId w :
  snd (Middleware.verifyStoreOwnership user storeId w) = w.
Proof.
  unfold Middleware.verifyStoreOwnership, bind, Prisma.store_findUnique, gets.
  destruct (storeId =? EmptyString); [reflexivity|].
  destruct (find (Prisma.has_store_id storeId) (stores w)); [|reflexivity].
  destruct (Role_eqb (user_role user) ADMIN || Role_eqb (user_role user) SUPER_ADMIN);
    [reflexivity|].
  destruct (negb (store_userId s =? user_id user)); reflexivity.
Qed.

Lemma getStoreDeployments_reads user storeId query w :
  snd (Controller.getStoreDeployments user storeId query w) = w.
Proof.
  unfold Controller.getStoreDeployments, bind, Prisma.store_findUnique,
    Prisma.deployment_findMany, Prisma.deployment_count, gets, ret.
  destruct (find (Prisma.has_store_id storeId) (stores w)); [|reflexivity].
  destruct (Controller.denied (store_userId s) user); reflexivity.
Qed.

(** X9. The reading operations never change the world, whatever their
    arguments and whether they return or throw: the status and log
    handlers, the listing (handler and route), the configuration handler,
    the SSL request, the service's status lookup, and the ownership
    check. *)
Theorem X9_reads_change_nothing :
  forall user storeId deploymentId domain page limit query w,
    snd (Controller.getDeploymentStatus user deploymentId w) = w
    /\ snd (Controller.getDeploymentLogs user deploymentId w) = w
    /\ snd (Controller.getStoreDeployments user storeId query w) = w
    /\ snd (Routes.getStoreDeployments user storeId page limit w) = w
    /\ snd (Handlers.getDeploymentConfig user storeId w) = w
    /\ snd (Controller.enableSSL user storeId domain w) = w
    /\ snd (DeploymentService.enableSSL domain w) = w
    /\ snd (DeploymentService.getDeploymentStatus deploymentId w) = w
    /\ snd (Middleware.verifyStoreOwnership user storeId w) = w.
Proof.
  intros user storeId deploymentId domain page limit query w.
  assert (Hdep : forall A (k : option (Deployment * Store) -> M A),
            (forall found, snd (k found w) = w) ->
            snd (bind (Controller.deployment_with_store deploymentId) k w) = w).
  { intros A k Hk. unfold bind.
    pose proof (deployment_with_store_reads deploymentId w) as Hw.
    destruct (Controller.deployment_with_store deploymentId w) as [[found|e] w1];
      cbn in Hw; subst w1; [apply Hk | reflexivity]. }
  split; [|split; [|split; [|split; [|split; [|split; [|split; [|split]]]]]]].
  - apply Hdep. intros [[d s]|]; [|reflexivity].
    destruct (Controller.denied (store_userId s) user); reflexivity.
  - apply Hdep. intros [[d s]|]; [|reflexivity].
    destruct (Controller.denied (store_userId s) user); reflexivity.
  - apply getStoreDeployments_reads.
  - unfold Routes.getStoreDeployments, bind.
    pose proof (verifyStoreOwnership_reads user storeId w) as Hw.
    destruct (Middleware.verifyStoreOwnership user storeId w) as [[u|e] w1];
      cbn in Hw; subst w1; [|reflexivity].
    unfold Middleware.validate_pagination.
    destruct (Middleware.joi_integer 1 None 1 page) as [p|];
      [destruct (Middleware.joi_integer 1 (Some 100%Z) 10 limit) as [l|]|];
      try reflexivity.
    exact (getStoreDeployments_reads user storeId
             (Middleware.mkQuery (Some p) (Some l)) w).
  - unfold Handlers.getDeploymentConfig, bind, Prisma.store_findUnique,
      Handlers.deployment_findLatest, gets, ret.
    destruct (find (Prisma.has_store_id storeId) (stores w)); [|reflexivity].
    destruct (Controller.denied (store_userId s) user); reflexivity.
  - unfold Controller.enableSSL, bind, Prisma.store_findUnique, gets.
    destruct (find (Prisma.has_store_id storeId) (stores w)); [|reflexivity].
    destruct (Controller.denied (store_userId s) user); reflexivity.
  - reflexivity.
  - reflexivity.
  - apply verifyStoreOwnership_reads.
Qed.

(** X10. [verifyStoreOwnership] decided: for a store that exists, it
    lets the request through exactly when the caller is an [ADMIN], a
    [SUPER_ADMIN] or the owner of the store, and answers every other
    caller with the [AuthorizationError] 'Access denied to this store'; a
    store that does not exist and a missing store id give plain
    [Error]s. *)
Theorem X10_verifyStoreOwnership_decides :
  forall user storeId w,
    (storeId = EmptyString ->
     Middleware.verifyStoreOwnership user storeId w
     = (Throw (mkExn Error "Store ID is required"), w))
    /\ (storeId <> EmptyString ->
        find (Prisma.has_store_id storeId) (stores w) = None ->
        Middleware.verifyStoreOwnership user storeId w
        = (Throw (mkExn Error "Store not found"), w))
    /\ (forall s,
          storeId <> EmptyString ->
          find (Prisma.has_store_id storeId) (stores w) = Some s ->
          (user_role user = ADMIN \/ user_role user = SUPER_ADMIN
           \/ store_userId s = user_id user ->
           Middleware.verifyStoreOwnership user storeId w = (Ok tt, w))
          /\ (user_role user = USER -> store_userId s <> user_id user ->
              Middleware.verifyStoreOwnership user storeId w
              = (Throw (mkExn AuthorizationError "Access denied to this store"), w))).
Proof.
  intros user storeId w. unfold Middleware.verifyStoreOwnership. split; [|split].
  - intros ->. reflexivity.
  - intros Hne Hs. destruct (String.eqb_spec storeId EmptyString); [contradiction|].
    unfold bind, Prisma.store_findUnique, gets. rewrite Hs. reflexivity.
  - intros s Hne Hs. destruct (String.eqb_spec storeId EmptyString); [contradiction|].
    unfold bind, Prisma.store_findUnique, gets. rewrite Hs. split.
    + intros [H|[H|H]]; try (rewrite H; reflexivity).
      destruct (Role_eqb (user_role user) ADMIN || Role_eqb (user_role user) SUPER_ADMIN);
        [reflexivity|].
      rewrite H, String.eqb_refl. reflexivity.
    + intros Hrole Hown. rewrite Hrole. cbn.
      destruct (String.eqb_spec (store_userId s) (user_id user)); [contradiction|].
      reflexivity.
Qed.

Lemma X10_witness :
  Middleware.verifyStoreOwnership Sample.owner "s1" Sample.world = (Ok tt, Sample.world)
  /\ Middleware.verifyStoreOwnership Sample.stranger "s1" Sample.world
     = (Throw (mkExn AuthorizationError "Access denied to this store"), Sample.world)
  /\ Middleware.verifyStoreOwnership Sample.owner "s9" Sample.world
     = (Throw (mkExn Error "Store not found"), Sample.world).
Proof.
  destruct (X10_verifyStoreOwnership_decides Sample.owner "s1" Sample.world)
    as (_ & _ & Hfound).
  destruct (X10_verifyStoreOwnership_decides Sample.stranger "s1" Sample.world)
    as (_ & _ & Hstranger).
  destruct (X10_verifyStoreOwnership_decides Sample.owner "s9" Sample.world)
    as (_ & Hmissing & _).
  split; [|split].
  - apply (proj1 (Hfound Sample.acme ltac:(discriminate) eq_refl)).
    right. right. reflexivity.
  - apply (proj2 (Hstranger Sample.acme ltac:(discriminate) eq_refl));
      [reflexivity | discriminate].
  - apply Hmissing; [discriminate | reflexivity].
Defined.

(** X11. A [SUPER_ADMIN] who does not own the store passes
    [verifyStoreOwnership] and is then turned away by the handler, which
    knows the role [ADMIN] only: on the listing route, with a query that
    passes the validation, such a caller gets the [ValidationError]
    'Access denied to this store', where an [ADMIN] gets the listing. *)
Theorem X11_super_admin_is_turned_away :
  forall user storeId s page limit w,
    storeId <> EmptyString ->
    find (Prisma.has_store_id storeId) (stores w) = Some s ->
    store_userId s <> user_id user ->
    (1 <= page <= Middleware.max_safe_integer)%Z -> (1 <= limit <= 100)%Z ->
    (user_role user = SUPER_ADMIN ->
     Middleware.verifyStoreOwnership user storeId w = (Ok tt, w)
     /\ Routes.getStoreDeployments user storeId
          (Middleware.QInteger page) (Middleware.QInteger limit) w
        = (Throw (mkExn ValidationError "Access denied to this store"), w))
    /\ (user_role user = ADMIN ->
        (page * limit <= 2147483647)%Z ->
        is_ok (fst (Routes.getStoreDeployments user storeId
                      (Middleware.QInteger page) (Middleware.QInteger limit) w)) = true).
Proof.
  intros user storeId s page limit w Hne Hs Hown Hp Hl.
  pose proof (validate_pagination_ok page limit w Hp Hl) as Hv.
  split.
  - intros Hrole.
    assert (Hpass : Middleware.verifyStoreOwnership user storeId w = (Ok tt, w)).
    { unfold Middleware.verifyStoreOwnership.
      destruct (String.eqb_spec storeId EmptyString); [contradiction|].
      unfold bind, Prisma.store_findUnique, gets. rewrite Hs, Hrole. reflexivity. }
    split; [exact Hpass|].
    unfold Routes.getStoreDeployments.
    rewrite (bind_ok _ _ _ _ _ Hpass), (bind_ok _ _ _ _ _ Hv).
    unfold Controller.getStoreDeployments, bind, Prisma.store_findUnique, gets.
    rewrite Hs. unfold Controller.denied. rewrite Hrole.
    destruct (String.eqb_spec (store_userId s) (user_id user)); [contradiction|].
    reflexivity.
  - intros Hrole _.
    unfold Routes.getStoreDeployments.
    rewrite (bind_ok _ _ _ _ _
               (verifyStoreOwnership_pass user storeId s w Hne Hs (or_intror Hrole))).
    rewrite (bind_ok _ _ _ _ _ Hv).
    rewrite (getStoreDeployments_served user storeId s page limit w Hs (or_intror Hrole)).
    reflexivity.
Qed.

Lemma X11_witness :
  Routes.getStoreDeployments (mkUser "root" SUPER_ADMIN) "s1"
    (Middleware.QInteger 1) (Middleware.QInteger 10) Sample.world_listed
  = (Throw (mkExn ValidationError "Access denied to this store"), Sample.world_listed).
Proof.
  destruct (X11_super_admin_is_turned_away (mkUser "root" SUPER_ADMIN) "s1" Sample.acme
              1 10 Sample.world_listed) as (Hsuper & _).
  - discriminate.
  - reflexivity.
  - discriminate.
  - unfold Middleware.max_safe_integer. lia.
  - lia.
  - apply (proj2 (Hsuper eq_refl)).
Defined.

(** ** The listing: validation and pages *)

Lemma joi_integer_range lo hi d v z :
  Middleware.joi_integer lo hi d v = Some z ->
  (v = Middleware.QAbsent /\ z = d)
  \/ (v = Middleware.QInteger z /\ (lo <= z)%Z
      /\ (Z.abs z <= Middleware.max_safe_integer)%Z
      /\ match hi with Some h => (z <= h)%Z | None => True end).
Proof.
  unfold Middleware.joi_integer. destruct v as [|x|]; [| |discriminate].
  - intros H; inversion H. left. split; reflexivity.
  - unfold Middleware.safe.
    destruct (Z.leb_spec (Z.abs x) Middleware.max_safe_integer) as [Hsafe|Hbig];
      [|discriminate].
    cbn [negb].
    destruct (Z.ltb_spec x lo) as [Hlt|Hge]; [discriminate|].
    destruct hi as [h|].
    + destruct (Z.ltb_spec h x) as [Hbig|Hok]; [discriminate|].
      intros E; inversion E; subst. right. repeat split; lia.
    + intros E; inversion E; subst. right. repeat split; auto.
Qed.

(** What the validation of a number refuses. *)
Lemma joi_integer_refuses lo hi d v :
  v = Middleware.QOther
  \/ (exists z, v = Middleware.QInteger z
                /\ ((z < lo)%Z \/ (Middleware.max_safe_integer < Z.abs z)%Z
                    \/ match hi with Some h => (h < z)%Z | None => False end)) ->
  Middleware.joi_integer lo hi d v = None.
Proof.
  intros [->|(z & -> & H)]; [reflexivity|].
  unfold Middleware.joi_integer, Middleware.safe.
  destruct (Z.leb_spec (Z.abs z) Middleware.max_safe_integer) as [Hsafe|Hbig];
    [|reflexivity].
  cbn [negb]. destruct (Z.ltb_spec z lo) as [Hlt|Hge]; [reflexivity|].
  destruct hi as [h|].
  - destruct (Z.ltb_spec h z); [reflexivity|]. lia.
  - destruct H as [H|[H|[]]]; lia.
Qed.

(** X12. Whatever the query string holds, a listing that is served
    reports a page between 1 and the largest safe integer and a limit
    between 1 and 100, holds at most [limit] (so at most 100) records,
    and has a finite number of pages; a missing [page] counts as 1 and a
    missing [limit] as 10.  And for a caller who passes the ownership
    check, a page or a limit that is no integer, is unsafe as a number or
    is out of these bounds is refused with the [ValidationError]
    'Validation failed', and nothing is changed. *)
Theorem X12_listing_query_bounds :
  forall user storeId page limit w,
    (forall items pagination w',
       Routes.getStoreDeployments user storeId page limit w
       = (Ok (items, pagination), w') ->
       (1 <= Controller.pg_page pagination <= Middleware.max_safe_integer)%Z
       /\ (1 <= Controller.pg_limit pagination <= 100)%Z
       /\ (Z.of_nat (List.length items) <= Controller.pg_limit pagination)%Z
       /\ (page = Middleware.QAbsent -> Controller.pg_page pagination = 1%Z)
       /\ (limit = Middleware.QAbsent -> Controller.pg_limit pagination = 10%Z)
       /\ (forall z, page = Middleware.QInteger z -> Controller.pg_page pagination = z)
       /\ (forall z, limit = Middleware.QInteger z -> Controller.pg_limit pagination = z)
       /\ page <> Middleware.QOther /\ limit <> Middleware.QOther
       /\ Controller.pg_pages pagination <> None)
    /\ (Middleware.verifyStoreOwnership user storeId w = (Ok tt, w) ->
        (page = Middleware.QOther
         \/ (exists z, page = Middleware.QInteger z
                       /\ ((z < 1)%Z \/ (Middleware.max_safe_integer < Z.abs z)%Z))
         \/ limit = Middleware.QOther
         \/ (exists z, limit = Middleware.QInteger z
                       /\ ((z < 1)%Z \/ (100 < z)%Z))) ->
        Routes.getStoreDeployments user storeId page limit w
        = (Throw (mkExn ValidationError "Validation failed"), w)).
Proof.
  intros user storeId page limit w. split.
  - intros items pagination w' H.
    unfold Routes.getStoreDeployments in H.
    apply bind_inv_ok in H. destruct H as (u & w1 & _ & H).
    apply bind_inv_ok in H. destruct H as (query & w2 & Hq & H).
    unfold Middleware.validate_pagination in Hq.
    destruct (Middleware.joi_integer 1 None 1 page) as [p|] eqn:Ep; [|discriminate].
    destruct (Middleware.joi_integer 1 (Some 100%Z) 10 limit) as [l|] eqn:El; [|discriminate].
    inversion Hq; subst query w2. clear Hq.
    unfold Controller.getStoreDeployments, bind, Prisma.store_findUnique,
      Prisma.deployment_findMany, Prisma.deployment_count, gets, ret in H.
    cbn [Middleware.q_page Middleware.q_limit Prisma.dflt] in H.
    destruct (find (Prisma.has_store_id storeId) (stores w1)); [|discriminate].
    destruct (Controller.denied (store_userId s) user); [discriminate|].
    inversion H; subst items pagination w'. clear H.
    cbn [Controller.pg_page Controller.pg_limit Controller.pg_pages].
    assert (Hp : (1 <= p <= Middleware.max_safe_integer)%Z
                 /\ (page = Middleware.QAbsent -> p = 1%Z)
                 /\ (forall z, page = Middleware.QInteger z -> p = z)
                 /\ page <> Middleware.QOther).
    { destruct (joi_integer_range _ _ _ _ _ Ep) as [[-> ->]|(-> & Hlo & Hsafe & _)];
        repeat split;
        first [ lia | unfold Middleware.max_safe_integer; lia | discriminate
              | intros z Hz; inversion Hz; reflexivity | reflexivity ]. }
    assert (Hl : (1 <= l <= 100)%Z /\ (limit = Middleware.QAbsent -> l = 10%Z)
                 /\ (forall z, limit = Middleware.QInteger z -> l = z)
                 /\ limit <> Middleware.QOther).
    { destruct (joi_integer_range _ _ _ _ _ El) as [[-> ->]|(-> & Hlo & _ & Hhi)];
        repeat split;
        first [ lia | discriminate | intros z Hz; inversion Hz; reflexivity | reflexivity ]. }
    destruct Hp as (Hp1 & Hp2 & Hp3 & Hp4). destruct Hl as (Hl1 & Hl2 & Hl3 & Hl4).
    repeat split; try lia; auto.
    + rewrite length_firstn. lia.
    + unfold Controller.ceil_div. destruct (Z.eqb_spec l 0); [lia | discriminate].
  - intros Hpass Hbad. unfold Routes.getStoreDeployments.
    rewrite (bind_ok _ _ _ _ _ Hpass).
    apply bind_throw. unfold Middleware.validate_pagination.
    destruct Hbad as [Hp|[Hp|[Hl|Hl]]].
    + rewrite (joi_integer_refuses 1 None 1 page (or_introl Hp)). reflexivity.
    + rewrite (joi_integer_refuses 1 None 1 page); [reflexivity|].
      right. destruct Hp as (z & Hz & Hr). exists z. split; [exact Hz|]. tauto.
    + rewrite (joi_integer_refuses 1 (Some 100%Z) 10 limit (or_introl Hl)).
      destruct (Middleware.joi_integer 1 None 1 page); reflexivity.
    + rewrite (joi_integer_refuses 1 (Some 100%Z) 10 limit).
      * destruct (Middleware.joi_integer 1 None 1 page); reflexivity.
      * right. destruct Hl as (z & Hz & Hr). exists z. split; [exact Hz|]. tauto.
Qed.

Lemma X12_witness :
  (exists items pagination,
     Routes.getStoreDeployments Sample.owner "s1" (Middleware.QInteger 2) Middleware.QAbsent
       Sample.world_listed = (Ok (items, pagination), Sample.world_listed)
     /\ Controller.pg_page pagination = 2%Z /\ Controller.pg_limit pagination = 10%Z)
  /\ Routes.getStoreDeployments Sample.owner "s1"
       (Middleware.QInteger 9007199254740993) (Middleware.QInteger 10) Sample.world_listed
     = (Throw (mkExn ValidationError "Validation failed"), Sample.world_listed)
  /\ Routes.getStoreDeployments Sample.owner "s1"
       (Middleware.QInteger 1) Middleware.QOther Sample.world_listed
     = (Throw (mkExn ValidationError "Validation failed"), Sample.world_listed).
Proof.
  split; [|split].
  - eexists. eexists. split; [vm_compute; reflexivity|].
    edestruct (proj1 (X12_listing_query_bounds Sample.owner "s1" (Middleware.QInteger 2)
                        Middleware.QAbsent Sample.world_listed))
      as (_ & _ & _ & _ & Hl & Hp & _).
    + vm_compute. reflexivity.
    + split; [exact (Hp 2%Z eq_refl) | exact (Hl eq_refl)].
  - apply (proj2 (X12_listing_query_bounds Sample.owner "s1"
                    (Middleware.QInteger 9007199254740993) (Middleware.QInteger 10)
                    Sample.world_listed)); [reflexivity|].
    right. left. exists 9007199254740993%Z. split; [reflexivity|].
    right. unfold Middleware.max_safe_integer. lia.
  - apply (proj2 (X12_listing_query_bounds Sample.owner "s1"
                    (Middleware.QInteger 1) Middleware.QOther Sample.world_listed));
      [reflexivity|].
    right. right. left. reflexivity.
Defined.

Lemma firstn_next {A} (n k : nat) (l : list A) :
  firstn n l ++ firstn k (skipn n l) = firstn (n + k) l.
Proof.
  revert l. induction n as [|n IH]; intros l; [reflexivity|].
  destruct l as [|a l]; cbn; [destruct k; reflexivity|].
  rewrite IH. reflexivity.
Qed.

Lemma page_items_served user storeId s page limit w :
  storeId <> EmptyString ->
  find (Prisma.has_store_id storeId) (stores w) = Some s ->
  store_userId s = user_id user \/ user_role user = ADMIN ->
  (1 <= page)%Z -> (1 <= limit <= 100)%Z -> (page * limit <= 2147483647)%Z ->
  Handlers.page_items user storeId page limit w
  = firstn (Z.to_nat limit)
           (skipn ((Z.to_nat page - 1) * Z.to_nat limit)
                  (Prisma.orderBy_createdAt_desc (Prisma.of_store storeId (deployments w)))).
Proof.
  intros Hne Hs Hallowed Hp Hl Hfit. unfold Handlers.page_items, Routes.getStoreDeployments.
  rewrite (bind_ok _ _ _ _ _ (verifyStoreOwnership_pass user storeId s w Hne Hs Hallowed)).
  rewrite (bind_ok _ _ _ _ _ (validate_pagination_ok page limit w ltac:(nia) Hl)).
  rewrite (getStoreDeployments_served user storeId s page limit w Hs Hallowed).
  cbn [fst]. rewrite Z2Nat.inj_mul, Z2Nat.inj_sub by lia. reflexivity.
Qed.

(** X13. The pages of a listing fit together when no two deployments of
    the store were created at the same instant: for an owner or [ADMIN]
    and a limit between 1 and 100, the pages 1 to n put one after the
    other are the first n*limit deployments of the store, newest first;
    with n*limit at least the number of deployments they are all of them,
    each once; and the page after the last is empty.  (Offsets within 31
    bits.) *)
Theorem X13_pages_fit_together :
  forall user storeId s limit w,
    storeId <> EmptyString ->
    find (Prisma.has_store_id storeId) (stores w) = Some s ->
    store_userId s = user_id user \/ user_role user = ADMIN ->
    (1 <= limit <= 100)%Z ->
    NoDup (map dep_createdAt (Prisma.of_store storeId (deployments w))) ->
    forall newest_first,
      Permutation newest_first (Prisma.of_store storeId (deployments w)) ->
      Sorted newer_or_same newest_first ->
      let pages n :=
        flat_map (fun k => Handlers.page_items user storeId (Z.of_nat (S k)) limit w)
                 (seq 0 n) in
      (forall n, (Z.of_nat n * limit <= 2147483647)%Z ->
                 pages n = firstn (n * Z.to_nat limit) newest_first)
      /\ (forall n, (Z.of_nat (S n) * limit <= 2147483647)%Z ->
                    List.length newest_first <= n * Z.to_nat limit ->
                    pages n = newest_first
                    /\ Permutation (pages n) (Prisma.of_store storeId (deployments w))
                    /\ Handlers.page_items user storeId (Z.of_nat (S n)) limit w = []).
Proof.
  intros user storeId s limit w Hne Hs Hallowed Hl Hnd newest_first Hperm Hsorted pages.
  assert (Horder : Prisma.orderBy_createdAt_desc (Prisma.of_store storeId (deployments w))
                   = newest_first).
  { symmetry. apply sorted_unique.
    - apply (Permutation_NoDup (Permutation_map dep_createdAt (Permutation_sym Hperm))).
      exact Hnd.
    - eapply Permutation_trans; [exact Hperm | apply Permutation_sym, orderBy_perm].
    - exact Hsorted.
    - apply orderBy_sorted. }
  assert (Hitems : forall k,
            (Z.of_nat (S k) * limit <= 2147483647)%Z ->
            Handlers.page_items user storeId (Z.of_nat (S k)) limit w
            = firstn (Z.to_nat limit) (skipn (k * Z.to_nat limit) newest_first)).
  { intros k Hk.
    rewrite (page_items_served user storeId s _ limit w Hne Hs Hallowed) by lia.
    rewrite Horder, Nat2Z.id. replace (S k - 1) with k by lia. reflexivity. }
  assert (Hpages : forall n, (Z.of_nat n * limit <= 2147483647)%Z ->
                             pages n = firstn (n * Z.to_nat limit) newest_first).
  { intros n. unfold pages. induction n as [|n IH]; intros Hn; [reflexivity|].
    rewrite seq_S, flat_map_app, IH by nia. cbn [flat_map].
    rewrite app_nil_r, Hitems by exact Hn.
    rewrite firstn_next. f_equal. lia. }
  split; [exact Hpages|].
  intros n Hfit Hn. rewrite Hpages by nia. rewrite firstn_all2 by exact Hn.
  split; [reflexivity|]. split; [exact Hperm|].
  rewrite Hitems by exact Hfit. rewrite skipn_all2 by exact Hn.
  destruct (Z.to_nat limit); reflexivity.
Qed.

Lemma X13_witness :
  Handlers.page_items Sample.owner "s1" 1 2 Sample.world_listed
  ++ Handlers.page_items Sample.owner "s1" 2 2 Sample.world_listed
  = [Sample.record 2 "s1" 30; Sample.record 3 "s1" 20; Sample.record 0 "s1" 10]
  /\ Handlers.page_items Sample.owner "s1" 3 2 Sample.world_listed = [].
Proof.
  destruct (X13_pages_fit_together Sample.owner "s1" Sample.acme 2 Sample.world_listed
              ltac:(discriminate) eq_refl (or_introl eq_refl) ltac:(lia)
              ltac:(repeat constructor; cbn; intuition discriminate)
              [Sample.record 2 "s1" 30; Sample.record 3 "s1" 20; Sample.record 0 "s1" 10]
              (Permutation_app_comm [Sample.record 2 "s1" 30; Sample.record 3 "s1" 20]
                                    [Sample.record 0 "s1" 10])
              ltac:(repeat constructor; unfold newer_or_same; cbn; lia))
    as (_ & Hall).
  destruct (Hall 2) as (Hpages & _ & Hlast).
  - lia.
  - cbn. lia.
  - split; [|exact Hlast]. cbn [flat_map seq] in Hpages.
    rewrite app_nil_r in Hpages. exact Hpages.
Defined.

(** ** Deleting a deployment, the configuration, rollback *)

Lemma remove_first_length {A} (p : A -> bool) l x :
  find p l = Some x -> S (List.length (remove_first p l)) = List.length l.
Proof.
  induction l as [|a l IH]; cbn; [discriminate|].
  destruct (p a); [reflexivity|]. intros H. cbn. rewrite (IH H). reflexivity.
Qed.

Lemma find_remove_other id other l :
  other <> id ->
  find (Prisma.has_dep_id other) (remove_first (Prisma.has_dep_id id) l)
  = find (Prisma.has_dep_id other) l.
Proof.
  intros Hne. induction l as [|d l IH]; [reflexivity|].
  cbn [remove_first find].
  destruct (Prisma.has_dep_id id d) eqn:E1; destruct (Prisma.has_dep_id other d) eqn:E2.
  - unfold Prisma.has_dep_id in E1, E2. apply Nat.eqb_eq in E1, E2. lia.
  - reflexivity.
  - cbn [find]. rewrite E2. reflexivity.
  - cbn [find]. rewrite E2. exact IH.
Qed.

Lemma find_remove_same id l :
  NoDup (map dep_id l) ->
  find (Prisma.has_dep_id id) (remove_first (Prisma.has_dep_id id) l) = None.
Proof.
  induction l as [|d l IH]; intros Hnd; [reflexivity|].
  cbn [map] in Hnd. inversion Hnd as [|? ? Hnot Hrest]; subst.
  cbn [remove_first]. destruct (Prisma.has_dep_id id d) eqn:E.
  - destruct (find (Prisma.has_dep_id id) l) as [x|] eqn:Ex; [|reflexivity].
    exfalso. apply find_some in Ex. destruct Ex as [Hin Hx].
    unfold Prisma.has_dep_id in E, Hx. apply Nat.eqb_eq in E, Hx.
    apply Hnot. rewrite E, <- Hx. apply in_map. exact Hin.
  - cbn [find]. rewrite E. apply IH. exact Hrest.
Qed.

(** X14. [deleteDeployment] by the owner or an [ADMIN] removes the one
    record and nothing else: the table is one row shorter, the other rows
    are found as before, the stores and the files of the build stay; with
    distinct identifiers, looking the deployment up afterwards gives
    'Deployment not found'. *)
Theorem X14_deleteDeployment_removes_one_record :
  forall user deploymentId d s w,
    find (Prisma.has_dep_id deploymentId) (deployments w) = Some d ->
    find (Prisma.has_store_id (dep_storeId d)) (stores w) = Some s ->
    store_userId s = user_id user \/ user_role user = ADMIN ->
    exists w',
      Controller.deleteDeployment user deploymentId w = (Ok tt, w')
      /\ deployments w' = remove_first (Prisma.has_dep_id deploymentId) (deployments w)
      /\ S (List.length (deployments w')) = List.length (deployments w)
      /\ stores w' = stores w /\ products w' = products w
      /\ fs_ops w' = fs_ops w
      /\ (forall other, other <> deploymentId ->
            find (Prisma.has_dep_id other) (deployments w')
            = find (Prisma.has_dep_id other) (deployments w))
      /\ (Handlers.unique_ids w ->
          Controller.getDeploymentStatus user deploymentId w'
          = (Throw (mkExn NotFoundError "Deployment not found"), w')).
Proof.
  intros user deploymentId d s w Hd Hs Hallowed.
  eexists. split.
  - unfold Controller.deleteDeployment.
    rewrite (bind_ok _ _ _ _ _ (deployment_with_store_found _ _ _ _ Hd Hs)).
    rewrite (denied_allowed user s Hallowed).
    unfold bind, Prisma.deployment_delete, ret. rewrite Hd. reflexivity.
  - cbn. split; [reflexivity|]. split; [apply (remove_first_length _ _ d Hd)|].
    repeat split.
    + intros other Hne. apply find_remove_other. exact Hne.
    + intros Huniq. unfold Controller.getDeploymentStatus.
      rewrite (bind_ok _ _ _ None _
                 (deployment_with_store_missing deploymentId
                    (set_deployments
                       (remove_first (Prisma.has_dep_id deploymentId) (deployments w))
                       (next_id w) w)
                    (find_remove_same deploymentId _ Huniq))).
      reflexivity.
Qed.

Lemma X14_witness :
  exists w',
    Controller.deleteDeployment Sample.owner 2 Sample.world_listed = (Ok tt, w')
    /\ map dep_id (deployments w') = [0; 1; 3]
    /\ Controller.getDeploymentStatus Sample.owner 2 w'
       = (Throw (mkExn NotFoundError "Deployment not found"), w').
Proof.
  destruct (X14_deleteDeployment_removes_one_record Sample.owner 2
              (Sample.record 2 "s1" 30) Sample.acme Sample.world_listed)
    as (w' & Hrun & Hdeps & H).
  - reflexivity.
  - reflexivity.
  - left. reflexivity.
  - destruct H as (_ & _ & _ & _ & _ & Hgone).
    exists w'. split; [exact Hrun|]. split; [rewrite Hdeps; reflexivity|].
    apply Hgone. unfold Handlers.unique_ids. cbn.
    repeat constructor; cbn; intuition discriminate.
Defined.

Lemma newest_is_first d l :
  hd_error (Prisma.orderBy_createdAt_desc l) = Some d ->
  In d l /\ forall x, In x l -> newer_or_same d x.
Proof.
  intros H. pose proof (orderBy_sorted l) as Hs. pose proof (orderBy_perm l) as Hp.
  destruct (Prisma.orderBy_createdAt_desc l) as [|a r]; [discriminate|].
  inversion H; subst a. split.
  - apply (Permutation_in _ Hp). left. reflexivity.
  - intros x Hx. apply (Permutation_in _ (Permutation_sym Hp)) in Hx.
    destruct Hx as [<-|Hx]; [unfold newer_or_same; lia|].
    apply Sorted_StronglySorted in Hs; [|exact newer_or_same_trans].
    inversion Hs as [|? ? _ Hall]; subst.
    rewrite Forall_forall in Hall. apply Hall. exact Hx.
Qed.

(** X15. [getDeploymentConfig], for the owner or an [ADMIN], returns
    the store row, the latest deployment of the store and the address
    [store.deploymentUrl || latestDeployment?.url].  The latest
    deployment is one of the store's, none of them was created later, and
    there is none only when the store has no deployment. *)
Theorem X15_getDeploymentConfig :
  forall user storeId s w,
    find (Prisma.has_store_id storeId) (stores w) = Some s ->
    store_userId s = user_id user \/ user_role user = ADMIN ->
    exists latest,
      Handlers.getDeploymentConfig user storeId w
      = (Ok (s, latest, Js.or (store_deploymentUrl s) (Handlers.latest_url latest)), w)
      /\ (latest = None <-> Prisma.of_store storeId (deployments w) = [])
      /\ (forall d, latest = Some d ->
            In d (deployments w) /\ dep_storeId d = storeId
            /\ forall x, In x (deployments w) -> dep_storeId x = storeId ->
                         (dep_createdAt x <= dep_createdAt d)%N)
      /\ (Js.truthy (store_deploymentUrl s) = true ->
          Js.or (store_deploymentUrl s) (Handlers.latest_url latest) = store_deploymentUrl s).
Proof.
  intros user storeId s w Hs Hallowed.
  exists (hd_error (Prisma.orderBy_createdAt_desc (Prisma.of_store storeId (deployments w)))).
  split; [|split; [|split]].
  - unfold Handlers.getDeploymentConfig, bind, Prisma.store_findUnique,
      Handlers.deployment_findLatest, gets, ret.
    rewrite Hs, (denied_allowed user s Hallowed). reflexivity.
  - pose proof (orderBy_perm (Prisma.of_store storeId (deployments w))) as Hp. split.
    + intros H. destruct (Prisma.orderBy_createdAt_desc _) as [|a r]; [|discriminate].
      apply Permutation_nil. exact Hp.
    + intros H. rewrite H. reflexivity.
  - intros d Hd. destruct (newest_is_first d _ Hd) as [Hin Hmax].
    unfold Prisma.of_store in Hin. apply filter_In in Hin. destruct Hin as [Hin Hid].
    apply String.eqb_eq in Hid. split; [exact Hin|]. split; [exact Hid|].
    intros x Hx Hxid. apply Hmax. unfold Prisma.of_store. apply filter_In.
    split; [exact Hx | apply String.eqb_eq; exact Hxid].
  - intros Ht. unfold Js.or. rewrite Ht. reflexivity.
Qed.

Lemma X15_witness :
  exists latest,
    Handlers.getDeploymentConfig Sample.owner "s1" Sample.world_listed
    = (Ok (Sample.acme, latest,
           Js.or (store_deploymentUrl Sample.acme) (Handlers.latest_url latest)),
       Sample.world_listed)
    /\ (latest = None <-> Prisma.of_store "s1" (deployments Sample.world_listed) = []).
Proof.
  destruct (X15_getDeploymentConfig Sample.owner "s1" Sample.acme Sample.world_listed)
    as (latest & Hrun & Hnone & _).
  - reflexivity.
  - left. reflexivity.
  - exists latest. split; [exact Hrun | exact Hnone].
Defined.

Lemma rollbackDeployment_inv storeId version w d w' :
  DeploymentService.rollbackDeployment storeId version w = (Ok d, w') ->
  exists s,
    find (Prisma.has_store_id storeId) (stores w) = Some s
    /\ In d (deployments w) /\ dep_storeId d = storeId /\ dep_version d = version
    /\ dep_status d = SUCCESS
    /\ stores w' = update_first (Prisma.has_store_id storeId)
                     (Prisma.apply_store_data
                        (Prisma.mkStoreData None None (Some (dep_url d)) None))
                     (stores w)
    /\ deployments w' = deployments w /\ fs_ops w' = fs_ops w.
Proof.
  unfold DeploymentService.rollbackDeployment, bind, Prisma.deployment_findFirst, gets.
  destruct (find _ (deployments w)) as [x|] eqn:Ef; [|discriminate].
  unfold Prisma.store_update.
  destruct (find (Prisma.has_store_id storeId) (stores w)) as [s|] eqn:Es; [|discriminate].
  cbn. intros H; inversion H; subst. exists s.
  apply find_some in Ef. destruct Ef as [Hin Hp].
  apply andb_true_iff in Hp. destruct Hp as [Hp Hst].
  apply andb_true_iff in Hp. destruct Hp as [Hid Hv].
  apply String.eqb_eq in Hid, Hv.
  cbn. repeat split; auto. destruct (dep_status d); try discriminate. reflexivity.
Qed.

(** X16. Rollback and configuration compose: after a rollback that the
    handler carried out, to a deployment that has an address, the
    configuration of the store reports that address as its
    [deploymentUrl]; the deployment rolled back to is a [SUCCESS] record
    of that store with the requested version, and no record or file
    changed. *)
Theorem X16_rollback_then_config :
  forall user storeId version w d w',
    Controller.rollbackDeployment user storeId version w = (Ok d, w') ->
    Js.truthy (dep_url d) = true ->
    dep_status d = SUCCESS /\ dep_storeId d = storeId /\ dep_version d = version
    /\ deployments w' = deployments w /\ fs_ops w' = fs_ops w
    /\ exists s' latest,
         Handlers.getDeploymentConfig user storeId w' = (Ok (s', latest, dep_url d), w')
         /\ store_deploymentUrl s' = dep_url d.
Proof.
  intros user storeId version w d w' H Hurl.
  unfold Controller.rollbackDeployment, bind, Prisma.store_findUnique, gets in H.
  destruct (find (Prisma.has_store_id storeId) (stores w)) as [s|] eqn:Es; [|discriminate].
  destruct (Controller.denied (store_userId s) user) eqn:Eden; [discriminate|].
  destruct (rollbackDeployment_inv _ _ _ _ _ H)
    as (s0 & Hs0 & Hin & Hid & Hv & Hst & Hstores & Hdeps & Hfs).
  rewrite Es in Hs0. inversion Hs0; subst s0.
  repeat split; auto.
  exists (Prisma.apply_store_data (Prisma.mkStoreData None None (Some (dep_url d)) None) s).
  eexists. split; [|reflexivity].
  unfold Handlers.getDeploymentConfig, bind, Prisma.store_findUnique,
    Handlers.deployment_findLatest, gets, ret.
  rewrite Hstores, (find_update_first _ _ _ s) by (reflexivity || exact Es).
  cbn [Prisma.apply_store_data store_userId store_deploymentUrl Prisma.dflt
       Prisma.sd_deploymentUrl].
  rewrite Eden. unfold Js.or. rewrite Hurl. reflexivity.
Qed.

Lemma X16_witness :
  exists d w' s' latest,
    Controller.rollbackDeployment Sample.owner "s1" "v1700000000000" Sample.world_deployed
    = (Ok d, w')
    /\ Handlers.getDeploymentConfig Sample.owner "s1" w'
       = (Ok (s', latest, Some "https://acme.stores.buildcart.ai"), w').
Proof.
  edestruct (X16_rollback_then_config Sample.owner "s1" "v1700000000000"
               Sample.world_deployed) as (_ & _ & _ & _ & _ & s' & latest & Hcfg & _).
  - vm_compute. reflexivity.
  - reflexivity.
  - eexists. eexists. exists s', latest. split; [vm_compute; reflexivity | exact Hcfg].
Defined.

(** ** A deployment from start to end: reply, stored rows, mail, domain *)

Lemma created_is_building env storeId environment store w :
  let d := created env storeId environment store w in
  dep_status d = BUILDING /\ dep_url d = None /\ dep_deployedAt d = None
  /\ dep_buildLogs d = None /\ dep_storeId d = storeId /\ dep_id d = next_id w.
Proof. cbn. repeat split; reflexivity. Qed.

(** X17. The reply of a successful [deployStore] carries the record as
    it was created: still [BUILDING], without address or date.  The
    stored record, which the status handler returns for the same
    identifier right afterwards, is [SUCCESS] with the address of the
    reply, the build log and the date, and the store row has that address
    and is marked as deployed. *)
Theorem X17_reply_carries_the_record_as_created :
  forall env user storeId environment w store d w1 bp w2,
    fresh_ids w = true ->
    DeploymentService.deployStore_begin env storeId
      (Prisma.dflt environment "production") w = (Ok (store, d), w1) ->
    DeploymentService.generateStaticSite env store d w1 = (Ok bp, w2) ->
    store_userId (snap_store store) = user_id user \/ user_role user = ADMIN ->
    exists res w' d' s',
      DeploymentService.deployStore env storeId environment w = (Ok res, w')
      /\ DeploymentService.deployed_deployment res = d
      /\ dep_status d = BUILDING /\ dep_url d = None /\ dep_deployedAt d = None
      /\ Controller.getDeploymentStatus user (dep_id d) w' = (Ok (d', s'), w')
      /\ dep_status d' = SUCCESS
      /\ dep_url d' = Some (DeploymentService.deployed_url res)
      /\ dep_buildLogs d' = Some "Build completed successfully"
      /\ dep_deployedAt d' = Some (clock env (ticks w2))
      /\ dep_version d' = dep_version d
      /\ store_deploymentUrl s' = Some (DeploymentService.deployed_url res)
      /\ store_isDeployed s' = true /\ store_status s' = PUBLISHED.
Proof.
  intros env user storeId environment w store d w1 bp w2 Hfresh Hb Hg Hallowed.
  destruct (deployStore_succeeded_build _ _ _ _ _ _ _ _ _ Hfresh Hb Hg)
    as (w' & Hrun & Hdeps & Hstores & _).
  destruct (deployStore_begin_inv _ _ _ _ _ _ _ Hb)
    as (s & Hs & Hstore & Hd & _).
  pose proof (created_is_building env storeId (Prisma.dflt environment "production") store w)
    as (B1 & B2 & B3 & _ & B5 & B6).
  rewrite <- Hd in B1, B2, B3, B5, B6.
  set (data := Prisma.mkDeploymentData (Some SUCCESS)
                 (Some (Some (DeploymentService.generateStoreUrl env store)))
                 (Some (clock env (ticks w2)))
                 (Some (Some "Build completed successfully"))) in *.
  set (sdata := Prisma.mkStoreData (Some PUBLISHED) (Some true)
                  (Some (Some (DeploymentService.generateStoreUrl env store))) None) in *.
  exists (DeploymentService.mkDeployed d (DeploymentService.generateStoreUrl env store) bp),
    w', (Prisma.apply_deployment_data data d), (Prisma.apply_store_data sdata s).
  split; [exact Hrun|]. split; [reflexivity|].
  split; [exact B1|]. split; [exact B2|]. split; [exact B3|].
  split; [|cbn; repeat split; reflexivity].
  assert (Hfd : find (Prisma.has_dep_id (dep_id d)) (deployments w')
                = Some (Prisma.apply_deployment_data data d)).
  { rewrite Hdeps. apply find_app_fresh.
    - rewrite B6. apply fresh_ids_find. exact Hfresh.
    - unfold Prisma.has_dep_id. cbn. apply Nat.eqb_refl. }
  assert (Hfs : find (Prisma.has_store_id (dep_storeId (Prisma.apply_deployment_data data d)))
                     (stores w')
                = Some (Prisma.apply_store_data sdata s)).
  { cbn [Prisma.apply_deployment_data dep_storeId]. rewrite B5, Hstores.
    apply find_update_first; [reflexivity | exact Hs]. }
  unfold Controller.getDeploymentStatus.
  rewrite (bind_ok _ _ _ _ _ (deployment_with_store_found _ _ _ _ Hfd Hfs)).
  assert (Hden : Controller.denied (store_userId (Prisma.apply_store_data sdata s)) user = false).
  { apply denied_allowed. cbn [Prisma.apply_store_data store_userId].
    rewrite Hstore in Hallowed. exact Hallowed. }
  rewrite Hden. reflexivity.
Qed.

Lemma X17_witness :
  exists res w' d' s',
    DeploymentService.deployStore Sample.env_ok "s1" None Sample.world = (Ok res, w')
    /\ dep_status (DeploymentService.deployed_deployment res) = BUILDING
    /\ Controller.getDeploymentStatus Sample.owner
         (dep_id (DeploymentService.deployed_deployment res)) w' = (Ok (d', s'), w')
    /\ dep_status d' = SUCCESS.
Proof.
  destruct (DeploymentService.deployStore_begin Sample.env_ok "s1" "production" Sample.world)
    as [[[store d]|e] w1] eqn:Hb; [|vm_compute in Hb; discriminate].
  destruct (DeploymentService.generateStaticSite Sample.env_ok store d w1)
    as [[bp|e] w2] eqn:Hg.
  - destruct (X17_reply_carries_the_record_as_created Sample.env_ok Sample.owner "s1" None
                Sample.world store d w1 bp w2)
      as (res & w' & d' & s' & Hrun & Hres & Hst & _ & _ & Hget & Hst' & _).
    + reflexivity.
    + exact Hb.
    + exact Hg.
    + left. vm_compute in Hb. inversion Hb; subst. reflexivity.
    + exists res, w', d', s'. rewrite Hres. repeat split; assumption.
  - exfalso. vm_compute in Hb. inversion Hb; subst. vm_compute in Hg. discriminate.
Defined.

Lemma has_store_id_found storeId l s :
  find (Prisma.has_store_id storeId) l = Some s -> store_id s = storeId.
Proof.
  intros H. apply find_some in H. destruct H as [_ H].
  unfold Prisma.has_store_id in H. apply String.eqb_eq in H. exact H.
Qed.

Lemma deployStore_finish_mail env storeId store d bp w d0 s0 :
  find (Prisma.has_dep_id (dep_id d)) (deployments w) = Some d0 ->
  find (Prisma.has_store_id storeId) (stores w) = Some s0 ->
  exists w',
    DeploymentService.deployStore_finish env storeId store d bp w =
      (Ok (DeploymentService.mkDeployed d (DeploymentService.generateStoreUrl env store) bp), w')
    /\ mail_calls w' = S (mail_calls w)
    /\ outbox w' = match mail_fault env (mail_calls w) with
                   | Some _ => outbox w
                   | None => outbox w ++ [(store_id (snap_store store), dep_id d)]
                   end.
Proof.
  intros Hd Hs.
  unfold DeploymentService.deployStore_finish, Prisma.deployment_update,
    Prisma.store_update, Prisma.now, Email.sendStoreDeploymentNotification,
    try_catch, bind, ret.
  cbn. rewrite Hd. cbn. rewrite Hs. cbn.
  destruct (mail_fault env (mail_calls w)); cbn;
    eexists; repeat split; reflexivity.
Qed.

(** X18. A deployment whose build succeeds sends one notification, and
    the outcome of the delivery does not change the reply: when the mail
    service accepts the message, the outbox grows by the message for this
    store and this deployment; when it fails, the outbox is as before and
    [deployStore] still returns the deployment. *)
Theorem X18_notification_never_fails_a_deployment :
  forall env storeId environment w store d w1 bp w2,
    fresh_ids w = true ->
    DeploymentService.deployStore_begin env storeId
      (Prisma.dflt environment "production") w = (Ok (store, d), w1) ->
    DeploymentService.generateStaticSite env store d w1 = (Ok bp, w2) ->
    exists w',
      DeploymentService.deployStore env storeId environment w
      = (Ok (DeploymentService.mkDeployed d (DeploymentService.generateStoreUrl env store) bp),
         w')
      /\ mail_calls w' = S (mail_calls w)
      /\ (mail_fault env (mail_calls w) = None ->
          outbox w' = outbox w ++ [(storeId, dep_id d)])
      /\ (forall msg, mail_fault env (mail_calls w) = Some msg -> outbox w' = outbox w).
Proof.
  intros env storeId environment w store d w1 bp w2 Hfresh Hb Hg.
  destruct (deployStore_begin_inv _ _ _ _ _ _ _ Hb)
    as (s & Hs & Hstore & Hd & Hst & Hdep & Hid & Hfs).
  destruct (keeps_generateStaticSite env store d w1 _ w2 Hg)
    as (K1 & K2 & K3 & K4 & K5 & K6).
  assert (Hmail1 : outbox w1 = outbox w /\ mail_calls w1 = mail_calls w).
  { rewrite (deployStore_begin_found env storeId _ w s Hs) in Hb.
    inversion Hb; subst w1. split; reflexivity. }
  destruct Hmail1 as [Hbox Hcalls].
  assert (Hfd : find (Prisma.has_dep_id (dep_id d)) (deployments w2) = Some d).
  { rewrite K3, Hdep. apply find_app_fresh.
    - subst d. cbn. apply fresh_ids_find. exact Hfresh.
    - unfold Prisma.has_dep_id. apply Nat.eqb_refl. }
  assert (Hfs2 : find (Prisma.has_store_id storeId) (stores w2)
                 = Some (Prisma.apply_store_data
                           (Prisma.mkStoreData (Some PUBLISHED) (Some true) None None) s)).
  { rewrite K1, Hst. apply find_update_first; [reflexivity | exact Hs]. }
  destruct (deployStore_finish_mail env storeId store d bp w2 _ _ Hfd Hfs2)
    as (w' & Hfin & Hn & Hout).
  assert (Hsid : store_id (snap_store store) = storeId).
  { rewrite Hstore. cbn. apply (has_store_id_found _ _ _ Hs). }
  rewrite K6, Hcalls in Hn, Hout. rewrite K5, Hbox, Hsid in Hout.
  exists w'. split; [|split; [exact Hn|split]].
  - unfold DeploymentService.deployStore, try_catch, DeploymentService.deployStore_try.
    rewrite (bind_ok _ _ _ _ _ Hb). cbn [fst snd].
    rewrite (bind_ok _ _ _ _ _ Hg). rewrite Hfin. reflexivity.
  - intros E. rewrite E in Hout. exact Hout.
  - intros msg E. rewrite E in Hout. exact Hout.
Qed.

Lemma X18_witness :
  exists res w',
    DeploymentService.deployStore Sample.env_ok "s1" None Sample.world = (Ok res, w')
    /\ mail_calls w' = 1 /\ outbox w' = [("s1", 0)].
Proof.
  destruct (DeploymentService.deployStore_begin Sample.env_ok "s1" "production" Sample.world)
    as [[[store d]|e] w1] eqn:Hb; [|vm_compute in Hb; discriminate].
  destruct (DeploymentService.generateStaticSite Sample.env_ok store d w1)
    as [[bp|e] w2] eqn:Hg.
  - destruct (X18_notification_never_fails_a_deployment Sample.env_ok "s1" None
                Sample.world store d w1 bp w2) as (w' & Hrun & Hn & Hsent & _).
    + reflexivity.
    + exact Hb.
    + exact Hg.
    + eexists. exists w'. split; [exact Hrun|]. split; [exact Hn|].
      rewrite (Hsent eq_refl). vm_compute in Hb. inversion Hb; subst. reflexivity.
  - exfalso. vm_compute in Hb. inversion Hb; subst. vm_compute in Hg. discriminate.
Defined.

Lemma setupCustomDomain_touches_stores_only storeId domain w r w' :
  DeploymentService.setupCustomDomain storeId domain w = (r, w') ->
  deployments w' = deployments w /\ products w' = products w
  /\ fs_ops w' = fs_ops w /\ outbox w' = outbox w.
Proof.
  unfold DeploymentService.setupCustomDomain.
  destruct (negb (DeploymentService.isValidDomain domain)).
  - intros H; inversion H; subst. repeat split; reflexivity.
  - unfold bind, Prisma.store_findFirst_customDomain, gets.
    destruct (DeploymentService.bound_elsewhere _ storeId).
    + intros H; inversion H; subst. repeat split; reflexivity.
    + unfold Prisma.store_update.
      destruct (find (Prisma.has_store_id storeId) (stores w));
        intros H; inversion H; subst; repeat split; reflexivity.
Qed.

(** X19. In the handler [deployStore] the custom-domain step decides
    nothing: for the owner or an [ADMIN] of an existing store the handler
    ends exactly as the service call does, result or error, whatever the
    domain and whether binding it works.  Records, files and mail are
    those the service left; without a domain, or after a failed
    deployment, the whole state is; with a domain, it is the state
    [setupCustomDomain] leaves, changed or not. *)
Theorem X19_domain_step_decides_nothing :
  forall env user storeId environment customDomain sslEnabled w s r1 w1,
    find (Prisma.has_store_id storeId) (stores w) = Some s ->
    store_userId s = user_id user \/ user_role user = ADMIN ->
    DeploymentService.deployStore env storeId environment w = (r1, w1) ->
    exists w',
      Controller.deployStore env user storeId environment customDomain sslEnabled w = (r1, w')
      /\ deployments w' = deployments w1 /\ fs_ops w' = fs_ops w1
      /\ outbox w' = outbox w1
      /\ (Js.truthy customDomain = false -> w' = w1)
      /\ (forall e, r1 = Throw e -> w' = w1)
      /\ (forall res, r1 = Ok res -> Js.truthy customDomain = true ->
          w' = snd (DeploymentService.setupCustomDomain storeId (Js.show customDomain) w1)).
Proof.
  intros env user storeId environment customDomain sslEnabled w s r1 w1 Hs Hallowed Hrun.
  unfold Controller.deployStore, bind, Prisma.store_findUnique, gets.
  rewrite Hs, (denied_allowed user s Hallowed), Hrun.
  destruct r1 as [res|e].
  - destruct (Js.truthy customDomain) eqn:Et.
    + unfold try_catch, DeploymentService.enableSSL, ret.
      destruct (DeploymentService.setupCustomDomain storeId (Js.show customDomain) w1)
        as [r2 w2] eqn:Hsetup.
      destruct (setupCustomDomain_touches_stores_only _ _ _ _ _ Hsetup)
        as (S1 & _ & S3 & S4).
      exists w2. destruct r2 as [setup|e2]; destruct sslEnabled; cbn;
        (split; [reflexivity|]); repeat split; auto; try discriminate.
    + exists w1. unfold ret. cbn. repeat split; auto; discriminate.
  - exists w1. repeat split; auto; discriminate.
Qed.

Lemma X19_witness :
  let service := DeploymentService.deployStore Sample.env_ok "s1" None Sample.world in
  exists w',
    is_ok (fst service) = true
    /\ DeploymentService.isValidDomain "shop.example" = true
    /\ Controller.deployStore Sample.env_ok Sample.owner "s1" None
         (Some "shop.example") true Sample.world = (fst service, w')
    /\ deployments w' = deployments (snd service)
    /\ w' = snd (DeploymentService.setupCustomDomain "s1" "shop.example" (snd service))
    /\ option_map store_customDomain (find (Prisma.has_store_id "s1") (stores w'))
       = Some (Some "shop.example").
Proof.
  intros service.
  destruct (X19_domain_step_decides_nothing Sample.env_ok Sample.owner "s1" None
              (Some "shop.example") true Sample.world Sample.acme (fst service) (snd service))
    as (w' & Hh & Hdeps & _ & _ & _ & _ & Hdom).
  - reflexivity.
  - left. reflexivity.
  - exact (surjective_pairing service).
  - assert (Hok : exists res, fst service = Ok res).
    { eexists. vm_compute. reflexivity. }
    destruct Hok as (res & Hres).
    pose proof (Hdom res Hres eq_refl) as Hw'. cbn [Js.show] in Hw'.
    exists w'. split; [rewrite Hres; reflexivity|]. split; [vm_compute; reflexivity|].
    split; [exact Hh|]. split; [exact Hdeps|]. split; [exact Hw'|].
    rewrite Hw'. vm_compute. reflexivity.
Defined.

Lemma find_update_first_none {A} (p q : A -> bool) (f : A -> A) l :
  (forall a, p (f a) = p a) -> find p l = None -> find p (update_first q f l) = None.
Proof.
  intros Hp. induction l as [|a l IH]; cbn; [reflexivity|].
  destruct (p a) eqn:E; [discriminate|]. intros H.
  destruct (q a); cbn.
  - rewrite Hp, E. exact H.
  - rewrite E. apply IH. exact H.
Qed.

Lemma valid_domain_truthy domain :
  DeploymentService.isValidDomain domain = true -> Js.truthy (Some domain) = true.
Proof. destruct domain; [discriminate | reflexivity]. Qed.

(** X20. Deploying a store that has no custom domain together with a
    new, valid and unused one binds the domain only after the address was
    computed: the reply and the stored [deploymentUrl] are the subdomain
    address of the slug, while the store row now carries the custom
    domain, which [generateStoreUrl] would use from then on. *)
Theorem X20_first_deploy_with_domain_publishes_the_subdomain :
  forall env user storeId environment domain sslEnabled w s store d w1 bp w2,
    fresh_ids w = true ->
    find (Prisma.has_store_id storeId) (stores w) = Some s ->
    store_userId s = user_id user \/ user_role user = ADMIN ->
    Js.truthy (store_customDomain s) = false ->
    DeploymentService.deployStore_begin env storeId
      (Prisma.dflt environment "production") w = (Ok (store, d), w1) ->
    DeploymentService.generateStaticSite env store d w1 = (Ok bp, w2) ->
    DeploymentService.isValidDomain domain = true ->
    find (fun x => match store_customDomain x with
                   | Some c => c =? domain
                   | None => false
                   end) (stores w) = None ->
    exists res w' s',
      Controller.deployStore env user storeId environment (Some domain) sslEnabled w
      = (Ok res, w')
      /\ DeploymentService.deployed_url res
         = ("https://" ++ store_slug s
            ++ Js.show (Js.or (SUBDOMAIN_SUFFIX env) (Some ".stores.buildcart.ai")))%string
      /\ find (Prisma.has_store_id storeId) (stores w') = Some s'
      /\ store_customDomain s' = Some domain
      /\ store_deploymentUrl s' = Some (DeploymentService.deployed_url res)
      /\ DeploymentService.generateStoreUrl env (mkSnapshot s' (snap_products store))
         = ("https://" ++ domain)%string.
Proof.
  intros env user storeId environment domain sslEnabled w s store d w1 bp w2
         Hfresh Hs Hallowed Hnodomain Hb Hg Hvalid Hfree.
  destruct (deployStore_succeeded_build _ _ _ _ _ _ _ _ _ Hfresh Hb Hg)
    as (w3 & Hrun & _ & Hstores & _).
  destruct (deployStore_begin_inv _ _ _ _ _ _ _ Hb) as (s0 & Hs0 & Hstore & _).
  rewrite Hs in Hs0. inversion Hs0; subst s0. clear Hs0.
  assert (Hurl : DeploymentService.generateStoreUrl env store
                 = ("https://" ++ store_slug s
                    ++ Js.show (Js.or (SUBDOMAIN_SUFFIX env)
                                      (Some ".stores.buildcart.ai")))%string).
  { unfold DeploymentService.generateStoreUrl. rewrite Hstore. cbn [snap_store snapshot_of].
    rewrite Hnodomain. reflexivity. }
  set (sdata := Prisma.mkStoreData (Some PUBLISHED) (Some true)
                  (Some (Some (DeploymentService.generateStoreUrl env store))) None) in *.
  set (ddata := Prisma.mkStoreData None None None (Some (Some domain))).
  assert (Hsetup : DeploymentService.setupCustomDomain storeId domain w3
                   = (Ok (DeploymentService.mkDomainSetup domain ("https://" ++ domain)%string),
                      set_stores (update_first (Prisma.has_store_id storeId)
                                    (Prisma.apply_store_data ddata) (stores w3)) w3)).
  { rewrite (setupCustomDomain_valid storeId domain w3 Hvalid).
    rewrite Hstores at 1.
    rewrite find_update_first_none; [| reflexivity | exact Hfree].
    cbn [DeploymentService.bound_elsewhere].
    rewrite Hstores at 1.
    rewrite (find_update_first _ _ _ s) by (reflexivity || exact Hs). reflexivity. }
  exists (DeploymentService.mkDeployed d (DeploymentService.generateStoreUrl env store) bp),
    (set_stores (update_first (Prisma.has_store_id storeId)
                   (Prisma.apply_store_data ddata) (stores w3)) w3),
    (Prisma.apply_store_data ddata (Prisma.apply_store_data sdata s)).
  split; [|split; [exact Hurl|split]].
  - unfold Controller.deployStore, bind, Prisma.store_findUnique, gets.
    rewrite Hs, (denied_allowed user s Hallowed), Hrun.
    rewrite (valid_domain_truthy domain Hvalid).
    unfold try_catch. cbn [Js.show]. rewrite Hsetup.
    destruct sslEnabled; reflexivity.
  - cbn [stores set_stores]. rewrite Hstores.
    rewrite update_first_twice by reflexivity.
    apply (find_update_first _ (fun a => Prisma.apply_store_data ddata
                                           (Prisma.apply_store_data sdata a)));
      [reflexivity | exact Hs].
  - split; [reflexivity|]. split; [reflexivity|].
    unfold DeploymentService.generateStoreUrl. cbn [snap_store].
    cbn [Prisma.apply_store_data store_customDomain ddata Prisma.sd_customDomain Prisma.dflt].
    rewrite (valid_domain_truthy domain Hvalid). reflexivity.
Qed.

Lemma X20_witness :
  exists res w' s',
    Controller.deployStore Sample.env_ok Sample.owner "s1" None (Some "shop.example") true
      Sample.world = (Ok res, w')
    /\ DeploymentService.deployed_url res = "https://acme.stores.buildcart.ai"
    /\ find (Prisma.has_store_id "s1") (stores w') = Some s'
    /\ store_customDomain s' = Some "shop.example".
Proof.
  destruct (DeploymentService.deployStore_begin Sample.env_ok "s1" "production" Sample.world)
    as [[[store d]|e] w1] eqn:Hb; [|vm_compute in Hb; discriminate].
  destruct (DeploymentService.generateStaticSite Sample.env_ok store d w1)
    as [[bp|e] w2] eqn:Hg.
  - destruct (X20_first_deploy_with_domain_publishes_the_subdomain Sample.env_ok Sample.owner
                "s1" None "shop.example" true Sample.world Sample.acme store d w1 bp w2)
      as (res & w' & s' & Hrun & Hurl & Hfind & Hdom & _); try reflexivity; try assumption.
    + left. reflexivity.
    + exists res, w', s'. repeat split; assumption.
  - exfalso. vm_compute in Hb. inversion Hb; subst. vm_compute in Hg. discriminate.
Defined.

(** ** The paths of a build and the placeholder image *)

Lemma copy_caught_ops env src dest w r w' :
  try_catch (Fs.copyFile env src dest) (fun _ => ret tt) w = (r, w') ->
  exists copied : bool,
    fs_ops w' = fs_ops w ++ (if copied then [CopyFile src dest] else [])
    /\ ticks w' = ticks w.
Proof.
  unfold try_catch, Fs.copyFile, Fs.call, ret.
  destruct (fs_fault env (fs_calls w)); intros H; inversion H; cbn.
  - exists false. rewrite app_nil_r. split; reflexivity.
  - exists true. split; reflexivity.
Qed.

Ltac step_ops :=
  match goal with
  | H : bind _ _ _ = (Ok _, _) |- _ =>
      apply bind_inv_ok in H; destruct H as (? & ? & ? & H); cbv beta in H
  | H : Fs.call _ _ _ = (Ok _, _) |- _ => apply call_ok in H; destruct H as [? ?]
  | H : DeploymentService.writeProductPages _ _ _ _ _ = (Ok _, _) |- _ =>
      apply writeProductPages_ok in H; destruct H as [? ?]
  | H : Prisma.now _ _ = (Ok _, _) |- _ => apply now_ok in H; destruct H as (? & ? & ?)
  | H : ret _ _ = (Ok _, _) |- _ => apply ret_ok in H; destruct H as [? ?]
  end.

Lemma creates_writes {A} (f g : A -> string) l :
  map Build.creates (map (fun p => WriteFile (f p) (g p)) l) = map f l.
Proof. induction l as [|a l IH]; cbn; [reflexivity | rewrite IH; reflexivity]. Qed.

(** The operations of a build that returned, by the paths they create. *)
Lemma generateStaticSite_paths env store d w bp w' :
  DeploymentService.generateStaticSite env store d w = (Ok bp, w') ->
  exists ops copied,
    fs_ops w' = fs_ops w ++ ops
    /\ map Build.creates ops = Build.paths bp store copied.
Proof.
  unfold DeploymentService.generateStaticSite. intros H.
  apply try_rethrow_ok in H. unfold_site.
  repeat step_ops.
  match goal with
  | H : try_catch (Fs.copyFile _ _ _) _ _ = _ |- _ =>
      apply copy_caught_ops in H; destruct H as (copied & ? & ?)
  end.
  repeat step_ops. subst.
  repeat match goal with
         | E : fs_ops _ = _ |- _ => rewrite E; clear E
         end.
  rewrite <- !app_assoc. eexists. exists copied. split; [reflexivity|].
  rewrite !map_app, creates_writes.
  destruct copied; reflexivity.
Qed.

Lemma join_differs bp name other :
  name <> other -> Fs.join bp name <> Fs.join bp other.
Proof.
  unfold Fs.join. intros Hne H. apply append_cancel in H.
  inversion H. contradiction.
Qed.

Lemma append_not_self (a b : string) : b <> EmptyString -> a <> (a ++ b)%string.
Proof.
  intros Hb H. apply Hb.
  apply (append_cancel a). rewrite append_empty. symmetry. exact H.
Qed.

(** X21. The cards of a product without image take their picture from
    [/placeholder.jpg], but a build never creates [placeholder.jpg] in its
    directory: the paths it creates are the directory, the documents, the
    folders [product] and [assets] and, when the copy went through,
    [assets/placeholder.jpg], in the order of the calls. *)
Theorem X21_placeholder_is_copied_elsewhere :
  forall env store d w bp w',
    DeploymentService.generateStaticSite env store d w = (Ok bp, w') ->
    exists ops copied,
      fs_ops w' = fs_ops w ++ ops
      /\ map Build.creates ops = Build.paths bp store copied
      /\ ~ In (Fs.join bp "placeholder.jpg") (map Build.creates ops)
      /\ (forall p, In p (snap_products store) ->
            Js.truthy (hd_error (product_images p)) = false ->
            nth_error (DeploymentService.homeCard p) 1 = Some "/placeholder.jpg"
            /\ nth_error (DeploymentService.productsCard p) 1 = Some "/placeholder.jpg").
Proof.
  intros env store d w bp w' H.
  destruct (generateStaticSite_paths _ _ _ _ _ _ H) as (ops & copied & Hops & Hpaths).
  exists ops, copied. split; [exact Hops|]. split; [exact Hpaths|].
  assert (Hnot : ~ In (Fs.join bp "placeholder.jpg") (Build.paths bp store copied)).
  { unfold Build.paths. intros Hin.
    repeat (apply in_app_or in Hin; destruct Hin as [Hin|Hin]).
    - cbn in Hin.
      destruct Hin as [E|[E|[E|[E|[]]]]];
        try (revert E; apply join_differs; discriminate).
      revert E. unfold Fs.join. apply append_not_self. discriminate.
    - apply in_map_iff in Hin. destruct Hin as (p & E & _).
      unfold Fs.join in E. rewrite append_assoc in E. apply append_cancel in E.
      cbn in E. discriminate.
    - cbn in Hin.
      destruct Hin as [E|[E|[E|[E|[E|[E|[E|[]]]]]]]];
        revert E; apply join_differs; discriminate.
    - destruct copied; [|destruct Hin].
      destruct Hin as [E|[]]. unfold Fs.join in E.
      rewrite append_assoc in E. apply append_cancel in E. cbn in E. discriminate.
    - cbn in Hin. destruct Hin as [E|[E|[]]]; revert E; apply join_differs; discriminate. }
  split; [rewrite Hpaths; exact Hnot|].
  intros p _ Himg. unfold DeploymentService.homeCard, DeploymentService.productsCard.
    cbn [nth_error]. unfold Js.or. rewrite Himg. split; reflexivity.
Qed.

Lemma X21_witness :
  exists bp w' ops copied,
    DeploymentService.generateStaticSite Sample.env_ok
      (snapshot_of "s1" Sample.acme Sample.world)
      (created Sample.env_ok "s1" "production" (snapshot_of "s1" Sample.acme Sample.world)
         Sample.world)
      Sample.world = (Ok bp, w')
    /\ fs_ops w' = fs_ops Sample.world ++ ops
    /\ ~ In (Fs.join bp "placeholder.jpg") (map Build.creates ops)
    /\ map Build.creates ops
       = Build.paths bp (snapshot_of "s1" Sample.acme Sample.world) copied.
Proof.
  destruct (DeploymentService.generateStaticSite Sample.env_ok
              (snapshot_of "s1" Sample.acme Sample.world)
              (created Sample.env_ok "s1" "production"
                 (snapshot_of "s1" Sample.acme Sample.world) Sample.world)
              Sample.world) as [[bp|e] w'] eqn:Hg.
  - destruct (X21_placeholder_is_copied_elsewhere _ _ _ _ _ _ Hg)
      as (ops & copied & Hops & Hpaths & Hnot & _).
    exists bp, w', ops, copied. repeat split; assumption.
  - exfalso. vm_compute in Hg. discriminate.
Defined.

(** ** Subscription plans *)

(** X22. [requireSubscription] ranks [FREE], [BASIC], [PROFESSIONAL] and
    [ENTERPRISE], but the column [subscriptionStatus] holds [FREE],
    [ACTIVE], [PAST_DUE], [CANCELED] or [TRIALING]: every stored status
    has level 0.  So a route that requires a paid plan refuses every
    user with an [AuthorizationError], whatever the status, and a route
    that requires [FREE] lets every user through; the state is untouched. *)
Theorem X22_no_status_reaches_a_paid_plan :
  forall status plan w,
    In status Handlers.subscription_statuses ->
    In plan ["BASIC"; "PROFESSIONAL"; "ENTERPRISE"] ->
    Handlers.subscriptionLevel status = 0
    /\ Handlers.requireSubscription plan (Some status) w
       = (Throw (mkExn AuthorizationError
                   ("This feature requires a " ++ plan ++ " subscription or higher")), w)
    /\ Handlers.requireSubscription "FREE" (Some status) w = (Ok tt, w)
    /\ Handlers.requireSubscription plan None w
       = (Throw (mkExn AuthenticationError "Authentication required"), w).
Proof.
  intros status plan w Hs Hp.
  assert (H0 : Handlers.subscriptionLevel status = 0).
  { cbn in Hs. destruct Hs as [<-|[<-|[<-|[<-|[<-|[]]]]]]; reflexivity. }
  assert (Hpos : Nat.ltb 0 (Handlers.subscriptionLevel plan) = true).
  { cbn in Hp. destruct Hp as [<-|[<-|[<-|[]]]]; reflexivity. }
  split; [exact H0|]. split; [|split; [|reflexivity]].
  - unfold Handlers.requireSubscription. rewrite H0, Hpos. reflexivity.
  - unfold Handlers.requireSubscription. rewrite H0. reflexivity.
Qed.

Lemma X22_witness :
  Handlers.requireSubscription "PROFESSIONAL" (Some "ACTIVE") Sample.world
  = (Throw (mkExn AuthorizationError
              "This feature requires a PROFESSIONAL subscription or higher"), Sample.world).
Proof.
  apply (X22_no_status_reaches_a_paid_plan "ACTIVE" "PROFESSIONAL" Sample.world).
  - cbn. right. left. reflexivity.
  - cbn. right. left. reflexivity.
Defined.
